(** * Batch image processor: a shallow embedding of
      [gogolin/batch_image_processor.py] and the properties of its
      directory scan, loading stage and per-item processing loop.

    Conventions of the embedding.
    - A Python [str] is the [string] of its UTF-8 bytes; [str.lower] is
      written out with the character tables of CPython 3.11.
    - Python [int] counters are [Z].
    - The helpers of the Python standard library that the class calls
      ([str.rfind], [str.lower], [pathlib.PurePath.suffix],
      [os.path.splitext], [os.path.join], [os.path.basename]) are written
      out after their CPython 3.10-3.12 POSIX definitions.
    - The calls into [magic_pdf] and into the file system are the fields of
      a record of externals working on an abstract world; a call that can
      raise returns its outcome explicitly.  Only [Exception]s are
      modelled; logging is not. *)

From Stdlib Require Import String Ascii List ZArith NArith Lia Bool.
Import ListNotations.

Local Open Scope string_scope.
Local Open Scope Z_scope.

(** ** The character tables of the interpreter

    [str.lower()] works from the Unicode character database built into
    CPython; the tables below are those of CPython 3.11 (Unicode 14.0.0),
    by code point. *)

Module UnicodeData.

Local Open Scope N_scope.

(** The characters other than the capital sigma whose lower-case form
    differs from them, with the code points of that form. *)
Definition lower_table : list (N * list N) :=
 [
  (192, [224]); (193, [225]); (194, [226]); (195, [227]); (196, [228]);
  (197, [229]); (198, [230]); (199, [231]); (200, [232]); (201, [233]);
  (202, [234]); (203, [235]); (204, [236]); (205, [237]); (206, [238]);
  (207, [239]); (208, [240]); (209, [241]); (210, [242]); (211, [243]);
  (212, [244]); (213, [245]); (214, [246]); (216, [248]); (217, [249]);
  (218, [250]); (219, [251]); (220, [252]); (221, [253]); (222, [254]);
  (256, [257]); (258, [259]); (260, [261]); (262, [263]); (264, [265]);
  (266, [267]); (268, [269]); (270, [271]); (272, [273]); (274, [275]);
  (276, [277]); (278, [279]); (280, [281]); (282, [283]); (284, [285]);
  (286, [287]); (288, [289]); (290, [291]); (292, [293]); (294, [295]);
  (296, [297]); (298, [299]); (300, [301]); (302, [303]); (304, [105; 775]);
  (306, [307]); (308, [309]); (310, [311]); (313, [314]); (315, [316]);
  (317, [318]); (319, [320]); (321, [322]); (323, [324]); (325, [326]);
  (327, [328]); (330, [331]); (332, [333]); (334, [335]); (336, [337]);
  (338, [339]); (340, [341]); (342, [343]); (344, [345]); (346, [347]);
  (348, [349]); (350, [351]); (352, [353]); (354, [355]); (356, [357]);
  (358, [359]); (360, [361]); (362, [363]); (364, [365]); (366, [367]);
  (368, [369]); (370, [371]); (372, [373]); (374, [375]); (376, [255]);
  (377, [378]); (379, [380]); (381, [382]); (385, [595]); (386, [387]);
  (388, [389]); (390, [596]); (391, [392]); (393, [598]); (394, [599]);
  (395, [396]); (398, [477]); (399, [601]); (400, [603]); (401, [402]);
  (403, [608]); (404, [611]); (406, [617]); (407, [616]); (408, [409]);
  (412, [623]); (413, [626]); (415, [629]); (416, [417]); (418, [419]);
  (420, [421]); (422, [640]); (423, [424]); (425, [643]); (428, [429]);
  (430, [648]); (431, [432]); (433, [650]); (434, [651]); (435, [436]);
  (437, [438]); (439, [658]); (440, [441]); (444, [445]); (452, [454]);
  (453, [454]); (455, [457]); (456, [457]); (458, [460]); (459, [460]);
  (461, [462]); (463, [464]); (465, [466]); (467, [468]); (469, [470]);
  (471, [472]); (473, [474]); (475, [476]); (478, [479]); (480, [481]);
  (482, [483]); (484, [485]); (486, [487]); (488, [489]); (490, [491]);
  (492, [493]); (494, [495]); (497, [499]); (498, [499]); (500, [501]);
  (502, [405]); (503, [447]); (504, [505]); (506, [507]); (508, [509]);
  (510, [511]); (512, [513]); (514, [515]); (516, [517]); (518, [519]);
  (520, [521]); (522, [523]); (524, [525]); (526, [527]); (528, [529]);
  (530, [531]); (532, [533]); (534, [535]); (536, [537]); (538, [539]);
  (540, [541]); (542, [543]); (544, [414]); (546, [547]); (548, [549]);
  (550, [551]); (552, [553]); (554, [555]); (556, [557]); (558, [559]);
  (560, [561]); (562, [563]); (570, [11365]); (571, [572]); (573, [410]);
  (574, [11366]); (577, [578]); (579, [384]); (580, [649]); (581, [652]);
  (582, [583]); (584, [585]); (586, [587]); (588, [589]); (590, [591]);
  (880, [881]); (882, [883]); (886, [887]); (895, [1011]); (902, [940]);
  (904, [941]); (905, [942]); (906, [943]); (908, [972]); (910, [973]);
  (911, [974]); (913, [945]); (914, [946]); (915, [947]); (916, [948]);
  (917, [949]); (918, [950]); (919, [951]); (920, [952]); (921, [953]);
  (922, [954]); (923, [955]); (924, [956]); (925, [957]); (926, [958]);
  (927, [959]); (928, [960]); (929, [961]); (932, [964]); (933, [965]);
  (934, [966]); (935, [967]); (936, [968]); (937, [969]); (938, [970]);
  (939, [971]); (975, [983]); (984, [985]); (986, [987]); (988, [989]);
  (990, [991]); (992, [993]); (994, [995]); (996, [997]); (998, [999]);
  (1000, [1001]); (1002, [1003]); (1004, [1005]); (1006, [1007]);
  (1012, [952]); (1015, [1016]); (1017, [1010]); (1018, [1019]);
  (1021, [891]); (1022, [892]); (1023, [893]); (1024, [1104]);
  (1025, [1105]); (1026, [1106]); (1027, [1107]); (1028, [1108]);
  (1029, [1109]); (1030, [1110]); (1031, [1111]); (1032, [1112]);
  (1033, [1113]); (1034, [1114]); (1035, [1115]); (1036, [1116]);
  (1037, [1117]); (1038, [1118]); (1039, [1119]); (1040, [1072]);
  (1041, [1073]); (1042, [1074]); (1043, [1075]); (1044, [1076]);
  (1045, [1077]); (1046, [1078]); (1047, [1079]); (1048, [1080]);
  (1049, [1081]); (1050, [1082]); (1051, [1083]); (1052, [1084]);
  (1053, [1085]); (1054, [1086]); (1055, [1087]); (1056, [1088]);
  (1057, [1089]); (1058, [1090]); (1059, [1091]); (1060, [1092]);
  (1061, [1093]); (1062, [1094]); (1063, [1095]); (1064, [1096]);
  (1065, [1097]); (1066, [1098]); (1067, [1099]); (1068, [1100]);
  (1069, [1101]); (1070, [1102]); (1071, [1103]); (1120, [1121]);
  (1122, [1123]); (1124, [1125]); (1126, [1127]); (1128, [1129]);
  (1130, [1131]); (1132, [1133]); (1134, [1135]); (1136, [1137]);
  (1138, [1139]); (1140, [1141]); (1142, [1143]); (1144, [1145]);
  (1146, [1147]); (1148, [1149]); (1150, [1151]); (1152, [1153]);
  (1162, [1163]); (1164, [1165]); (1166, [1167]); (1168, [1169]);
  (1170, [1171]); (1172, [1173]); (1174, [1175]); (1176, [1177]);
  (1178, [1179]); (1180, [1181]); (1182, [1183]); (1184, [1185]);
  (1186, [1187]); (1188, [1189]); (1190, [1191]); (1192, [1193]);
  (1194, [1195]); (1196, [1197]); (1198, [1199]); (1200, [1201]);
  (1202, [1203]); (1204, [1205]); (1206, [1207]); (1208, [1209]);
  (1210, [1211]); (1212, [1213]); (1214, [1215]); (1216, [1231]);
  (1217, [1218]); (1219, [1220]); (1221, [1222]); (1223, [1224]);
  (1225, [1226]); (1227, [1228]); (1229, [1230]); (1232, [1233]);
  (1234, [1235]); (1236, [1237]); (1238, [1239]); (1240, [1241]);
  (1242, [1243]); (1244, [1245]); (1246, [1247]); (1248, [1249]);
  (1250, [1251]); (1252, [1253]); (1254, [1255]); (1256, [1257]);
  (1258, [1259]); (1260, [1261]); (1262, [1263]); (1264, [1265]);
  (1266, [1267]); (1268, [1269]); (1270, [1271]); (1272, [1273]);
  (1274, [1275]); (1276, [1277]); (1278, [1279]); (1280, [1281]);
  (1282, [1283]); (1284, [1285]); (1286, [1287]); (1288, [1289]);
  (1290, [1291]); (1292, [1293]); (1294, [1295]); (1296, [1297]);
  (1298, [1299]); (1300, [1301]); (1302, [1303]); (1304, [1305]);
  (1306, [1307]); (1308, [1309]); (1310, [1311]); (1312, [1313]);
  (1314, [1315]); (1316, [1317]); (1318, [1319]); (1320, [1321]);
  (1322, [1323]); (1324, [1325]); (1326, [1327]); (1329, [1377]);
  (1330, [1378]); (1331, [1379]); (1332, [1380]); (1333, [1381]);
  (1334, [1382]); (1335, [1383]); (1336, [1384]); (1337, [1385]);
  (1338, [1386]); (1339, [1387]); (1340, [1388]); (1341, [1389]);
  (1342, [1390]); (1343, [1391]); (1344, [1392]); (1345, [1393]);
  (1346, [1394]); (1347, [1395]); (1348, [1396]); (1349, [1397]);
  (1350, [1398]); (1351, [1399]); (1352, [1400]); (1353, [1401]);
  (1354, [1402]); (1355, [1403]); (1356, [1404]); (1357, [1405]);
  (1358, [1406]); (1359, [1407]); (1360, [1408]); (1361, [1409]);
  (1362, [1410]); (1363, [1411]); (1364, [1412]); (1365, [1413]);
  (1366, [1414]); (4256, [11520]); (4257, [11521]); (4258, [11522]);
  (4259, [11523]); (4260, [11524]); (4261, [11525]); (4262, [11526]);
  (4263, [11527]); (4264, [11528]); (4265, [11529]); (4266, [11530]);
  (4267, [11531]); (4268, [11532]); (4269, [11533]); (4270, [11534]);
  (4271, [11535]); (4272, [11536]); (4273, [11537]); (4274, [11538]);
  (4275, [11539]); (4276, [11540]); (4277, [11541]); (4278, [11542]);
  (4279, [11543]); (4280, [11544]); (4281, [11545]); (4282, [11546]);
  (4283, [11547]); (4284, [11548]); (4285, [11549]); (4286, [11550]);
  (4287, [11551]); (4288, [11552]); (4289, [11553]); (4290, [11554]);
  (4291, [11555]); (4292, [11556]); (4293, [11557]); (4295, [11559]);
  (4301, [11565]); (5024, [43888]); (5025, [43889]); (5026, [43890]);
  (5027, [43891]); (5028, [43892]); (5029, [43893]); (5030, [43894]);
  (5031, [43895]); (5032, [43896]); (5033, [43897]); (5034, [43898]);
  (5035, [43899]); (5036, [43900]); (5037, [43901]); (5038, [43902]);
  (5039, [43903]); (5040, [43904]); (5041, [43905]); (5042, [43906]);
  (5043, [43907]); (5044, [43908]); (5045, [43909]); (5046, [43910]);
  (5047, [43911]); (5048, [43912]); (5049, [43913]); (5050, [43914]);
  (5051, [43915]); (5052, [43916]); (5053, [43917]); (5054, [43918]);
  (5055, [43919]); (5056, [43920]); (5057, [43921]); (5058, [43922]);
  (5059, [43923]); (5060, [43924]); (5061, [43925]); (5062, [43926]);
  (5063, [43927]); (5064, [43928]); (5065, [43929]); (5066, [43930]);
  (5067, [43931]); (5068, [43932]); (5069, [43933]); (5070, [43934]);
  (5071, [43935]); (5072, [43936]); (5073, [43937]); (5074, [43938]);
  (5075, [43939]); (5076, [43940]); (5077, [43941]); (5078, [43942]);
  (5079, [43943]); (5080, [43944]); (5081, [43945]); (5082, [43946]);
  (5083, [43947]); (5084, [43948]); (5085, [43949]); (5086, [43950]);
  (5087, [43951]); (5088, [43952]); (5089, [43953]); (5090, [43954]);
  (5091, [43955]); (5092, [43956]); (5093, [43957]); (5094, [43958]);
  (5095, [43959]); (5096, [43960]); (5097, [43961]); (5098, [43962]);
  (5099, [43963]); (5100, [43964]); (5101, [43965]); (5102, [43966]);
  (5103, [43967]); (5104, [5112]); (5105, [5113]); (5106, [5114]);
  (5107, [5115]); (5108, [5116]); (5109, [5117]); (7312, [4304]);
  (7313, [4305]); (7314, [4306]); (7315, [4307]); (7316, [4308]);
  (7317, [4309]); (7318, [4310]); (7319, [4311]); (7320, [4312]);
  (7321, [4313]); (7322, [4314]); (7323, [4315]); (7324, [4316]);
  (7325, [4317]); (7326, [4318]); (7327, [4319]); (7328, [4320]);
  (7329, [4321]); (7330, [4322]); (7331, [4323]); (7332, [4324]);
  (7333, [4325]); (7334, [4326]); (7335, [4327]); (7336, [4328]);
  (7337, [4329]); (7338, [4330]); (7339, [4331]); (7340, [4332]);
  (7341, [4333]); (7342, [4334]); (7343, [4335]); (7344, [4336]);
  (7345, [4337]); (7346, [4338]); (7347, [4339]); (7348, [4340]);
  (7349, [4341]); (7350, [4342]); (7351, [4343]); (7352, [4344]);
  (7353, [4345]); (7354, [4346]); (7357, [4349]); (7358, [4350]);
  (7359, [4351]); (7680, [7681]); (7682, [7683]); (7684, [7685]);
  (7686, [7687]); (7688, [7689]); (7690, [7691]); (7692, [7693]);
  (7694, [7695]); (7696, [7697]); (7698, [7699]); (7700, [7701]);
  (7702, [7703]); (7704, [7705]); (7706, [7707]); (7708, [7709]);
  (7710, [7711]); (7712, [7713]); (7714, [7715]); (7716, [7717]);
  (7718, [7719]); (7720, [7721]); (7722, [7723]); (7724, [7725]);
  (7726, [7727]); (7728, [7729]); (7730, [7731]); (7732, [7733]);
  (7734, [7735]); (7736, [7737]); (7738, [7739]); (7740, [7741]);
  (7742, [7743]); (7744, [7745]); (7746, [7747]); (7748, [7749]);
  (7750, [7751]); (7752, [7753]); (7754, [7755]); (7756, [7757]);
  (7758, [7759]); (7760, [7761]); (7762, [7763]); (7764, [7765]);
  (7766, [7767]); (7768, [7769]); (7770, [7771]); (7772, [7773]);
  (7774, [7775]); (7776, [7777]); (7778, [7779]); (7780, [7781]);
  (7782, [7783]); (7784, [7785]); (7786, [7787]); (7788, [7789]);
  (7790, [7791]); (7792, [7793]); (7794, [7795]); (7796, [7797]);
  (7798, [7799]); (7800, [7801]); (7802, [7803]); (7804, [7805]);
  (7806, [7807]); (7808, [7809]); (7810, [7811]); (7812, [7813]);
  (7814, [7815]); (7816, [7817]); (7818, [7819]); (7820, [7821]);
  (7822, [7823]); (7824, [7825]); (7826, [7827]); (7828, [7829]);
  (7838, [223]); (7840, [7841]); (7842, [7843]); (7844, [7845]);
  (7846, [7847]); (7848, [7849]); (7850, [7851]); (7852, [7853]);
  (7854, [7855]); (7856, [7857]); (7858, [7859]); (7860, [7861]);
  (7862, [7863]); (7864, [7865]); (7866, [7867]); (7868, [7869]);
  (7870, [7871]); (7872, [7873]); (7874, [7875]); (7876, [7877]);
  (7878, [7879]); (7880, [7881]); (7882, [7883]); (7884, [7885]);
  (7886, [7887]); (7888, [7889]); (7890, [7891]); (7892, [7893]);
  (7894, [7895]); (7896, [7897]); (7898, [7899]); (7900, [7901]);
  (7902, [7903]); (7904, [7905]); (7906, [7907]); (7908, [7909]);
  (7910, [7911]); (7912, [7913]); (7914, [7915]); (7916, [7917]);
  (7918, [7919]); (7920, [7921]); (7922, [7923]); (7924, [7925]);
  (7926, [7927]); (7928, [7929]); (7930, [7931]); (7932, [7933]);
  (7934, [7935]); (7944, [7936]); (7945, [7937]); (7946, [7938]);
  (7947, [7939]); (7948, [7940]); (7949, [7941]); (7950, [7942]);
  (7951, [7943]); (7960, [7952]); (7961, [7953]); (7962, [7954]);
  (7963, [7955]); (7964, [7956]); (7965, [7957]); (7976, [7968]);
  (7977, [7969]); (7978, [7970]); (7979, [7971]); (7980, [7972]);
  (7981, [7973]); (7982, [7974]); (7983, [7975]); (7992, [7984]);
  (7993, [7985]); (7994, [7986]); (7995, [7987]); (7996, [7988]);
  (7997, [7989]); (7998, [7990]); (7999, [7991]); (8008, [8000]);
  (8009, [8001]); (8010, [8002]); (8011, [8003]); (8012, [8004]);
  (8013, [8005]); (8025, [8017]); (8027, [8019]); (8029, [8021]);
  (8031, [8023]); (8040, [8032]); (8041, [8033]); (8042, [8034]);
  (8043, [8035]); (8044, [8036]); (8045, [8037]); (8046, [8038]);
  (8047, [8039]); (8072, [8064]); (8073, [8065]); (8074, [8066]);
  (8075, [8067]); (8076, [8068]); (8077, [8069]); (8078, [8070]);
  (8079, [8071]); (8088, [8080]); (8089, [8081]); (8090, [8082]);
  (8091, [8083]); (8092, [8084]); (8093, [8085]); (8094, [8086]);
  (8095, [8087]); (8104, [8096]); (8105, [8097]); (8106, [8098]);
  (8107, [8099]); (8108, [8100]); (8109, [8101]); (8110, [8102]);
  (8111, [8103]); (8120, [8112]); (8121, [8113]); (8122, [8048]);
  (8123, [8049]); (8124, [8115]); (8136, [8050]); (8137, [8051]);
  (8138, [8052]); (8139, [8053]); (8140, [8131]); (8152, [8144]);
  (8153, [8145]); (8154, [8054]); (8155, [8055]); (8168, [8160]);
  (8169, [8161]); (8170, [8058]); (8171, [8059]); (8172, [8165]);
  (8184, [8056]); (8185, [8057]); (8186, [8060]); (8187, [8061]);
  (8188, [8179]); (8486, [969]); (8490, [107]); (8491, [229]);
  (8498, [8526]); (8544, [8560]); (8545, [8561]); (8546, [8562]);
  (8547, [8563]); (8548, [8564]); (8549, [8565]); (8550, [8566]);
  (8551, [8567]); (8552, [8568]); (8553, [8569]); (8554, [8570]);
  (8555, [8571]); (8556, [8572]); (8557, [8573]); (8558, [8574]);
  (8559, [8575]); (8579, [8580]); (9398, [9424]); (9399, [9425]);
  (9400, [9426]); (9401, [9427]); (9402, [9428]); (9403, [9429]);
  (9404, [9430]); (9405, [9431]); (9406, [9432]); (9407, [9433]);
  (9408, [9434]); (9409, [9435]); (9410, [9436]); (9411, [9437]);
  (9412, [9438]); (9413, [9439]); (9414, [9440]); (9415, [9441]);
  (9416, [9442]); (9417, [9443]); (9418, [9444]); (9419, [9445]);
  (9420, [9446]); (9421, [9447]); (9422, [9448]); (9423, [9449]);
  (11264, [11312]); (11265, [11313]); (11266, [11314]); (11267, [11315]);
  (11268, [11316]); (11269, [11317]); (11270, [11318]); (11271, [11319]);
  (11272, [11320]); (11273, [11321]); (11274, [11322]); (11275, [11323]);
  (11276, [11324]); (11277, [11325]); (11278, [11326]); (11279, [11327]);
  (11280, [11328]); (11281, [11329]); (11282, [11330]); (11283, [11331]);
  (11284, [11332]); (11285, [11333]); (11286, [11334]); (11287, [11335]);
  (11288, [11336]); (11289, [11337]); (11290, [11338]); (11291, [11339]);
  (11292, [11340]); (11293, [11341]); (11294, [11342]); (11295, [11343]);
  (11296, [11344]); (11297, [11345]); (11298, [11346]); (11299, [11347]);
  (11300, [11348]); (11301, [11349]); (11302, [11350]); (11303, [11351]);
  (11304, [11352]); (11305, [11353]); (11306, [11354]); (11307, [11355]);
  (11308, [11356]); (11309, [11357]); (11310, [11358]); (11311, [11359]);
  (11360, [11361]); (11362, [619]); (11363, [7549]); (11364, [637]);
  (11367, [11368]); (11369, [11370]); (11371, [11372]); (11373, [593]);
  (11374, [625]); (11375, [592]); (11376, [594]); (11378, [11379]);
  (11381, [11382]); (11390, [575]); (11391, [576]); (11392, [11393]);
  (11394, [11395]); (11396, [11397]); (11398, [11399]); (11400, [11401]);
  (11402, [11403]); (11404, [11405]); (11406, [11407]); (11408, [11409]);
  (11410, [11411]); (11412, [11413]); (11414, [11415]); (11416, [11417]);
  (11418, [11419]); (11420, [11421]); (11422, [11423]); (11424, [11425]);
  (11426, [11427]); (11428, [11429]); (11430, [11431]); (11432, [11433]);
  (11434, [11435]); (11436, [11437]); (11438, [11439]); (11440, [11441]);
  (11442, [11443]); (11444, [11445]); (11446, [11447]); (11448, [11449]);
  (11450, [11451]); (11452, [11453]); (11454, [11455]); (11456, [11457]);
  (11458, [11459]); (11460, [11461]); (11462, [11463]); (11464, [11465]);
  (11466, [11467]); (11468, [11469]); (11470, [11471]); (11472, [11473]);
  (11474, [11475]); (11476, [11477]); (11478, [11479]); (11480, [11481]);
  (11482, [11483]); (11484, [11485]); (11486, [11487]); (11488, [11489]);
  (11490, [11491]); (11499, [11500]); (11501, [11502]); (11506, [11507]);
  (42560, [42561]); (42562, [42563]); (42564, [42565]); (42566, [42567]);
  (42568, [42569]); (42570, [42571]); (42572, [42573]); (42574, [42575]);
  (42576, [42577]); (42578, [42579]); (42580, [42581]); (42582, [42583]);
  (42584, [42585]); (42586, [42587]); (42588, [42589]); (42590, [42591]);
  (42592, [42593]); (42594, [42595]); (42596, [42597]); (42598, [42599]);
  (42600, [42601]); (42602, [42603]); (42604, [42605]); (42624, [42625]);
  (42626, [42627]); (42628, [42629]); (42630, [42631]); (42632, [42633]);
  (42634, [42635]); (42636, [42637]); (42638, [42639]); (42640, [42641]);
  (42642, [42643]); (42644, [42645]); (42646, [42647]); (42648, [42649]);
  (42650, [42651]); (42786, [42787]); (42788, [42789]); (42790, [42791]);
  (42792, [42793]); (42794, [42795]); (42796, [42797]); (42798, [42799]);
  (42802, [42803]); (42804, [42805]); (42806, [42807]); (42808, [42809]);
  (42810, [42811]); (42812, [42813]); (42814, [42815]); (42816, [42817]);
  (42818, [42819]); (42820, [42821]); (42822, [42823]); (42824, [42825]);
  (42826, [42827]); (42828, [42829]); (42830, [42831]); (42832, [42833]);
  (42834, [42835]); (42836, [42837]); (42838, [42839]); (42840, [42841]);
  (42842, [42843]); (42844, [42845]); (42846, [42847]); (42848, [42849]);
  (42850, [42851]); (42852, [42853]); (42854, [42855]); (42856, [42857]);
  (42858, [42859]); (42860, [42861]); (42862, [42863]); (42873, [42874]);
  (42875, [42876]); (42877, [7545]); (42878, [42879]); (42880, [42881]);
  (42882, [42883]); (42884, [42885]); (42886, [42887]); (42891, [42892]);
  (42893, [613]); (42896, [42897]); (42898, [42899]); (42902, [42903]);
  (42904, [42905]); (42906, [42907]); (42908, [42909]); (42910, [42911]);
  (42912, [42913]); (42914, [42915]); (42916, [42917]); (42918, [42919]);
  (42920, [42921]); (42922, [614]); (42923, [604]); (42924, [609]);
  (42925, [620]); (42926, [618]); (42928, [670]); (42929, [647]);
  (42930, [669]); (42931, [43859]); (42932, [42933]); (42934, [42935]);
  (42936, [42937]); (42938, [42939]); (42940, [42941]); (42942, [42943]);
  (42944, [42945]); (42946, [42947]); (42948, [42900]); (42949, [642]);
  (42950, [7566]); (42951, [42952]); (42953, [42954]); (42960, [42961]);
  (42966, [42967]); (42968, [42969]); (42997, [42998]); (65313, [65345]);
  (65314, [65346]); (65315, [65347]); (65316, [65348]); (65317, [65349]);
  (65318, [65350]); (65319, [65351]); (65320, [65352]); (65321, [65353]);
  (65322, [65354]); (65323, [65355]); (65324, [65356]); (65325, [65357]);
  (65326, [65358]); (65327, [65359]); (65328, [65360]); (65329, [65361]);
  (65330, [65362]); (65331, [65363]); (65332, [65364]); (65333, [65365]);
  (65334, [65366]); (65335, [65367]); (65336, [65368]); (65337, [65369]);
  (65338, [65370]); (66560, [66600]); (66561, [66601]); (66562, [66602]);
  (66563, [66603]); (66564, [66604]); (66565, [66605]); (66566, [66606]);
  (66567, [66607]); (66568, [66608]); (66569, [66609]); (66570, [66610]);
  (66571, [66611]); (66572, [66612]); (66573, [66613]); (66574, [66614]);
  (66575, [66615]); (66576, [66616]); (66577, [66617]); (66578, [66618]);
  (66579, [66619]); (66580, [66620]); (66581, [66621]); (66582, [66622]);
  (66583, [66623]); (66584, [66624]); (66585, [66625]); (66586, [66626]);
  (66587, [66627]); (66588, [66628]); (66589, [66629]); (66590, [66630]);
  (66591, [66631]); (66592, [66632]); (66593, [66633]); (66594, [66634]);
  (66595, [66635]); (66596, [66636]); (66597, [66637]); (66598, [66638]);
  (66599, [66639]); (66736, [66776]); (66737, [66777]); (66738, [66778]);
  (66739, [66779]); (66740, [66780]); (66741, [66781]); (66742, [66782]);
  (66743, [66783]); (66744, [66784]); (66745, [66785]); (66746, [66786]);
  (66747, [66787]); (66748, [66788]); (66749, [66789]); (66750, [66790]);
  (66751, [66791]); (66752, [66792]); (66753, [66793]); (66754, [66794]);
  (66755, [66795]); (66756, [66796]); (66757, [66797]); (66758, [66798]);
  (66759, [66799]); (66760, [66800]); (66761, [66801]); (66762, [66802]);
  (66763, [66803]); (66764, [66804]); (66765, [66805]); (66766, [66806]);
  (66767, [66807]); (66768, [66808]); (66769, [66809]); (66770, [66810]);
  (66771, [66811]); (66928, [66967]); (66929, [66968]); (66930, [66969]);
  (66931, [66970]); (66932, [66971]); (66933, [66972]); (66934, [66973]);
  (66935, [66974]); (66936, [66975]); (66937, [66976]); (66938, [66977]);
  (66940, [66979]); (66941, [66980]); (66942, [66981]); (66943, [66982]);
  (66944, [66983]); (66945, [66984]); (66946, [66985]); (66947, [66986]);
  (66948, [66987]); (66949, [66988]); (66950, [66989]); (66951, [66990]);
  (66952, [66991]); (66953, [66992]); (66954, [66993]); (66956, [66995]);
  (66957, [66996]); (66958, [66997]); (66959, [66998]); (66960, [66999]);
  (66961, [67000]); (66962, [67001]); (66964, [67003]); (66965, [67004]);
  (68736, [68800]); (68737, [68801]); (68738, [68802]); (68739, [68803]);
  (68740, [68804]); (68741, [68805]); (68742, [68806]); (68743, [68807]);
  (68744, [68808]); (68745, [68809]); (68746, [68810]); (68747, [68811]);
  (68748, [68812]); (68749, [68813]); (68750, [68814]); (68751, [68815]);
  (68752, [68816]); (68753, [68817]); (68754, [68818]); (68755, [68819]);
  (68756, [68820]); (68757, [68821]); (68758, [68822]); (68759, [68823]);
  (68760, [68824]); (68761, [68825]); (68762, [68826]); (68763, [68827]);
  (68764, [68828]); (68765, [68829]); (68766, [68830]); (68767, [68831]);
  (68768, [68832]); (68769, [68833]); (68770, [68834]); (68771, [68835]);
  (68772, [68836]); (68773, [68837]); (68774, [68838]); (68775, [68839]);
  (68776, [68840]); (68777, [68841]); (68778, [68842]); (68779, [68843]);
  (68780, [68844]); (68781, [68845]); (68782, [68846]); (68783, [68847]);
  (68784, [68848]); (68785, [68849]); (68786, [68850]); (71840, [71872]);
  (71841, [71873]); (71842, [71874]); (71843, [71875]); (71844, [71876]);
  (71845, [71877]); (71846, [71878]); (71847, [71879]); (71848, [71880]);
  (71849, [71881]); (71850, [71882]); (71851, [71883]); (71852, [71884]);
  (71853, [71885]); (71854, [71886]); (71855, [71887]); (71856, [71888]);
  (71857, [71889]); (71858, [71890]); (71859, [71891]); (71860, [71892]);
  (71861, [71893]); (71862, [71894]); (71863, [71895]); (71864, [71896]);
  (71865, [71897]); (71866, [71898]); (71867, [71899]); (71868, [71900]);
  (71869, [71901]); (71870, [71902]); (71871, [71903]); (93760, [93792]);
  (93761, [93793]); (93762, [93794]); (93763, [93795]); (93764, [93796]);
  (93765, [93797]); (93766, [93798]); (93767, [93799]); (93768, [93800]);
  (93769, [93801]); (93770, [93802]); (93771, [93803]); (93772, [93804]);
  (93773, [93805]); (93774, [93806]); (93775, [93807]); (93776, [93808]);
  (93777, [93809]); (93778, [93810]); (93779, [93811]); (93780, [93812]);
  (93781, [93813]); (93782, [93814]); (93783, [93815]); (93784, [93816]);
  (93785, [93817]); (93786, [93818]); (93787, [93819]); (93788, [93820]);
  (93789, [93821]); (93790, [93822]); (93791, [93823]); (125184, [125218]);
  (125185, [125219]); (125186, [125220]); (125187, [125221]);
  (125188, [125222]); (125189, [125223]); (125190, [125224]);
  (125191, [125225]); (125192, [125226]); (125193, [125227]);
  (125194, [125228]); (125195, [125229]); (125196, [125230]);
  (125197, [125231]); (125198, [125232]); (125199, [125233]);
  (125200, [125234]); (125201, [125235]); (125202, [125236]);
  (125203, [125237]); (125204, [125238]); (125205, [125239]);
  (125206, [125240]); (125207, [125241]); (125208, [125242]);
  (125209, [125243]); (125210, [125244]); (125211, [125245]);
  (125212, [125246]); (125213, [125247]); (125214, [125248]);
  (125215, [125249]); (125216, [125250]); (125217, [125251])
 ].

(** The ranges of the case-ignorable characters. *)
Definition case_ignorable_ranges : list (N * N) :=
 [
  (39, 39); (46, 46); (58, 58); (94, 94); (96, 96); (168, 168); (173, 173);
  (175, 175); (180, 180); (183, 184); (688, 879); (884, 885); (890, 890);
  (900, 901); (903, 903); (1155, 1161); (1369, 1369); (1375, 1375);
  (1425, 1469); (1471, 1471); (1473, 1474); (1476, 1477); (1479, 1479);
  (1524, 1524); (1536, 1541); (1552, 1562); (1564, 1564); (1600, 1600);
  (1611, 1631); (1648, 1648); (1750, 1757); (1759, 1768); (1770, 1773);
  (1807, 1807); (1809, 1809); (1840, 1866); (1958, 1968); (2027, 2037);
  (2042, 2042); (2045, 2045); (2070, 2093); (2137, 2139); (2184, 2184);
  (2192, 2193); (2200, 2207); (2249, 2306); (2362, 2362); (2364, 2364);
  (2369, 2376); (2381, 2381); (2385, 2391); (2402, 2403); (2417, 2417);
  (2433, 2433); (2492, 2492); (2497, 2500); (2509, 2509); (2530, 2531);
  (2558, 2558); (2561, 2562); (2620, 2620); (2625, 2626); (2631, 2632);
  (2635, 2637); (2641, 2641); (2672, 2673); (2677, 2677); (2689, 2690);
  (2748, 2748); (2753, 2757); (2759, 2760); (2765, 2765); (2786, 2787);
  (2810, 2815); (2817, 2817); (2876, 2876); (2879, 2879); (2881, 2884);
  (2893, 2893); (2901, 2902); (2914, 2915); (2946, 2946); (3008, 3008);
  (3021, 3021); (3072, 3072); (3076, 3076); (3132, 3132); (3134, 3136);
  (3142, 3144); (3146, 3149); (3157, 3158); (3170, 3171); (3201, 3201);
  (3260, 3260); (3263, 3263); (3270, 3270); (3276, 3277); (3298, 3299);
  (3328, 3329); (3387, 3388); (3393, 3396); (3405, 3405); (3426, 3427);
  (3457, 3457); (3530, 3530); (3538, 3540); (3542, 3542); (3633, 3633);
  (3636, 3642); (3654, 3662); (3761, 3761); (3764, 3772); (3782, 3782);
  (3784, 3789); (3864, 3865); (3893, 3893); (3895, 3895); (3897, 3897);
  (3953, 3966); (3968, 3972); (3974, 3975); (3981, 3991); (3993, 4028);
  (4038, 4038); (4141, 4144); (4146, 4151); (4153, 4154); (4157, 4158);
  (4184, 4185); (4190, 4192); (4209, 4212); (4226, 4226); (4229, 4230);
  (4237, 4237); (4253, 4253); (4348, 4348); (4957, 4959); (5906, 5908);
  (5938, 5939); (5970, 5971); (6002, 6003); (6068, 6069); (6071, 6077);
  (6086, 6086); (6089, 6099); (6103, 6103); (6109, 6109); (6155, 6159);
  (6211, 6211); (6277, 6278); (6313, 6313); (6432, 6434); (6439, 6440);
  (6450, 6450); (6457, 6459); (6679, 6680); (6683, 6683); (6742, 6742);
  (6744, 6750); (6752, 6752); (6754, 6754); (6757, 6764); (6771, 6780);
  (6783, 6783); (6823, 6823); (6832, 6862); (6912, 6915); (6964, 6964);
  (6966, 6970); (6972, 6972); (6978, 6978); (7019, 7027); (7040, 7041);
  (7074, 7077); (7080, 7081); (7083, 7085); (7142, 7142); (7144, 7145);
  (7149, 7149); (7151, 7153); (7212, 7219); (7222, 7223); (7288, 7293);
  (7376, 7378); (7380, 7392); (7394, 7400); (7405, 7405); (7412, 7412);
  (7416, 7417); (7468, 7530); (7544, 7544); (7579, 7679); (8125, 8125);
  (8127, 8129); (8141, 8143); (8157, 8159); (8173, 8175); (8189, 8190);
  (8203, 8207); (8216, 8217); (8228, 8228); (8231, 8231); (8234, 8238);
  (8288, 8292); (8294, 8303); (8305, 8305); (8319, 8319); (8336, 8348);
  (8400, 8432); (11388, 11389); (11503, 11505); (11631, 11631);
  (11647, 11647); (11744, 11775); (11823, 11823); (12293, 12293);
  (12330, 12333); (12337, 12341); (12347, 12347); (12441, 12446);
  (12540, 12542); (40981, 40981); (42232, 42237); (42508, 42508);
  (42607, 42610); (42612, 42621); (42623, 42623); (42652, 42655);
  (42736, 42737); (42752, 42785); (42864, 42864); (42888, 42890);
  (42994, 42996); (43000, 43001); (43010, 43010); (43014, 43014);
  (43019, 43019); (43045, 43046); (43052, 43052); (43204, 43205);
  (43232, 43249); (43263, 43263); (43302, 43309); (43335, 43345);
  (43392, 43394); (43443, 43443); (43446, 43449); (43452, 43453);
  (43471, 43471); (43493, 43494); (43561, 43566); (43569, 43570);
  (43573, 43574); (43587, 43587); (43596, 43596); (43632, 43632);
  (43644, 43644); (43696, 43696); (43698, 43700); (43703, 43704);
  (43710, 43711); (43713, 43713); (43741, 43741); (43756, 43757);
  (43763, 43764); (43766, 43766); (43867, 43871); (43881, 43883);
  (44005, 44005); (44008, 44008); (44013, 44013); (64286, 64286);
  (64434, 64450); (65024, 65039); (65043, 65043); (65056, 65071);
  (65106, 65106); (65109, 65109); (65279, 65279); (65287, 65287);
  (65294, 65294); (65306, 65306); (65342, 65342); (65344, 65344);
  (65392, 65392); (65438, 65439); (65507, 65507); (65529, 65531);
  (66045, 66045); (66272, 66272); (66422, 66426); (67456, 67461);
  (67463, 67504); (67506, 67514); (68097, 68099); (68101, 68102);
  (68108, 68111); (68152, 68154); (68159, 68159); (68325, 68326);
  (68900, 68903); (69291, 69292); (69446, 69456); (69506, 69509);
  (69633, 69633); (69688, 69702); (69744, 69744); (69747, 69748);
  (69759, 69761); (69811, 69814); (69817, 69818); (69821, 69821);
  (69826, 69826); (69837, 69837); (69888, 69890); (69927, 69931);
  (69933, 69940); (70003, 70003); (70016, 70017); (70070, 70078);
  (70089, 70092); (70095, 70095); (70191, 70193); (70196, 70196);
  (70198, 70199); (70206, 70206); (70367, 70367); (70371, 70378);
  (70400, 70401); (70459, 70460); (70464, 70464); (70502, 70508);
  (70512, 70516); (70712, 70719); (70722, 70724); (70726, 70726);
  (70750, 70750); (70835, 70840); (70842, 70842); (70847, 70848);
  (70850, 70851); (71090, 71093); (71100, 71101); (71103, 71104);
  (71132, 71133); (71219, 71226); (71229, 71229); (71231, 71232);
  (71339, 71339); (71341, 71341); (71344, 71349); (71351, 71351);
  (71453, 71455); (71458, 71461); (71463, 71467); (71727, 71735);
  (71737, 71738); (71995, 71996); (71998, 71998); (72003, 72003);
  (72148, 72151); (72154, 72155); (72160, 72160); (72193, 72202);
  (72243, 72248); (72251, 72254); (72263, 72263); (72273, 72278);
  (72281, 72283); (72330, 72342); (72344, 72345); (72752, 72758);
  (72760, 72765); (72767, 72767); (72850, 72871); (72874, 72880);
  (72882, 72883); (72885, 72886); (73009, 73014); (73018, 73018);
  (73020, 73021); (73023, 73029); (73031, 73031); (73104, 73105);
  (73109, 73109); (73111, 73111); (73459, 73460); (78896, 78904);
  (92912, 92916); (92976, 92982); (92992, 92995); (94031, 94031);
  (94095, 94111); (94176, 94177); (94179, 94180); (110576, 110579);
  (110581, 110587); (110589, 110590); (113821, 113822); (113824, 113827);
  (118528, 118573); (118576, 118598); (119143, 119145); (119155, 119170);
  (119173, 119179); (119210, 119213); (119362, 119364); (121344, 121398);
  (121403, 121452); (121461, 121461); (121476, 121476); (121499, 121503);
  (121505, 121519); (122880, 122886); (122888, 122904); (122907, 122913);
  (122915, 122916); (122918, 122922); (123184, 123197); (123566, 123566);
  (123628, 123631); (125136, 125142); (125252, 125259); (127995, 127999);
  (917505, 917505); (917536, 917631); (917760, 917999)
 ].

(** The ranges of the cased characters that are not case-ignorable. *)
Definition cased_ranges : list (N * N) :=
 [
  (65, 90); (97, 122); (170, 170); (181, 181); (186, 186); (192, 214);
  (216, 246); (248, 442); (444, 447); (452, 659); (661, 687); (880, 883);
  (886, 887); (891, 893); (895, 895); (902, 902); (904, 906); (908, 908);
  (910, 929); (931, 1013); (1015, 1153); (1162, 1327); (1329, 1366);
  (1376, 1416); (4256, 4293); (4295, 4295); (4301, 4301); (4304, 4346);
  (4349, 4351); (5024, 5109); (5112, 5117); (7296, 7304); (7312, 7354);
  (7357, 7359); (7424, 7467); (7531, 7543); (7545, 7578); (7680, 7957);
  (7960, 7965); (7968, 8005); (8008, 8013); (8016, 8023); (8025, 8025);
  (8027, 8027); (8029, 8029); (8031, 8061); (8064, 8116); (8118, 8124);
  (8126, 8126); (8130, 8132); (8134, 8140); (8144, 8147); (8150, 8155);
  (8160, 8172); (8178, 8180); (8182, 8188); (8450, 8450); (8455, 8455);
  (8458, 8467); (8469, 8469); (8473, 8477); (8484, 8484); (8486, 8486);
  (8488, 8488); (8490, 8493); (8495, 8500); (8505, 8505); (8508, 8511);
  (8517, 8521); (8526, 8526); (8544, 8575); (8579, 8580); (9398, 9449);
  (11264, 11387); (11390, 11492); (11499, 11502); (11506, 11507);
  (11520, 11557); (11559, 11559); (11565, 11565); (42560, 42605);
  (42624, 42651); (42786, 42863); (42865, 42887); (42891, 42894);
  (42896, 42954); (42960, 42961); (42963, 42963); (42965, 42969);
  (42997, 42998); (43002, 43002); (43824, 43866); (43872, 43880);
  (43888, 43967); (64256, 64262); (64275, 64279); (65313, 65338);
  (65345, 65370); (66560, 66639); (66736, 66771); (66776, 66811);
  (66928, 66938); (66940, 66954); (66956, 66962); (66964, 66965);
  (66967, 66977); (66979, 66993); (66995, 67001); (67003, 67004);
  (68736, 68786); (68800, 68850); (71840, 71903); (93760, 93823);
  (119808, 119892); (119894, 119964); (119966, 119967); (119970, 119970);
  (119973, 119974); (119977, 119980); (119982, 119993); (119995, 119995);
  (119997, 120003); (120005, 120069); (120071, 120074); (120077, 120084);
  (120086, 120092); (120094, 120121); (120123, 120126); (120128, 120132);
  (120134, 120134); (120138, 120144); (120146, 120485); (120488, 120512);
  (120514, 120538); (120540, 120570); (120572, 120596); (120598, 120628);
  (120630, 120654); (120656, 120686); (120688, 120712); (120714, 120744);
  (120746, 120770); (120772, 120779); (122624, 122633); (122635, 122654);
  (125184, 125251); (127280, 127305); (127312, 127337); (127344, 127369)
 ].

(** The ranges of the upper-case characters ([str.isupper()] on one
    character). *)
Definition uppercase_ranges : list (N * N) :=
 [
  (65, 90); (192, 214); (216, 222); (256, 256); (258, 258); (260, 260);
  (262, 262); (264, 264); (266, 266); (268, 268); (270, 270); (272, 272);
  (274, 274); (276, 276); (278, 278); (280, 280); (282, 282); (284, 284);
  (286, 286); (288, 288); (290, 290); (292, 292); (294, 294); (296, 296);
  (298, 298); (300, 300); (302, 302); (304, 304); (306, 306); (308, 308);
  (310, 310); (313, 313); (315, 315); (317, 317); (319, 319); (321, 321);
  (323, 323); (325, 325); (327, 327); (330, 330); (332, 332); (334, 334);
  (336, 336); (338, 338); (340, 340); (342, 342); (344, 344); (346, 346);
  (348, 348); (350, 350); (352, 352); (354, 354); (356, 356); (358, 358);
  (360, 360); (362, 362); (364, 364); (366, 366); (368, 368); (370, 370);
  (372, 372); (374, 374); (376, 377); (379, 379); (381, 381); (385, 386);
  (388, 388); (390, 391); (393, 395); (398, 401); (403, 404); (406, 408);
  (412, 413); (415, 416); (418, 418); (420, 420); (422, 423); (425, 425);
  (428, 428); (430, 431); (433, 435); (437, 437); (439, 440); (444, 444);
  (452, 452); (455, 455); (458, 458); (461, 461); (463, 463); (465, 465);
  (467, 467); (469, 469); (471, 471); (473, 473); (475, 475); (478, 478);
  (480, 480); (482, 482); (484, 484); (486, 486); (488, 488); (490, 490);
  (492, 492); (494, 494); (497, 497); (500, 500); (502, 504); (506, 506);
  (508, 508); (510, 510); (512, 512); (514, 514); (516, 516); (518, 518);
  (520, 520); (522, 522); (524, 524); (526, 526); (528, 528); (530, 530);
  (532, 532); (534, 534); (536, 536); (538, 538); (540, 540); (542, 542);
  (544, 544); (546, 546); (548, 548); (550, 550); (552, 552); (554, 554);
  (556, 556); (558, 558); (560, 560); (562, 562); (570, 571); (573, 574);
  (577, 577); (579, 582); (584, 584); (586, 586); (588, 588); (590, 590);
  (880, 880); (882, 882); (886, 886); (895, 895); (902, 902); (904, 906);
  (908, 908); (910, 911); (913, 929); (931, 939); (975, 975); (978, 980);
  (984, 984); (986, 986); (988, 988); (990, 990); (992, 992); (994, 994);
  (996, 996); (998, 998); (1000, 1000); (1002, 1002); (1004, 1004);
  (1006, 1006); (1012, 1012); (1015, 1015); (1017, 1018); (1021, 1071);
  (1120, 1120); (1122, 1122); (1124, 1124); (1126, 1126); (1128, 1128);
  (1130, 1130); (1132, 1132); (1134, 1134); (1136, 1136); (1138, 1138);
  (1140, 1140); (1142, 1142); (1144, 1144); (1146, 1146); (1148, 1148);
  (1150, 1150); (1152, 1152); (1162, 1162); (1164, 1164); (1166, 1166);
  (1168, 1168); (1170, 1170); (1172, 1172); (1174, 1174); (1176, 1176);
  (1178, 1178); (1180, 1180); (1182, 1182); (1184, 1184); (1186, 1186);
  (1188, 1188); (1190, 1190); (1192, 1192); (1194, 1194); (1196, 1196);
  (1198, 1198); (1200, 1200); (1202, 1202); (1204, 1204); (1206, 1206);
  (1208, 1208); (1210, 1210); (1212, 1212); (1214, 1214); (1216, 1217);
  (1219, 1219); (1221, 1221); (1223, 1223); (1225, 1225); (1227, 1227);
  (1229, 1229); (1232, 1232); (1234, 1234); (1236, 1236); (1238, 1238);
  (1240, 1240); (1242, 1242); (1244, 1244); (1246, 1246); (1248, 1248);
  (1250, 1250); (1252, 1252); (1254, 1254); (1256, 1256); (1258, 1258);
  (1260, 1260); (1262, 1262); (1264, 1264); (1266, 1266); (1268, 1268);
  (1270, 1270); (1272, 1272); (1274, 1274); (1276, 1276); (1278, 1278);
  (1280, 1280); (1282, 1282); (1284, 1284); (1286, 1286); (1288, 1288);
  (1290, 1290); (1292, 1292); (1294, 1294); (1296, 1296); (1298, 1298);
  (1300, 1300); (1302, 1302); (1304, 1304); (1306, 1306); (1308, 1308);
  (1310, 1310); (1312, 1312); (1314, 1314); (1316, 1316); (1318, 1318);
  (1320, 1320); (1322, 1322); (1324, 1324); (1326, 1326); (1329, 1366);
  (4256, 4293); (4295, 4295); (4301, 4301); (5024, 5109); (7312, 7354);
  (7357, 7359); (7680, 7680); (7682, 7682); (7684, 7684); (7686, 7686);
  (7688, 7688); (7690, 7690); (7692, 7692); (7694, 7694); (7696, 7696);
  (7698, 7698); (7700, 7700); (7702, 7702); (7704, 7704); (7706, 7706);
  (7708, 7708); (7710, 7710); (7712, 7712); (7714, 7714); (7716, 7716);
  (7718, 7718); (7720, 7720); (7722, 7722); (7724, 7724); (7726, 7726);
  (7728, 7728); (7730, 7730); (7732, 7732); (7734, 7734); (7736, 7736);
  (7738, 7738); (7740, 7740); (7742, 7742); (7744, 7744); (7746, 7746);
  (7748, 7748); (7750, 7750); (7752, 7752); (7754, 7754); (7756, 7756);
  (7758, 7758); (7760, 7760); (7762, 7762); (7764, 7764); (7766, 7766);
  (7768, 7768); (7770, 7770); (7772, 7772); (7774, 7774); (7776, 7776);
  (7778, 7778); (7780, 7780); (7782, 7782); (7784, 7784); (7786, 7786);
  (7788, 7788); (7790, 7790); (7792, 7792); (7794, 7794); (7796, 7796);
  (7798, 7798); (7800, 7800); (7802, 7802); (7804, 7804); (7806, 7806);
  (7808, 7808); (7810, 7810); (7812, 7812); (7814, 7814); (7816, 7816);
  (7818, 7818); (7820, 7820); (7822, 7822); (7824, 7824); (7826, 7826);
  (7828, 7828); (7838, 7838); (7840, 7840); (7842, 7842); (7844, 7844);
  (7846, 7846); (7848, 7848); (7850, 7850); (7852, 7852); (7854, 7854);
  (7856, 7856); (7858, 7858); (7860, 7860); (7862, 7862); (7864, 7864);
  (7866, 7866); (7868, 7868); (7870, 7870); (7872, 7872); (7874, 7874);
  (7876, 7876); (7878, 7878); (7880, 7880); (7882, 7882); (7884, 7884);
  (7886, 7886); (7888, 7888); (7890, 7890); (7892, 7892); (7894, 7894);
  (7896, 7896); (7898, 7898); (7900, 7900); (7902, 7902); (7904, 7904);
  (7906, 7906); (7908, 7908); (7910, 7910); (7912, 7912); (7914, 7914);
  (7916, 7916); (7918, 7918); (7920, 7920); (7922, 7922); (7924, 7924);
  (7926, 7926); (7928, 7928); (7930, 7930); (7932, 7932); (7934, 7934);
  (7944, 7951); (7960, 7965); (7976, 7983); (7992, 7999); (8008, 8013);
  (8025, 8025); (8027, 8027); (8029, 8029); (8031, 8031); (8040, 8047);
  (8120, 8123); (8136, 8139); (8152, 8155); (8168, 8172); (8184, 8187);
  (8450, 8450); (8455, 8455); (8459, 8461); (8464, 8466); (8469, 8469);
  (8473, 8477); (8484, 8484); (8486, 8486); (8488, 8488); (8490, 8493);
  (8496, 8499); (8510, 8511); (8517, 8517); (8544, 8559); (8579, 8579);
  (9398, 9423); (11264, 11311); (11360, 11360); (11362, 11364);
  (11367, 11367); (11369, 11369); (11371, 11371); (11373, 11376);
  (11378, 11378); (11381, 11381); (11390, 11392); (11394, 11394);
  (11396, 11396); (11398, 11398); (11400, 11400); (11402, 11402);
  (11404, 11404); (11406, 11406); (11408, 11408); (11410, 11410);
  (11412, 11412); (11414, 11414); (11416, 11416); (11418, 11418);
  (11420, 11420); (11422, 11422); (11424, 11424); (11426, 11426);
  (11428, 11428); (11430, 11430); (11432, 11432); (11434, 11434);
  (11436, 11436); (11438, 11438); (11440, 11440); (11442, 11442);
  (11444, 11444); (11446, 11446); (11448, 11448); (11450, 11450);
  (11452, 11452); (11454, 11454); (11456, 11456); (11458, 11458);
  (11460, 11460); (11462, 11462); (11464, 11464); (11466, 11466);
  (11468, 11468); (11470, 11470); (11472, 11472); (11474, 11474);
  (11476, 11476); (11478, 11478); (11480, 11480); (11482, 11482);
  (11484, 11484); (11486, 11486); (11488, 11488); (11490, 11490);
  (11499, 11499); (11501, 11501); (11506, 11506); (42560, 42560);
  (42562, 42562); (42564, 42564); (42566, 42566); (42568, 42568);
  (42570, 42570); (42572, 42572); (42574, 42574); (42576, 42576);
  (42578, 42578); (42580, 42580); (42582, 42582); (42584, 42584);
  (42586, 42586); (42588, 42588); (42590, 42590); (42592, 42592);
  (42594, 42594); (42596, 42596); (42598, 42598); (42600, 42600);
  (42602, 42602); (42604, 42604); (42624, 42624); (42626, 42626);
  (42628, 42628); (42630, 42630); (42632, 42632); (42634, 42634);
  (42636, 42636); (42638, 42638); (42640, 42640); (42642, 42642);
  (42644, 42644); (42646, 42646); (42648, 42648); (42650, 42650);
  (42786, 42786); (42788, 42788); (42790, 42790); (42792, 42792);
  (42794, 42794); (42796, 42796); (42798, 42798); (42802, 42802);
  (42804, 42804); (42806, 42806); (42808, 42808); (42810, 42810);
  (42812, 42812); (42814, 42814); (42816, 42816); (42818, 42818);
  (42820, 42820); (42822, 42822); (42824, 42824); (42826, 42826);
  (42828, 42828); (42830, 42830); (42832, 42832); (42834, 42834);
  (42836, 42836); (42838, 42838); (42840, 42840); (42842, 42842);
  (42844, 42844); (42846, 42846); (42848, 42848); (42850, 42850);
  (42852, 42852); (42854, 42854); (42856, 42856); (42858, 42858);
  (42860, 42860); (42862, 42862); (42873, 42873); (42875, 42875);
  (42877, 42878); (42880, 42880); (42882, 42882); (42884, 42884);
  (42886, 42886); (42891, 42891); (42893, 42893); (42896, 42896);
  (42898, 42898); (42902, 42902); (42904, 42904); (42906, 42906);
  (42908, 42908); (42910, 42910); (42912, 42912); (42914, 42914);
  (42916, 42916); (42918, 42918); (42920, 42920); (42922, 42926);
  (42928, 42932); (42934, 42934); (42936, 42936); (42938, 42938);
  (42940, 42940); (42942, 42942); (42944, 42944); (42946, 42946);
  (42948, 42951); (42953, 42953); (42960, 42960); (42966, 42966);
  (42968, 42968); (42997, 42997); (65313, 65338); (66560, 66599);
  (66736, 66771); (66928, 66938); (66940, 66954); (66956, 66962);
  (66964, 66965); (68736, 68786); (71840, 71871); (93760, 93791);
  (119808, 119833); (119860, 119885); (119912, 119937); (119964, 119964);
  (119966, 119967); (119970, 119970); (119973, 119974); (119977, 119980);
  (119982, 119989); (120016, 120041); (120068, 120069); (120071, 120074);
  (120077, 120084); (120086, 120092); (120120, 120121); (120123, 120126);
  (120128, 120132); (120134, 120134); (120138, 120144); (120172, 120197);
  (120224, 120249); (120276, 120301); (120328, 120353); (120380, 120405);
  (120432, 120457); (120488, 120512); (120546, 120570); (120604, 120628);
  (120662, 120686); (120720, 120744); (120778, 120778); (125184, 125217);
  (127280, 127305); (127312, 127337); (127344, 127369)
 ].

End UnicodeData.

(** ** Python strings *)

Module PyStr.

(** [len(s)] *)
Definition len (s : string) : Z := Z.of_nat (String.length s).

(** Does the character [c] occur in [s]? *)
Fixpoint mem_char (c : ascii) (s : string) : bool :=
  match s with
  | EmptyString => false
  | String a rest => Ascii.eqb a c || mem_char c rest
  end.

(** Does [s] hold a character other than [c]? *)
Fixpoint has_other_char (c : ascii) (s : string) : bool :=
  match s with
  | EmptyString => false
  | String a rest => negb (Ascii.eqb a c) || has_other_char c rest
  end.

(** [s.rfind(c)] counted from position [pos] of the whole string: the
    highest index of [c], or [-1]. *)
Fixpoint rfind_from (c : ascii) (s : string) (pos : Z) : Z :=
  match s with
  | EmptyString => -1
  | String a rest =>
      let r := rfind_from c rest (pos + 1) in
      if 0 <=? r then r else if Ascii.eqb a c then pos else -1
  end.

Definition rfind (c : ascii) (s : string) : Z := rfind_from c s 0.

(** [s[n:]] and [s[:n]] for [0 <= n]. *)
Fixpoint drop (n : nat) (s : string) : string :=
  match n, s with
  | O, _ => s
  | S n', EmptyString => EmptyString
  | S n', String _ rest => drop n' rest
  end.

Fixpoint take (n : nat) (s : string) : string :=
  match n, s with
  | O, _ => EmptyString
  | S n', EmptyString => EmptyString
  | S n', String a rest => String a (take n' rest)
  end.

Definition slice_from (i : Z) (s : string) : string := drop (Z.to_nat i) s.
Definition slice_to (i : Z) (s : string) : string := take (Z.to_nat i) s.

(** [s[i:i+1]] *)
Definition char_at (i : Z) (s : string) : string :=
  take 1 (drop (Z.to_nat i) s).

(** [s.startswith(t)] and [s.endswith(t)] for a one-character [t]. *)
Definition startswith_char (c : ascii) (s : string) : bool :=
  match s with
  | String a _ => Ascii.eqb a c
  | EmptyString => false
  end.

Fixpoint endswith_char (c : ascii) (s : string) : bool :=
  match s with
  | EmptyString => false
  | String a EmptyString => Ascii.eqb a c
  | String _ rest => endswith_char c rest
  end.

(** [x in l] for a list of strings. *)
Definition str_in (x : string) (l : list string) : bool :=
  existsb (String.eqb x) l.

(** *** [str.lower()]

    A [string] is the UTF-8 form of a Python [str] (a byte that does not
    decode stands for itself, as in the names that [os.listdir] gives).
    [str.lower()] goes through the characters from left to right: the
    capital sigma becomes the final or the plain small sigma by what
    stands around it, any other character becomes its lower-case form of
    the character database. *)

(** The value of a byte, and the byte of a value. *)
Definition byte (c : ascii) : N := N_of_ascii c.
Definition chr (n : N) : ascii := ascii_of_N n.

Definition is_continuation (c : ascii) : bool :=
  ((128 <=? byte c) && (byte c <? 192))%N.

(** The character at the head of [s]: its code point and the number of its
    bytes; [None] for a byte that starts no well-formed UTF-8 sequence. *)
Definition decode_first (s : string) : option (N * nat) :=
  match s with
  | EmptyString => None
  | String b0 r0 =>
      let n0 := byte b0 in
      if (n0 <? 128)%N then Some (n0, 1%nat)
      else if ((194 <=? n0) && (n0 <? 224))%N then
        match r0 with
        | String b1 _ =>
            if is_continuation b1
            then Some (((n0 - 192) * 64 + (byte b1 - 128))%N, 2%nat)
            else None
        | _ => None
        end
      else if ((224 <=? n0) && (n0 <? 240))%N then
        match r0 with
        | String b1 (String b2 _) =>
            if is_continuation b1 && is_continuation b2
               && (negb (n0 =? 224)%N || (160 <=? byte b1)%N)
               && (negb (n0 =? 237)%N || (byte b1 <? 160)%N)
            then Some (((n0 - 224) * 4096 + (byte b1 - 128) * 64
                        + (byte b2 - 128))%N, 3%nat)
            else None
        | _ => None
        end
      else if ((240 <=? n0) && (n0 <? 245))%N then
        match r0 with
        | String b1 (String b2 (String b3 _)) =>
            if is_continuation b1 && is_continuation b2 && is_continuation b3
               && (negb (n0 =? 240)%N || (144 <=? byte b1)%N)
               && (negb (n0 =? 244)%N || (byte b1 <? 144)%N)
            then Some (((n0 - 240) * 262144 + (byte b1 - 128) * 4096
                        + (byte b2 - 128) * 64 + (byte b3 - 128))%N, 4%nat)
            else None
        | _ => None
        end
      else None
  end.

(** The UTF-8 form of a code point. *)
Definition encode_utf8 (cp : N) : string :=
  if (cp <? 128)%N then String (chr cp) ""
  else if (cp <? 2048)%N then
    String (chr (192 + cp / 64)) (String (chr (128 + cp mod 64)) "")
  else if (cp <? 65536)%N then
    String (chr (224 + cp / 4096))
      (String (chr (128 + (cp / 64) mod 64))
         (String (chr (128 + cp mod 64)) ""))
  else
    String (chr (240 + cp / 262144))
      (String (chr (128 + (cp / 4096) mod 64))
         (String (chr (128 + (cp / 64) mod 64))
            (String (chr (128 + cp mod 64)) ""))).

Fixpoint encode_all (cps : list N) : string :=
  match cps with
  | [] => ""
  | cp :: rest => encode_utf8 cp ++ encode_all rest
  end.

Definition in_ranges (cp : N) (ranges : list (N * N)) : bool :=
  existsb (fun r => ((fst r <=? cp) && (cp <=? snd r))%N) ranges.

Fixpoint lookup (cp : N) (table : list (N * list N)) : option (list N) :=
  match table with
  | [] => None
  | (k, v) :: rest => if (k =? cp)%N then Some v else lookup cp rest
  end.

(** The lower-case form of a character other than the capital sigma, when
    it differs from the character. *)
Definition to_lower_full (cp : N) : option (list N) :=
  if (cp <? 128)%N
  then if ((65 <=? cp) && (cp <=? 90))%N then Some [(cp + 32)%N] else None
  else lookup cp UnicodeData.lower_table.

Definition case_ignorable (cp : N) : bool :=
  in_ranges cp UnicodeData.case_ignorable_ranges.

(** Cased, for a character that is not case-ignorable. *)
Definition cased (cp : N) : bool := in_ranges cp UnicodeData.cased_ranges.

Definition capital_sigma : N := 931%N.
Definition final_sigma : N := 962%N.
Definition small_sigma : N := 963%N.

(** Does a cased character follow, after case-ignorable characters only?
    [skip] bytes of [s] belong to a character already seen. *)
Fixpoint cased_follows_from (skip : nat) (s : string) : bool :=
  match s with
  | EmptyString => false
  | String _ rest =>
      match skip with
      | S k => cased_follows_from k rest
      | O =>
          match decode_first s with
          | None => false
          | Some (cp, n) =>
              if case_ignorable cp then cased_follows_from (n - 1) rest
              else cased cp
          end
      end
  end.

(** The lower-case form of the character [cp], written [orig], that stands
    before [after]; [prev_cased] tells whether the last character before it
    that is not case-ignorable is cased. *)
Definition lower_char_at (prev_cased : bool) (cp : N) (orig after : string)
  : string :=
  if (cp =? capital_sigma)%N then
    if prev_cased && negb (cased_follows_from 0 after)
    then encode_utf8 final_sigma else encode_utf8 small_sigma
  else
    match to_lower_full cp with
    | Some cps => encode_all cps
    | None => orig
    end.

Fixpoint lower_from (skip : nat) (prev_cased : bool) (s : string) : string :=
  match s with
  | EmptyString => EmptyString
  | String b rest =>
      match skip with
      | S k => lower_from k prev_cased rest
      | O =>
          match decode_first s with
          | None => String b (lower_from 0 false rest)
          | Some (cp, n) =>
              (lower_char_at prev_cased cp (take n s) (drop n s)
               ++ lower_from (n - 1)
                    (if case_ignorable cp then prev_cased else cased cp)
                    rest)%string
          end
      end
  end.

(** [s.lower()] *)
Definition lower (s : string) : string := lower_from 0 false s.

(** Does lower-casing change [s] ([s.lower() != s]): does [s] hold a
    character that has another lower-case form? *)
Definition has_upper (s : string) : bool := negb (String.eqb (lower s) s).

(** The continuation bytes at the head of [s]. *)
Fixpoint continuation_prefix (s : string) : string :=
  match s with
  | EmptyString => EmptyString
  | String b rest =>
      if is_continuation b then String b (continuation_prefix rest)
      else EmptyString
  end.

(** Is [cp] a character that [str.lower()] leaves as it is wherever it
    stands, and [encode_utf8 cp] its UTF-8 form? *)
Definition fixed_char (cp : N) : bool :=
  negb (cp =? capital_sigma)%N
  && match to_lower_full cp with
     | None => true
     | Some _ => false
     end
  && match decode_first (encode_utf8 cp) with
     | Some (c, n) =>
         (c =? cp)%N && Nat.eqb n (String.length (encode_utf8 cp))
     | None => false
     end.

(** Does [s] hold one of the letters [A] to [Z]? *)
Fixpoint has_ascii_upper (s : string) : bool :=
  match s with
  | EmptyString => false
  | String c rest =>
      ((65 <=? byte c) && (byte c <=? 90))%N || has_ascii_upper rest
  end.

(** Does [s] hold a character on which [p] is true?  [skip] bytes of [s]
    belong to a character already seen. *)
Fixpoint holds_char_from (p : N -> bool) (skip : nat) (s : string) : bool :=
  match s with
  | EmptyString => false
  | String _ rest =>
      match skip with
      | S k => holds_char_from p k rest
      | O =>
          match decode_first s with
          | None => holds_char_from p 0 rest
          | Some (cp, n) => p cp || holds_char_from p (n - 1) rest
          end
      end
  end.

Definition holds_char (p : N -> bool) (s : string) : bool :=
  holds_char_from p 0 s.

(** [c.isupper()] for the character [cp]. *)
Definition is_upper_char (cp : N) : bool :=
  in_ranges cp UnicodeData.uppercase_ranges.

(** Has the character [cp] a lower-case form other than itself? *)
Definition has_lower_form (cp : N) : bool :=
  (cp =? capital_sigma)%N
  || match to_lower_full cp with
     | Some _ => true
     | None => false
     end.

(** Does [s] hold an upper-case character (one on which [str.isupper()]
    is true)? *)
Definition has_upper_letter (s : string) : bool := holds_char is_upper_char s.

(** Does [s] hold a byte on which [p] is true? *)
Fixpoint contains (p : ascii -> bool) (s : string) : bool :=
  match s with
  | EmptyString => false
  | String c rest => p c || contains p rest
  end.

(** Is the one-byte character [c] its own lower-case form? *)
Definition unchanged (c : ascii) : bool :=
  match to_lower_full (byte c) with
  | None => true
  | Some _ => false
  end.

(** Are the first [n] bytes of [s] there, none of them an ASCII byte? *)
Fixpoint high_prefix (n : nat) (s : string) : bool :=
  match n with
  | O => true
  | S k =>
      match s with
      | EmptyString => false
      | String b rest => (128 <=? byte b)%N && high_prefix k rest
      end
  end.

End PyStr.

(** ** Path helpers of the standard library (POSIX flavour) *)

Module PyPath.
Import PyStr.

Definition sep : ascii := "/"%char.
Definition extsep : ascii := "."%char.

(** [pathlib.PurePath(name).suffix] for a single path component, as a
    directory listing returns it:
<<
    i = name.rfind('.')
    if 0 < i < len(name) - 1: return name[i:]
    else: return ''
>> *)
Definition suffix (name : string) : string :=
  let i := rfind extsep name in
  if (0 <? i) && (i <? len name - 1) then slice_from i name else "".

(** The loop of [genericpath._splitext] that skips the leading dots:
    it looks at the [n] positions from [filenameIndex] on and answers
    whether one of them is not a dot. *)
Fixpoint scan_non_dot (p : string) (filenameIndex : Z) (n : nat) : bool :=
  match n with
  | O => false
  | S n' =>
      if negb (String.eqb (char_at filenameIndex p) (String extsep ""))
      then true
      else scan_non_dot p (filenameIndex + 1) n'
  end.

(** [os.path.splitext(p)] ([posixpath]: [sep = '/'], no [altsep]). *)
Definition splitext (p : string) : string * string :=
  let sepIndex := rfind sep p in
  let dotIndex := rfind extsep p in
  if (sepIndex <? dotIndex)
     && scan_non_dot p (sepIndex + 1) (Z.to_nat (dotIndex - (sepIndex + 1)))
  then (slice_to dotIndex p, slice_from dotIndex p)
  else (p, "").

(** [os.path.join(a, b)] *)
Definition join (a b : string) : string :=
  if startswith_char sep b then b
  else if (String.eqb a "") || endswith_char sep a then a ++ b
  else a ++ String sep "" ++ b.

(** [os.path.basename(p)] *)
Definition basename (p : string) : string :=
  slice_from (rfind sep p + 1) p.

End PyPath.

Local Open Scope list_scope.

(** ** Exceptions and outcomes *)

Inductive exc_class : Type :=
| ValueError
| OSError
| OtherException.

Record py_exception : Type := mkException {
  exc_type : exc_class;
  exc_msg : string
}.

(** What a call does: it returns a value or raises an [Exception]. *)
Inductive result (A : Type) : Type :=
| Returned (a : A)
| Raised (e : py_exception).

Arguments Returned {A} a.
Arguments Raised {A} e.

Definition is_returned {A : Type} (r : result A) : bool :=
  match r with
  | Returned _ => true
  | Raised _ => false
  end.

(** ** Data of the class *)

(** [FileBasedDataWriter(parent_dir)] *)
Record FileBasedDataWriter : Type := { parent_dir : string }.

(** The fields that [__init__] sets. *)
Record BatchImageProcessor : Type := {
  output_dir : string;
  image_dir : string;
  image_dir_name : string;
  supported_formats : list string;
  image_writer : FileBasedDataWriter;
  md_writer : FileBasedDataWriter
}.

(** The keyword arguments of [process_directory]. *)
Record Options : Type := {
  lang : string;
  show_log : bool;
  layout_model : string;
  formula_enable : bool
}.

(** [os.environ] *)
Definition environ : Type := string -> option string.

Definition setenv (k v : string) (env : environ) : environ :=
  fun k' => if String.eqb k' k then Some v else env k'.

Definition nul : ascii := "000"%char.

(** The error of [os.environ] for a name or a value with a NUL byte. *)
Definition embedded_null : py_exception :=
  mkException ValueError "embedded null byte".

(** [os.environ[k] = v]: a NUL byte in the name or in the value, an empty
    name and a name with [=] are refused, and nothing is then assigned. *)
Definition environ_set (k v : string) (env : environ) : result environ :=
  if PyStr.mem_char nul k || PyStr.mem_char nul v
  then Raised embedded_null
  else if String.eqb k ""
  then Raised (mkException OSError "[Errno 22] Invalid argument")
  else if PyStr.mem_char "="%char k
  then Raised (mkException ValueError "illegal environment variable name")
  else Returned (setenv k v env).

(** Truth value of an optional list: [None] and [[]] are false. *)
Definition list_truthy {A : Type} (o : option (list A)) : bool :=
  match o with
  | Some (_ :: _) => true
  | _ => false
  end.

(** [a or b] on an optional list whose right operand is a list. *)
Definition py_or {A : Type} (a : option (list A)) (b : list A) : list A :=
  match a with
  | Some l => if list_truthy a then l else b
  | None => b
  end.

Definition default_formats : list string := [".png"; ".jpg"; ".jpeg"].

(** The calls the loop makes, in order: loading a file, the chain
    [ds.apply(doc_analyze, ...).pipe_ocr_mode(...).dump_md(...)] on one
    dataset with the name of its markdown file, and [clean_memory()]. *)
Inductive event (Dataset : Type) : Type :=
| EvReadLocalImages (image_path : string)
| EvDumpMd (ds : Dataset) (md_name : string)
| EvCleanMemory.

Arguments EvReadLocalImages {Dataset} image_path.
Arguments EvDumpMd {Dataset} ds md_name.
Arguments EvCleanMemory {Dataset}.

Definition is_dump {Dataset : Type} (e : event Dataset) : bool :=
  match e with
  | EvDumpMd _ _ => true
  | _ => false
  end.

Definition is_clean {Dataset : Type} (e : event Dataset) : bool :=
  match e with
  | EvCleanMemory => true
  | _ => false
  end.

(** ** The external calls

    [World] is whatever the calls depend on and change (the file system,
    the state of the analysis engine, the GPU). *)
Record Externals (World Dataset : Type) : Type := {
  os_path_abspath : World -> string -> string;
  os_path_exists : World -> string -> bool;
  os_path_isdir : World -> string -> bool;
  os_listdir : World -> string -> result (list string);
  os_makedirs : World -> string -> World * result unit;
  get_local_models_dir : World -> result (option string);
  path_resolve : World -> string -> result string;
  read_local_images :
    World -> string -> list string -> World * result (list Dataset);
  apply_dump_md :
    World -> Dataset -> Options -> FileBasedDataWriter ->
    FileBasedDataWriter -> string -> string -> World * result unit;
  clean_memory : World -> World * result unit
}.

Arguments os_path_abspath {World Dataset} _ _ _.
Arguments os_path_exists {World Dataset} _ _ _.
Arguments os_path_isdir {World Dataset} _ _ _.
Arguments os_listdir {World Dataset} _ _ _.
Arguments os_makedirs {World Dataset} _ _ _.
Arguments get_local_models_dir {World Dataset} _ _.
Arguments path_resolve {World Dataset} _ _ _.
Arguments read_local_images {World Dataset} _ _ _ _.
Arguments apply_dump_md {World Dataset} _ _ _ _ _ _ _ _.
Arguments clean_memory {World Dataset} _ _.

(** ** The methods *)

Section Methods.
Context {World Dataset : Type}.
Variable ext : Externals World Dataset.

Local Abbreviation trace := (list (event Dataset)).

(** The first statements of [_init_environment]: [LOCAL_MODELS_DIR] is
    set to [str(Path(models_dir).resolve())] when [get_local_models_dir()]
    gives a non-empty directory. *)
Definition set_models_dir (w : World) (env : environ)
  : environ * result unit :=
  match get_local_models_dir ext w with
  | Raised e => (env, Raised e)
  | Returned None => (env, Returned tt)
  | Returned (Some models_dir) =>
      if String.eqb models_dir "" then (env, Returned tt)
      else
        match path_resolve ext w models_dir with
        | Raised e => (env, Raised e)
        | Returned normalized_path =>
            match environ_set "LOCAL_MODELS_DIR" normalized_path env with
            | Raised e => (env, Raised e)
            | Returned env1 => (env1, Returned tt)
            end
        end
  end.

(** [_init_environment(vram_size, ocr_thresh, ocr_batch_num)]: the
    environment as the call leaves it, also when a statement raises. *)
Definition _init_environment (w : World) (env : environ)
    (vram_size ocr_thresh ocr_batch_num : string) : environ * result unit :=
  match set_models_dir w env with
  | (env1, Raised e) => (env1, Raised e)
  | (env1, Returned _) =>
      match environ_set "VIRTUAL_VRAM_SIZE" vram_size env1 with
      | Raised e => (env1, Raised e)
      | Returned env2 =>
          match environ_set "OCR_DET_DB_THRESH" ocr_thresh env2 with
          | Raised e => (env2, Raised e)
          | Returned env3 =>
              match environ_set "OCR_REC_BATCH_NUM" ocr_batch_num env3 with
              | Raised e => (env3, Raised e)
              | Returned env4 => (env4, Returned tt)
              end
          end
      end
  end.

(** [__init__(output_dir, vram_size, ocr_thresh, ocr_batch_num,
    supported_formats)]; [None] is the omitted [supported_formats]. *)
Definition __init__ (w : World) (env : environ)
    (output_dir0 vram_size ocr_thresh ocr_batch_num : string)
    (supported_formats0 : option (list string))
  : World * environ * result BatchImageProcessor :=
  let image_dir0 := PyPath.join output_dir0 "images" in
  let image_dir_name0 := PyPath.basename image_dir0 in
  match os_makedirs ext w image_dir0 with
  | (w1, Raised e) => (w1, env, Raised e)
  | (w1, Returned _) =>
      let formats := py_or supported_formats0 default_formats in
      match _init_environment w1 env vram_size ocr_thresh ocr_batch_num with
      | (env1, Raised e) => (w1, env1, Raised e)
      | (env1, Returned _) =>
          (w1, env1,
           Returned {| output_dir := output_dir0;
                       image_dir := image_dir0;
                       image_dir_name := image_dir_name0;
                       supported_formats := formats;
                       image_writer := {| parent_dir := image_dir0 |};
                       md_writer := {| parent_dir := output_dir0 |} |})
      end
  end.

Variable self : BatchImageProcessor.

(** The [for file in os.listdir(directory)] loop of
    [_collect_image_files], with the list it appends to. *)
Fixpoint collect_loop (directory : string) (listing : list string)
    (image_files : list (string * string)) : list (string * string) :=
  match listing with
  | [] => image_files
  | file :: rest =>
      let suffix := PyPath.suffix file in
      if PyStr.str_in (PyStr.lower suffix) (supported_formats self)
      then collect_loop directory rest
             (image_files ++ [(PyPath.join directory file, file)])
      else collect_loop directory rest image_files
  end.

(** [_collect_image_files(directory)], on the listing of the directory. *)
Definition _collect_image_files (directory : string)
    (listing : list string) : list (string * string) :=
  collect_loop directory listing [].

(** The loop of [_load_datasets]: a file whose read raises is logged and
    skipped, an empty read adds nothing. *)
Fixpoint load_loop (w : World) (image_files : list (string * string))
    (dss : list Dataset) (ds_paths : list string) (tr : trace)
  : World * (list Dataset * list string) * trace :=
  match image_files with
  | [] => (w, (dss, ds_paths), tr)
  | (image_path, image_name) :: rest =>
      let tr1 := tr ++ [EvReadLocalImages image_path] in
      match read_local_images ext w image_path (supported_formats self) with
      | (w1, Returned ds) =>
          match ds with
          | _ :: _ =>
              load_loop w1 rest (dss ++ ds)
                (ds_paths ++ repeat image_name (length ds)) tr1
          | [] => load_loop w1 rest dss ds_paths tr1
          end
      | (w1, Raised _) => load_loop w1 rest dss ds_paths tr1
      end
  end.

Definition _load_datasets (w : World) (image_files : list (string * string))
  : World * (list Dataset * list string) * trace :=
  load_loop w image_files [] [] [].

(** [f"{filename}.md"] with [filename = os.path.splitext(image_name)[0]] *)
Definition md_name_of (image_name : string) : string :=
  (fst (PyPath.splitext image_name) ++ ".md")%string.

(** The state of the loop of [_process_images]. *)
Record loop_state : Type := {
  st_world : World;
  st_processed : Z;
  st_failed : Z;
  st_trace : trace
}.

(** One turn of the loop: the [try] block and its [except Exception]. *)
Definition process_item (opts : Options) (st : loop_state)
    (item : Dataset * string) : loop_state :=
  let (ds, image_name) := item in
  let tr1 := st_trace st ++ [EvDumpMd ds (md_name_of image_name)] in
  match apply_dump_md ext (st_world st) ds opts (image_writer self)
          (md_writer self) (md_name_of image_name) (image_dir_name self) with
  | (w1, Returned _) =>
      let processed := st_processed st + 1 in
      let tr2 := tr1 ++ [EvCleanMemory] in
      match clean_memory ext w1 with
      | (w2, Returned _) =>
          {| st_world := w2; st_processed := processed;
             st_failed := st_failed st; st_trace := tr2 |}
      | (w2, Raised _) =>
          {| st_world := w2; st_processed := processed;
             st_failed := st_failed st + 1; st_trace := tr2 |}
      end
  | (w1, Raised _) =>
      {| st_world := w1; st_processed := st_processed st;
         st_failed := st_failed st + 1; st_trace := tr1 |}
  end.

(** [for i, (ds, image_name) in enumerate(zip(dss, ds_paths))] *)
Fixpoint process_loop (opts : Options) (st : loop_state)
    (items : list (Dataset * string)) : loop_state :=
  match items with
  | [] => st
  | item :: rest => process_loop opts (process_item opts st item) rest
  end.

(** [_process_images(dss, ds_paths, ...)]: the final state of the loop
    and the triple [(total, processed, failed)]. *)
Definition _process_images (w : World) (dss : list Dataset)
    (ds_paths : list string) (opts : Options) (tr : trace)
  : loop_state * (Z * Z * Z) :=
  let total := Z.of_nat (length dss) in
  let st := process_loop opts
              {| st_world := w; st_processed := 0; st_failed := 0;
                 st_trace := tr |}
              (combine dss ds_paths) in
  (st, (total, st_processed st, st_failed st)).

Definition invalid_directory (abs_input_dir : string) : py_exception :=
  mkException ValueError ("Invalid directory: " ++ abs_input_dir)%string.

Definition no_valid_images : py_exception :=
  mkException ValueError "No valid images could be loaded".

(** [process_directory(input_directory, lang, show_log, layout_model,
    formula_enable)]: the world after the call, the calls made, and the
    triple it returns or the exception it raises. *)
Definition process_directory (w : World) (input_directory : string)
    (opts : Options) : World * trace * result (Z * Z * Z) :=
  let abs_input_dir := os_path_abspath ext w input_directory in
  if negb (os_path_exists ext w abs_input_dir)
     || negb (os_path_isdir ext w abs_input_dir)
  then (w, [], Raised (invalid_directory abs_input_dir))
  else
    match os_listdir ext w abs_input_dir with
    | Raised e => (w, [], Raised e)
    | Returned listing =>
        let image_files := _collect_image_files abs_input_dir listing in
        match _load_datasets w image_files with
        | (w1, (dss, ds_paths), tr) =>
            match dss with
            | [] => (w1, tr, Raised no_valid_images)
            | _ :: _ =>
                let (st, counts) := _process_images w1 dss ds_paths opts tr in
                (st_world st, st_trace st, Returned counts)
            end
        end
    end.

End Methods.

(** ** Definitions used to state the properties *)


(** What the scan tests: the folded suffix is in the list as configured. *)
Definition retained (formats : list string) (file : string) : bool :=
  PyStr.str_in (PyStr.lower (PyPath.suffix file)) formats.

(** The stem of a file name the way the specification has it: the name
    without the extension that the scan tested. *)
Definition spec_stem (name : string) : string :=
  PyStr.slice_to (PyStr.len name - PyStr.len (PyPath.suffix name)) name.

(** What [__init__] configured, when it returned. *)
Definition configured_formats {World : Type}
    (r : World * environ * result BatchImageProcessor)
  : option (list string) :=
  match snd r with
  | Returned p => Some (supported_formats p)
  | Raised _ => None
  end.

(** The call of the loop on one item. *)
Definition dump_event {Dataset : Type} (item : Dataset * string)
  : event Dataset :=
  EvDumpMd (fst item) (md_name_of (snd item)).

(** The calls one turn of the loop makes: the transform and, when the
    transform returned, [clean_memory]. *)
Definition item_calls {Dataset : Type} (oi : bool * (Dataset * string))
  : list (event Dataset) :=
  dump_event (snd oi) :: (if fst oi then [EvCleanMemory] else []).

(** A trace in which every transform is followed by exactly one
    [clean_memory] before the next transform (the loading calls, which come
    first, do not count). *)
Fixpoint clean_after_every_item {Dataset : Type} (tr : list (event Dataset))
  : bool :=
  match tr with
  | [] => true
  | EvReadLocalImages _ :: rest => clean_after_every_item rest
  | EvCleanMemory :: _ => false
  | EvDumpMd _ _ :: rest =>
      match rest with
      | EvCleanMemory :: rest' => clean_after_every_item rest'
      | _ => false
      end
  end.

Section Outcomes.
Context {World Dataset : Type}.
Variable ext : Externals World Dataset.
Variable self : BatchImageProcessor.

(** Whether the transform returned, item by item, along the worlds the
    loop goes through. *)
Fixpoint transform_outcomes (opts : Options) (w : World)
    (items : list (Dataset * string)) : list bool :=
  match items with
  | [] => []
  | (ds, image_name) :: rest =>
      match apply_dump_md ext w ds opts (image_writer self) (md_writer self)
              (md_name_of image_name) (image_dir_name self) with
      | (w1, Returned _) =>
          true :: transform_outcomes opts (fst (clean_memory ext w1)) rest
      | (w1, Raised _) => false :: transform_outcomes opts w1 rest
      end
  end.

(** Whether [clean_memory] raised after an item whose transform
    returned, item by item. *)
Fixpoint clean_failures (opts : Options) (w : World)
    (items : list (Dataset * string)) : list bool :=
  match items with
  | [] => []
  | (ds, image_name) :: rest =>
      match apply_dump_md ext w ds opts (image_writer self) (md_writer self)
              (md_name_of image_name) (image_dir_name self) with
      | (w1, Returned _) =>
          negb (is_returned (snd (clean_memory ext w1)))
          :: clean_failures opts (fst (clean_memory ext w1)) rest
      | (w1, Raised _) => false :: clean_failures opts w1 rest
      end
  end.

Definition count_true (l : list bool) : Z :=
  Z.of_nat (length (filter (fun b => b) l)).

End Outcomes.

(** ** The shape of a suffix, and the caller [main] of
       [test_batch_processor.py] *)

(** The shape of every value of [PurePath.suffix]: empty, or a dot followed
    by a non-empty part without dots. *)
Definition suffix_shaped (e : string) : bool :=
  match e with
  | EmptyString => true
  | String c rest =>
      Ascii.eqb c PyPath.extsep
      && negb (String.eqb rest "")
      && negb (PyStr.mem_char PyPath.extsep rest)
  end.

Definition is_read {Dataset : Type} (e : event Dataset) : bool :=
  match e with
  | EvReadLocalImages _ => true
  | _ => false
  end.

(** What [main] logs last: the three counts, or the error it caught. *)
Inductive main_report : Type :=
| ReportCounts (total processed failed : Z)
| ReportError (e : py_exception).

Definition main_opts : Options :=
  {| lang := "ch"; show_log := true;
     layout_model := "doclayout_yolo"; formula_enable := false |}.

Definition main_input_directory : string := "my_test/source/image/video1".

Section Caller.
Context {World Dataset : Type}.
Variable ext : Externals World Dataset.

(** [main()]: the [try] block builds the processor with its four keyword
    arguments and runs it on the fixed directory; [except Exception] logs
    whatever was raised. *)
Definition main (w : World) (env : environ)
  : World * environ * list (event Dataset) * main_report :=
  match __init__ ext w env "output" "8" "0.2" "6" None with
  | (w1, env1, Raised e) => (w1, env1, [], ReportError e)
  | (w1, env1, Returned processor) =>
      match process_directory ext processor w1 main_input_directory
              main_opts with
      | (w2, tr, Returned (total, processed, failed)) =>
          (w2, env1, tr, ReportCounts total processed failed)
      | (w2, tr, Raised e) => (w2, env1, tr, ReportError e)
      end
  end.

End Caller.

(** ** A small concrete world

    One input directory ["/in"] with the entries [listing]; the dataset of
    a file is its path; reading the files of [unreadable] raises; the
    transform raises on the datasets of [broken]; [clean_memory] raises
    when [clean_raises] is set. *)

Module Demo.

Definition boom : py_exception := mkException OtherException "boom".

Definition demo_ext (listing unreadable broken : list string)
    (clean_raises : bool) : Externals unit string :=
  {| os_path_abspath := fun _ p => p;
     os_path_exists := fun _ p => String.eqb p "/in";
     os_path_isdir := fun _ p => String.eqb p "/in";
     os_listdir := fun _ _ => Returned listing;
     os_makedirs := fun w _ => (w, Returned tt);
     get_local_models_dir := fun _ => Returned None;
     path_resolve := fun _ p => Returned p;
     read_local_images := fun w p _ =>
       if PyStr.str_in p unreadable then (w, Raised boom)
       else (w, Returned [p]);
     apply_dump_md := fun w ds _ _ _ _ _ =>
       if PyStr.str_in ds broken then (w, Raised boom)
       else (w, Returned tt);
     clean_memory := fun w =>
       if clean_raises then (w, Raised boom) else (w, Returned tt) |}.

Definition demo_self (formats : list string) : BatchImageProcessor :=
  {| output_dir := "output";
     image_dir := "output/images";
     image_dir_name := "images";
     supported_formats := formats;
     image_writer := {| parent_dir := "output/images" |};
     md_writer := {| parent_dir := "output" |} |}.

Definition demo_opts : Options :=
  {| lang := "ch"; show_log := true;
     layout_model := "doclayout_yolo"; formula_enable := false |}.

Definition no_environ : environ := fun _ => None.

End Demo.

(** A world that is [true] while a models directory is configured:
    listing a directory puts nothing in it, and [os.makedirs] leaves the
    world as it is. *)
Definition models_ext : Externals bool string :=
  {| os_path_abspath := fun _ p => p;
     os_path_exists := fun _ _ => false;
     os_path_isdir := fun _ _ => false;
     os_listdir := fun _ _ => Returned [];
     os_makedirs := fun w _ => (w, Returned tt);
     get_local_models_dir := fun w : bool =>
       Returned (if w then Some "models"%string else None);
     path_resolve := fun _ p => Returned ("/abs/" ++ p)%string;
     read_local_images := fun w p _ => (w, Returned [p]);
     apply_dump_md := fun w _ _ _ _ _ _ => (w, Returned tt);
     clean_memory := fun w => (w, Returned tt) |}.

(** The same world with a transform that raises on every dataset. *)
Definition failing_transform_ext (listing : list string)
  : Externals unit string :=
  {| os_path_abspath := fun _ p => p;
     os_path_exists := fun _ p => String.eqb p "/in";
     os_path_isdir := fun _ p => String.eqb p "/in";
     os_listdir := fun _ _ => Returned listing;
     os_makedirs := fun w _ => (w, Returned tt);
     get_local_models_dir := fun _ => Returned (Some "models"%string);
     path_resolve := fun _ p => Returned ("/abs/" ++ p)%string;
     read_local_images := fun w p _ => (w, Returned [p]);
     apply_dump_md := fun w _ _ _ _ _ _ => (w, Raised Demo.boom);
     clean_memory := fun w => (w, Returned tt) |}.

(** ** The helpers and the methods on examples *)

Example suffix_examples :
  map PyPath.suffix ["..png"; "a."; "A.PNG"; ".png"; "a.b.png"; "x"]
  = [".png"; ""; ".PNG"; ""; ".png"; ""].
Proof. reflexivity. Qed.

Example splitext_examples :
  map PyPath.splitext ["..png"; "a."; "A.PNG"; ".png"; "a.b.png"; ".a.png"; "x"]
  = [("..png", ""); ("a", "."); ("A", ".PNG"); (".png", "");
     ("a.b", ".png"); (".a", ".png"); ("x", "")].
Proof. reflexivity. Qed.

Example join_examples :
  [PyPath.join "/d" "a"; PyPath.join "/d/" "a"; PyPath.join "" "a";
   PyPath.join "/d" "/a"; PyPath.basename "output/images";
   PyPath.basename "output/"; PyStr.lower "Photo1.JPG"]
  = ["/d/a"; "/d/a"; "a"; "/a"; "images"; ""; "photo1.jpg"].
Proof. reflexivity. Qed.

Example demo_init :
  snd (__init__ (Demo.demo_ext [] [] [] false) tt Demo.no_environ
         "output" "8" "0.2" "6" None)
  = Returned (Demo.demo_self default_formats).
Proof. reflexivity. Qed.

Example demo_run_mixed :
  process_directory
    (Demo.demo_ext ["a.png"; "notes.txt"; "B.JPG"; "c.jpeg"]
       ["/in/c.jpeg"] ["/in/B.JPG"] false)
    (Demo.demo_self default_formats) tt "/in" Demo.demo_opts
  = (tt,
     [EvReadLocalImages "/in/a.png"; EvReadLocalImages "/in/B.JPG";
      EvReadLocalImages "/in/c.jpeg";
      EvDumpMd "/in/a.png" "a.md"; EvCleanMemory;
      EvDumpMd "/in/B.JPG" "B.md"],
     Returned (2, 1, 1)).
Proof. reflexivity. Qed.

(** ** Facts about the string and path helpers *)

Module PyStrFacts.
Import PyStr PyPath.

Lemma len_nonneg (s : string) : 0 <= len s.
Proof. unfold len. lia. Qed.

Lemma len_String (a : ascii) (s : string) : len (String a s) = 1 + len s.
Proof. unfold len. simpl String.length. lia. Qed.

Lemma len_app (s t : string) : len (s ++ t)%string = len s + len t.
Proof.
  induction s as [|a s IH]; cbn [append].
  - unfold len. cbn [String.length]. lia.
  - rewrite !len_String, IH. lia.
Qed.

Lemma mem_char_app (c : ascii) (s t : string) :
  mem_char c (s ++ t)%string = mem_char c s || mem_char c t.
Proof.
  induction s as [|a s IH]; simpl; [reflexivity|].
  now rewrite IH, orb_assoc.
Qed.

Lemma rfind_from_absent (c : ascii) (s : string) (pos : Z) :
  mem_char c s = false -> rfind_from c s pos = -1.
Proof.
  revert pos. induction s as [|a s IH]; simpl; intros pos H; [reflexivity|].
  apply orb_false_iff in H as [Ha Hs].
  now rewrite (IH _ Hs), Ha.
Qed.

(** The last occurrence of [c] in [s ++ c :: e], when [e] has none. *)
Lemma rfind_from_last (c : ascii) (s e : string) (pos : Z) :
  0 <= pos -> mem_char c e = false ->
  rfind_from c (s ++ String c e)%string pos = pos + len s.
Proof.
  revert pos. induction s as [|a s IH]; intros pos Hpos He.
  - simpl. rewrite (rfind_from_absent _ _ _ He), Ascii.eqb_refl.
    unfold len. simpl. lia.
  - simpl. rewrite IH by (lia || assumption).
    pose proof (len_nonneg s) as Hl. rewrite len_String.
    destruct (0 <=? pos + 1 + len s) eqn:E; [lia|].
    apply Z.leb_gt in E. lia.
Qed.

Lemma drop_app_length (s t : string) :
  drop (String.length s) (s ++ t)%string = t.
Proof. induction s as [|a s IH]; simpl; [now destruct t | exact IH]. Qed.

Lemma take_app_length (s t : string) :
  take (String.length s) (s ++ t)%string = s.
Proof. induction s as [|a s IH]; simpl; [reflexivity | now rewrite IH]. Qed.

Lemma slice_from_app (s t : string) : slice_from (len s) (s ++ t)%string = t.
Proof. unfold slice_from, len. rewrite Nat2Z.id. apply drop_app_length. Qed.

Lemma slice_to_app (s t : string) : slice_to (len s) (s ++ t)%string = s.
Proof. unfold slice_to, len. rewrite Nat2Z.id. apply take_app_length. Qed.

Lemma app_String_assoc (pre : string) (a : ascii) (s : string) :
  (pre ++ String a s)%string = ((pre ++ String a "") ++ s)%string.
Proof. induction pre as [|b pre IH]; simpl; [reflexivity | now rewrite IH]. Qed.

(** The dot-skipping loop, run over the part [s] of [pre ++ s ++ t]. *)
Lemma scan_non_dot_app (pre s t : string) :
  scan_non_dot (pre ++ s ++ t)%string (len pre) (String.length s)
  = has_other_char extsep s.
Proof.
  revert pre. induction s as [|a s IH]; intros pre; [reflexivity|].
  cbn [String.length scan_non_dot has_other_char].
  unfold char_at, len at 1. rewrite Nat2Z.id.
  change (String a s ++ t)%string with (String a (s ++ t)%string).
  rewrite drop_app_length. cbn [take].
  replace (String.eqb (String a "") (String extsep "")) with (Ascii.eqb a extsep)
    by (simpl; now destruct (Ascii.eqb a extsep)).
  destruct (Ascii.eqb a extsep) eqn:E; simpl; [|reflexivity].
  rewrite app_String_assoc.
  replace (len pre + 1) with (len (pre ++ String a "")%string)
    by (rewrite len_app; unfold len; simpl; lia).
  apply IH.
Qed.

(** [os.path.splitext] on a name made of a stem with a character other
    than the dot, a dot, and an extension without dots. *)
Lemma splitext_stem_ext (s e : string) :
  has_other_char extsep s = true ->
  mem_char sep s = false -> mem_char sep e = false ->
  mem_char extsep e = false ->
  splitext (s ++ String extsep e)%string = (s, String extsep e).
Proof.
  intros Hs Hsep_s Hsep_e Hdot_e. unfold splitext, rfind.
  rewrite (rfind_from_absent sep)
    by (rewrite mem_char_app; simpl; now rewrite Hsep_s, Hsep_e).
  rewrite rfind_from_last by (lia || assumption).
  pose proof (len_nonneg s) as Hl.
  replace (-1 <? 0 + len s) with true by (symmetry; apply Z.ltb_lt; lia).
  replace (Z.to_nat (0 + len s - (-1 + 1))) with (String.length s)
    by (unfold len; lia).
  change (-1 + 1) with (len "").
  change (s ++ String extsep e)%string with ("" ++ s ++ String extsep e)%string.
  rewrite scan_non_dot_app, Hs. simpl andb. cbv iota.
  change ("" ++ s ++ String extsep e)%string with (s ++ String extsep e)%string.
  replace (0 + len s) with (len s) by lia.
  now rewrite slice_to_app, slice_from_app.
Qed.

(** [PurePath.suffix] on the same names, for a non-empty extension. *)
Lemma suffix_stem_ext (s e : string) :
  s <> ""%string -> e <> ""%string -> mem_char extsep e = false ->
  suffix (s ++ String extsep e)%string = String extsep e.
Proof.
  intros Hs He Hdot. unfold suffix, rfind.
  rewrite rfind_from_last by (lia || assumption).
  rewrite len_app, len_String.
  assert (0 < len s) by (destruct s; [congruence | rewrite len_String; pose proof (len_nonneg s); lia]).
  assert (0 < len e) by (destruct e; [congruence | rewrite len_String; pose proof (len_nonneg e); lia]).
  replace (0 <? 0 + len s) with true by (symmetry; apply Z.ltb_lt; lia).
  replace (0 + len s <? len s + (1 + len e) - 1) with true
    by (symmetry; apply Z.ltb_lt; lia).
  simpl andb. cbv iota. replace (0 + len s) with (len s) by lia.
  apply slice_from_app.
Qed.

Lemma has_other_char_nonempty (c : ascii) (s : string) :
  has_other_char c s = true -> s <> ""%string.
Proof. destruct s; simpl; congruence. Qed.


(** *** Bytes and characters *)

Lemma byte_chr (n : N) : (n < 256)%N -> byte (chr n) = n.
Proof. apply N_ascii_embedding. Qed.

Lemma eqb_byte (a b : ascii) : Ascii.eqb a b = (byte a =? byte b)%N.
Proof.
  destruct (Ascii.eqb a b) eqn:E.
  - apply Ascii.eqb_eq in E. subst. symmetry. apply N.eqb_refl.
  - symmetry. apply N.eqb_neq. intros H. apply Ascii.eqb_neq in E. apply E.
    rewrite <- (ascii_N_embedding a), <- (ascii_N_embedding b).
    unfold byte in H. now rewrite H.
Qed.

Lemma is_continuation_high (c : ascii) :
  is_continuation c = true -> (128 <=? byte c)%N = true.
Proof. unfold is_continuation. now intros H%andb_true_iff. Qed.

Lemma decode_first_ascii (b : ascii) (rest : string) :
  (byte b < 128)%N -> decode_first (String b rest) = Some (byte b, 1%nat).
Proof.
  intros H. unfold decode_first. cbv zeta.
  now replace (byte b <? 128)%N with true by (symmetry; now apply N.ltb_lt).
Qed.

(** What [decode_first] tells about the bytes of the character. *)
Lemma decode_first_some (b : ascii) (rest : string) (cp : N) (n : nat) :
  decode_first (String b rest) = Some (cp, n) ->
  (n = 1%nat /\ cp = byte b /\ (byte b < 128)%N)
  \/ ((128 <= byte b)%N /\ (2 <= n)%nat /\ high_prefix (n - 1) rest = true).
Proof.
  unfold decode_first. cbv zeta.
  destruct (byte b <? 128)%N eqn:E0.
  { intros H. injection H as <- <-. left. apply N.ltb_lt in E0. auto. }
  apply N.ltb_ge in E0. intros H. right. split; [exact E0|].
  destruct ((194 <=? byte b) && (byte b <? 224))%N.
  { destruct rest as [|b1 r1]; [discriminate|].
    destruct (is_continuation b1) eqn:C1; [|discriminate].
    injection H as <- <-. split; [lia|]. cbn.
    now rewrite (is_continuation_high _ C1). }
  destruct ((224 <=? byte b) && (byte b <? 240))%N.
  { destruct rest as [|b1 [|b2 r2]]; try discriminate.
    destruct (is_continuation b1) eqn:C1; [|discriminate].
    destruct (is_continuation b2) eqn:C2; [|discriminate].
    cbn [andb] in H.
    destruct (_ && _) in H; [|discriminate].
    injection H as <- <-. split; [lia|]. cbn.
    now rewrite (is_continuation_high _ C1), (is_continuation_high _ C2). }
  destruct ((240 <=? byte b) && (byte b <? 245))%N; [|discriminate].
  destruct rest as [|b1 [|b2 [|b3 r3]]]; try discriminate.
  destruct (is_continuation b1) eqn:C1; [|discriminate].
  destruct (is_continuation b2) eqn:C2; [|discriminate].
  destruct (is_continuation b3) eqn:C3; [|discriminate].
  cbn [andb] in H.
  destruct (_ && _) in H; [|discriminate].
  injection H as <- <-. split; [lia|]. cbn.
  now rewrite (is_continuation_high _ C1), (is_continuation_high _ C2),
    (is_continuation_high _ C3).
Qed.

Lemma decode_first_none (b : ascii) (rest : string) :
  decode_first (String b rest) = None -> (128 <= byte b)%N.
Proof.
  unfold decode_first. cbv zeta.
  destruct (byte b <? 128)%N eqn:E0; [discriminate|].
  intros _. now apply N.ltb_ge.
Qed.

Lemma contains_app (p : ascii -> bool) (s t : string) :
  contains p (s ++ t)%string = contains p s || contains p t.
Proof.
  induction s as [|a s IH]; cbn [append contains]; [reflexivity|].
  now rewrite IH, orb_assoc.
Qed.

Lemma contains_ext (p q : ascii -> bool) (s : string) :
  (forall c, p c = q c) -> contains p s = contains q s.
Proof.
  intros H. induction s as [|a s IH]; cbn [contains]; [reflexivity|].
  now rewrite H, IH.
Qed.

Lemma contains_never (s : string) : contains (fun _ => false) s = false.
Proof. induction s as [|a s IH]; cbn [contains]; auto. Qed.

Lemma mem_char_contains (c : ascii) (s : string) :
  mem_char c s = contains (fun a => Ascii.eqb a c) s.
Proof. induction s as [|a s IH]; cbn [mem_char contains]; now rewrite ?IH. Qed.

Lemma has_ascii_upper_contains (s : string) :
  has_ascii_upper s
  = contains (fun c => ((65 <=? byte c) && (byte c <=? 90))%N) s.
Proof.
  induction s as [|a s IH]; cbn [has_ascii_upper contains]; now rewrite ?IH.
Qed.

Section AsciiBytes.
Variable p : ascii -> bool.
Hypothesis p_ascii : forall c, p c = true -> (byte c < 128)%N.

Lemma p_high (c : ascii) : (128 <= byte c)%N -> p c = false.
Proof.
  intros H. destruct (p c) eqn:E; [|reflexivity].
  apply p_ascii in E. lia.
Qed.

Lemma contains_take_high (n : nat) (s : string) :
  high_prefix n s = true -> contains p (take n s) = false.
Proof.
  revert s. induction n as [|n IH]; intros s H; [reflexivity|].
  destruct s as [|b rest]; [discriminate|].
  cbn [high_prefix] in H. apply andb_true_iff in H as [Hb Hrest].
  cbn [take contains]. rewrite (IH _ Hrest), p_high; [reflexivity|].
  now apply N.leb_le.
Qed.

Lemma contains_drop_high (q : ascii -> bool) (n : nat) (s : string) :
  (forall c, q c = true -> p c = true) ->
  high_prefix n s = true -> contains q (drop n s) = contains q s.
Proof.
  intros Hq. revert s. induction n as [|n IH]; intros s H; [reflexivity|].
  destruct s as [|b rest]; [discriminate|].
  cbn [high_prefix] in H. apply andb_true_iff in H as [Hb Hrest].
  cbn [drop contains]. rewrite (IH _ Hrest).
  destruct (q b) eqn:E; [|reflexivity].
  apply Hq in E. rewrite p_high in E; [discriminate | now apply N.leb_le].
Qed.

Hypothesis p_forms :
  forall cp cps, to_lower_full cp = Some cps ->
                 contains p (encode_all cps) = false.

(** The bytes [p] marks in a lower-cased string: those of the characters
    that are their own lower-case form. *)
Lemma contains_lower_from (s : string) :
  forall skip prev,
    high_prefix skip s = true ->
    contains p (lower_from skip prev s)
    = contains (fun c => p c && unchanged c) (drop skip s).
Proof.
  induction s as [|b rest IH]; intros skip prev Hhigh.
  - now destruct skip.
  - destruct skip as [|k].
    + cbn [lower_from drop].
      destruct (decode_first (String b rest)) as [[cp n]|] eqn:E.
      * rewrite contains_app. cbn [contains].
        destruct (decode_first_some _ _ _ _ E)
          as [(-> & -> & Hb)|(Hb & Hn & Hrest)].
        -- rewrite (IH 0%nat _ eq_refl). cbn [drop]. f_equal.
           unfold lower_char_at, unchanged.
           replace (byte b =? capital_sigma)%N with false
             by (symmetry; apply N.eqb_neq; unfold capital_sigma; lia).
           destruct (to_lower_full (byte b)) as [cps|] eqn:T.
           ++ rewrite (p_forms _ _ T). now rewrite andb_false_r.
           ++ cbn [take contains]. now rewrite orb_false_r, andb_true_r.
        -- rewrite (IH _ _ Hrest).
           rewrite (contains_drop_high (fun c => p c && unchanged c));
             [|intros c Hc; now apply andb_true_iff in Hc as [Hc _] | exact Hrest].
           f_equal. rewrite (p_high b Hb). cbn [andb].
           unfold lower_char_at.
           destruct (cp =? capital_sigma)%N.
           ++ destruct (prev && _).
              ** change (encode_utf8 final_sigma)
                   with (take 2 (encode_utf8 final_sigma)).
                 now apply contains_take_high.
              ** change (encode_utf8 small_sigma)
                   with (take 2 (encode_utf8 small_sigma)).
                 now apply contains_take_high.
           ++ destruct (to_lower_full cp) as [cps|] eqn:T;
                [now apply (p_forms cp)|].
              destruct n as [|n]; [lia|]. cbn [take contains].
              rewrite (p_high b Hb). cbn [orb].
              apply contains_take_high.
              now replace (S n - 1)%nat with n in Hrest by lia.
      * cbn [contains]. rewrite (IH 0%nat _ eq_refl). cbn [drop].
        now rewrite (p_high b (decode_first_none _ _ E)).
    + cbn [lower_from drop]. cbn [high_prefix] in Hhigh.
      apply andb_true_iff in Hhigh as [_ Hrest]. now apply IH.
Qed.

End AsciiBytes.

Lemma lookup_in (cp : N) (table : list (N * list N)) (cps : list N) :
  lookup cp table = Some cps -> In (cp, cps) table.
Proof.
  induction table as [|[k v] rest IH]; [discriminate|]. cbn [lookup].
  destruct (k =? cp)%N eqn:E.
  - intros H. injection H as ->. apply N.eqb_eq in E. subst. now left.
  - intros H. right. now apply IH.
Qed.

(** The lower-case forms of the tables hold no dot, no letter from [A] to
    [Z], and are not empty. *)
Lemma lower_table_forms :
  forallb
    (fun e : N * list N =>
       negb (contains (fun c => ((byte c =? 46) || (65 <=? byte c) && (byte c <=? 90))%N)
               (encode_all (snd e)))
       && negb (String.eqb (encode_all (snd e)) ""))
    UnicodeData.lower_table = true.
Proof. vm_compute. reflexivity. Qed.

Lemma ascii_forms :
  forallb
    (fun cp : N =>
       negb (contains (fun c => ((byte c =? 46) || (65 <=? byte c) && (byte c <=? 90))%N)
               (encode_all [(cp + 32)%N])))
    (map N.of_nat (seq 65 26)) = true.
Proof. vm_compute. reflexivity. Qed.

Lemma lower_forms (cp : N) (cps : list N) :
  to_lower_full cp = Some cps ->
  contains (fun c => ((byte c =? 46) || (65 <=? byte c) && (byte c <=? 90))%N)
    (encode_all cps) = false
  /\ encode_all cps <> ""%string.
Proof.
  unfold to_lower_full. destruct (cp <? 128)%N.
  - destruct ((65 <=? cp) && (cp <=? 90))%N eqn:E; [|discriminate].
    intros H. injection H as <-.
    apply andb_true_iff in E as [E1 E2]. apply N.leb_le in E1, E2.
    split.
    + pose proof ascii_forms as F. rewrite forallb_forall in F.
      specialize (F cp). apply negb_true_iff. apply F.
      apply in_map_iff. exists (N.to_nat cp). split; [lia|].
      apply in_seq. lia.
    + cbn [encode_all]. unfold encode_utf8.
      repeat destruct (_ <? _)%N; discriminate.
  - intros H%lookup_in. pose proof lower_table_forms as F.
    rewrite forallb_forall in F. specialize (F _ H). cbn [snd] in F.
    apply andb_true_iff in F as [F1 F2].
    apply negb_true_iff in F1, F2. split; [exact F1|].
    now apply String.eqb_neq.
Qed.


(** No letter from [A] to [Z] is left in a lower-cased string. *)
Lemma lower_has_no_ascii_upper (s : string) :
  has_ascii_upper (lower s) = false.
Proof.
  rewrite has_ascii_upper_contains. unfold lower.
  rewrite contains_lower_from; [| | |reflexivity].
  - cbn [drop]. rewrite <- (contains_never s). apply contains_ext.
    intros c. unfold unchanged, to_lower_full.
    destruct ((65 <=? byte c) && (byte c <=? 90))%N eqn:E; [|reflexivity].
    apply andb_true_iff in E as [E1 E2]. apply N.leb_le in E1, E2.
    replace (byte c <? 128)%N with true by (symmetry; apply N.ltb_lt; lia).
    now replace ((65 <=? byte c) && (byte c <=? 90))%N with true
      by (symmetry; apply andb_true_iff; split; now apply N.leb_le).
  - intros c H. apply andb_true_iff in H as [_ H]. apply N.leb_le in H. lia.
  - intros cp cps H. destruct (lower_forms _ _ H) as [F _].
    rewrite <- (contains_never (encode_all cps)) in F |- *.
    rewrite (contains_never (encode_all cps)) in F.
    induction (encode_all cps) as [|a r IHr]; [reflexivity|].
    cbn [contains] in F |- *. apply orb_false_iff in F as [Fa Fr].
    apply orb_false_iff in Fa as [_ Fa]. now rewrite Fa, (IHr Fr).
Qed.

(** Lower-casing keeps the dots where they are. *)
Lemma lower_keeps_dots (s : string) :
  mem_char "."%char (lower s) = mem_char "."%char s.
Proof.
  rewrite !mem_char_contains. unfold lower.
  rewrite contains_lower_from; [| | |reflexivity].
  - cbn [drop]. apply contains_ext. intros c.
    destruct (Ascii.eqb c ".") eqn:E; [|reflexivity].
    apply Ascii.eqb_eq in E. now subst c.
  - intros c H. apply Ascii.eqb_eq in H. subst c. reflexivity.
  - intros cp cps H. destruct (lower_forms _ _ H) as [F _].
    induction (encode_all cps) as [|a r IHr]; [reflexivity|].
    cbn [contains] in F |- *. apply orb_false_iff in F as [Fa Fr].
    apply orb_false_iff in Fa as [Fa _]. rewrite (IHr Fr), eqb_byte.
    now rewrite orb_false_r.
Qed.

Lemma lower_from_nonempty (prev : bool) (s : string) :
  s <> ""%string -> lower_from 0 prev s <> ""%string.
Proof.
  destruct s as [|b rest]; [congruence|]. intros _. cbn [lower_from].
  destruct (decode_first (String b rest)) as [[cp n]|] eqn:E; [|discriminate].
  assert (Hne : lower_char_at prev cp (take n (String b rest))
                  (drop n (String b rest)) <> ""%string).
  { unfold lower_char_at. destruct (cp =? capital_sigma)%N.
    - destruct (prev && _); discriminate.
    - destruct (to_lower_full cp) as [cps|] eqn:T.
      + now destruct (lower_forms _ _ T).
      + destruct (decode_first_some _ _ _ _ E) as [(-> & _)|(_ & Hn & _)].
        * discriminate.
        * destruct n as [|n]; [lia | discriminate]. }
  destruct (lower_char_at _ _ _ _); [congruence | discriminate].
Qed.

(** A leading dot stays where it is. *)
Lemma lower_dot (s : string) :
  lower (String "."%char s) = String "."%char (lower s).
Proof.
  unfold lower. cbn [lower_from].
  rewrite decode_first_ascii by (vm_compute; reflexivity).
  change (byte ".") with 46%N.
  change (lower_char_at false 46 (take 1 (String "." s)) (drop 1 (String "." s)))
    with (take 1 (String "."%char s)).
  change (if case_ignorable 46 then false else cased 46) with false.
  reflexivity.
Qed.

(** *** Lower-casing a lower-cased string *)

Lemma append_append (a b c : string) :
  ((a ++ b) ++ c)%string = (a ++ b ++ c)%string.
Proof. induction a as [|x a IH]; cbn [append]; [reflexivity | now rewrite IH]. Qed.

Lemma take_length (s : string) : take (String.length s) s = s.
Proof. induction s as [|a s IH]; cbn; [reflexivity | now rewrite IH]. Qed.

Lemma drop_length_le (n : nat) (s : string) :
  (String.length (drop n s) <= String.length s)%nat.
Proof.
  revert s. induction n as [|n IH]; intros [|a s]; cbn; try lia.
  specialize (IH s). lia.
Qed.

Lemma lower_from_drop (k : nat) (prev : bool) (s : string) :
  lower_from k prev s = lower_from 0 prev (drop k s).
Proof.
  revert k. induction s as [|b rest IH]; intros [|k]; try reflexivity.
  cbn [drop]. rewrite <- IH. reflexivity.
Qed.

(** The bytes that [decode_first] reads are those of the character. *)
Lemma decode_first_take (s : string) (cp : N) (n : nat) (t : string) :
  decode_first s = Some (cp, n) ->
  decode_first (take n s ++ t) = Some (cp, n)
  /\ String.length (take n s) = n /\ (1 <= n)%nat.
Proof.
  destruct s as [|b r]; [discriminate|].
  unfold decode_first at 1. cbv zeta.
  destruct (byte b <? 128)%N eqn:E0.
  { intros H. injection H as <- <-. cbn [take append String.length].
    unfold decode_first. cbv zeta. rewrite E0. repeat split; lia. }
  destruct ((194 <=? byte b) && (byte b <? 224))%N eqn:E2.
  { destruct r as [|b1 r1]; [discriminate|].
    destruct (is_continuation b1) eqn:C1; [|discriminate].
    intros H. injection H as <- <-. cbn [take append String.length].
    unfold decode_first. cbv zeta. rewrite E0, E2, C1. repeat split; lia. }
  destruct ((224 <=? byte b) && (byte b <? 240))%N eqn:E3.
  { destruct r as [|b1 [|b2 r2]]; try discriminate.
    destruct (is_continuation b1 && is_continuation b2 && _ && _) eqn:C;
      [|discriminate].
    intros H. injection H as <- <-. cbn [take append String.length].
    unfold decode_first. cbv zeta. rewrite E0, E2, E3, C. repeat split; lia. }
  destruct ((240 <=? byte b) && (byte b <? 245))%N eqn:E4; [|discriminate].
  destruct r as [|b1 [|b2 [|b3 r3]]]; try discriminate.
  destruct (is_continuation b1 && is_continuation b2 && is_continuation b3
            && _ && _) eqn:C; [|discriminate].
  intros H. injection H as <- <-. cbn [take append String.length].
  unfold decode_first. cbv zeta. rewrite E0, E2, E3, E4, C. repeat split; lia.
Qed.

(** A character does not start with a continuation byte. *)
Lemma decode_first_head (b : ascii) (r : string) (cp : N) (n : nat) :
  decode_first (String b r) = Some (cp, n) -> is_continuation b = false.
Proof.
  intros H. destruct (is_continuation b) eqn:C; [|reflexivity]. exfalso.
  unfold is_continuation in C. apply andb_true_iff in C as [C1 C2].
  apply N.leb_le in C1. apply N.ltb_lt in C2.
  unfold decode_first in H. cbv zeta in H.
  replace (byte b <? 128)%N with false in H by (symmetry; apply N.ltb_ge; lia).
  replace (194 <=? byte b)%N with false in H by (symmetry; apply N.leb_gt; lia).
  replace (224 <=? byte b)%N with false in H by (symmetry; apply N.leb_gt; lia).
  replace (240 <=? byte b)%N with false in H by (symmetry; apply N.leb_gt; lia).
  discriminate.
Qed.

(** Of what follows its first byte, [decode_first] reads continuation
    bytes only. *)
Lemma decode_first_continuation (b : ascii) (r : string) :
  decode_first (String b r) = decode_first (String b (continuation_prefix r)).
Proof.
  unfold decode_first. cbv zeta.
  destruct (byte b <? 128)%N; [reflexivity|].
  destruct ((194 <=? byte b) && (byte b <? 224))%N.
  { destruct r as [|b1 r1]; [reflexivity|]. cbn [continuation_prefix].
    now destruct (is_continuation b1) eqn:C1; [rewrite C1|]. }
  destruct ((224 <=? byte b) && (byte b <? 240))%N.
  { destruct r as [|b1 [|b2 r2]]; cbn [continuation_prefix];
      [reflexivity|now destruct (is_continuation b1)|].
    destruct (is_continuation b1) eqn:C1; [|reflexivity].
    destruct (is_continuation b2) eqn:C2; [|reflexivity].
    now rewrite C1, C2. }
  destruct ((240 <=? byte b) && (byte b <? 245))%N; [|reflexivity].
  destruct r as [|b1 [|b2 [|b3 r3]]]; cbn [continuation_prefix];
    [reflexivity|now destruct (is_continuation b1)| |].
  { destruct (is_continuation b1); [|reflexivity].
    now destruct (is_continuation b2). }
  destruct (is_continuation b1) eqn:C1; [|reflexivity].
  destruct (is_continuation b2) eqn:C2; [|reflexivity].
  destruct (is_continuation b3) eqn:C3; [|reflexivity].
  now rewrite C1, C2, C3.
Qed.

Lemma lower_from_char (prev : bool) (s : string) (cp : N) (n : nat) :
  decode_first s = Some (cp, n) ->
  lower_from 0 prev s
  = (lower_char_at prev cp (take n s) (drop n s)
     ++ lower_from 0 (if case_ignorable cp then prev else cased cp)
          (drop n s))%string.
Proof.
  intros H. destruct (decode_first_take s cp n "" H) as (_ & _ & Hn).
  destruct s as [|b r]; [discriminate|].
  cbn [lower_from]. rewrite H, lower_from_drop. f_equal. f_equal.
  destruct n as [|n]; [lia|]. cbn [drop]. f_equal. lia.
Qed.

Lemma lower_from_raw (prev : bool) (b : ascii) (r r' : string) :
  decode_first (String b r) = None ->
  continuation_prefix r' = continuation_prefix r ->
  lower_from 0 prev (String b r') = String b (lower_from 0 false r').
Proof.
  intros H Hc. cbn [lower_from].
  now rewrite decode_first_continuation, Hc, <- decode_first_continuation, H.
Qed.

(** A piece [u] that is one character which has no other lower-case form
    stays as it is. *)
Lemma lower_from_fixed_piece (u t : string) (cp : N) (prev : bool) :
  decode_first (u ++ t) = Some (cp, String.length u) ->
  (cp =? capital_sigma)%N = false ->
  to_lower_full cp = None ->
  lower_from 0 prev (u ++ t)
  = (u ++ lower_from 0 (if case_ignorable cp then prev else cased cp) t)%string.
Proof.
  intros Hd Hs Ht. rewrite (lower_from_char _ _ _ _ Hd).
  rewrite take_app_length, drop_app_length. unfold lower_char_at.
  now rewrite Hs, Ht.
Qed.

Lemma fixed_char_piece (cp : N) (prev : bool) (t : string) :
  fixed_char cp = true ->
  exists prev',
    lower_from 0 prev (encode_utf8 cp ++ t)
    = (encode_utf8 cp ++ lower_from 0 prev' t)%string.
Proof.
  unfold fixed_char. intros H.
  apply andb_true_iff in H as [H Hd]. apply andb_true_iff in H as [Hs Ht].
  apply negb_true_iff in Hs.
  destruct (to_lower_full cp) eqn:T; [discriminate|].
  destruct (decode_first (encode_utf8 cp)) as [[c n]|] eqn:D; [|discriminate].
  apply andb_true_iff in Hd as [Hc Hn].
  apply N.eqb_eq in Hc. apply Nat.eqb_eq in Hn. subst c n.
  destruct (decode_first_take _ _ _ t D) as (Hd & _ & _).
  rewrite take_length in Hd.
  exists (if case_ignorable cp then prev else cased cp).
  now apply lower_from_fixed_piece.
Qed.

Lemma fixed_chars_piece (cps : list N) :
  forallb fixed_char cps = true ->
  forall prev t,
  exists prev',
    lower_from 0 prev (encode_all cps ++ t)
    = (encode_all cps ++ lower_from 0 prev' t)%string.
Proof.
  induction cps as [|cp rest IH]; intros H prev t.
  - now exists prev.
  - cbn [forallb] in H. apply andb_true_iff in H as [Hcp Hrest].
    destruct (fixed_char_piece cp prev (encode_all rest ++ t) Hcp) as [p1 E1].
    destruct (IH Hrest p1 t) as [p2 E2]. exists p2.
    cbn [encode_all]. now rewrite !append_append, E1, E2.
Qed.

(** The lower-case forms of the tables are made of characters that have
    no other lower-case form. *)
Lemma lower_table_fixed :
  forallb (fun e : N * list N => forallb fixed_char (snd e))
    UnicodeData.lower_table = true.
Proof. vm_compute. reflexivity. Qed.

Lemma ascii_fixed :
  forallb (fun cp : N => fixed_char (cp + 32)) (map N.of_nat (seq 65 26))
  = true.
Proof. vm_compute. reflexivity. Qed.

Lemma sigma_fixed :
  fixed_char final_sigma = true /\ fixed_char small_sigma = true.
Proof. split; vm_compute; reflexivity. Qed.

Lemma lower_forms_fixed (cp : N) (cps : list N) :
  to_lower_full cp = Some cps -> forallb fixed_char cps = true.
Proof.
  unfold to_lower_full. destruct (cp <? 128)%N.
  - destruct ((65 <=? cp) && (cp <=? 90))%N eqn:E; [|discriminate].
    intros H. injection H as <-.
    apply andb_true_iff in E as [E1 E2]. apply N.leb_le in E1, E2.
    pose proof ascii_fixed as F. rewrite forallb_forall in F.
    cbn [forallb]. rewrite (F cp); [reflexivity|].
    apply in_map_iff. exists (N.to_nat cp). split; [lia|].
    apply in_seq. lia.
  - intros H%lookup_in. pose proof lower_table_fixed as F.
    rewrite forallb_forall in F. exact (F _ H).
Qed.

(** What [str.lower()] writes for a character stays as it is when
    lower-cased again. *)
Lemma lower_char_at_piece (s : string) (cp : N) (n : nat)
    (prev prev2 : bool) (t : string) :
  decode_first s = Some (cp, n) ->
  exists prev',
    lower_from 0 prev2 (lower_char_at prev cp (take n s) (drop n s) ++ t)
    = (lower_char_at prev cp (take n s) (drop n s)
       ++ lower_from 0 prev' t)%string.
Proof.
  intros H. unfold lower_char_at.
  destruct (cp =? capital_sigma)%N eqn:S.
  - destruct (prev && _); apply fixed_char_piece; apply sigma_fixed.
  - destruct (to_lower_full cp) as [cps|] eqn:T.
    + apply fixed_chars_piece. now apply (lower_forms_fixed cp).
    + destruct (decode_first_take s cp n t H) as (Hd & Hl & _).
      exists (if case_ignorable cp then prev2 else cased cp).
      apply lower_from_fixed_piece; [|exact S|exact T].
      now rewrite Hl.
Qed.

(** What [str.lower()] writes for a character does not start with a
    continuation byte. *)
Lemma lower_char_at_head (s : string) (cp : N) (n : nat) (prev : bool) :
  decode_first s = Some (cp, n) ->
  exists c u,
    lower_char_at prev cp (take n s) (drop n s) = String c u
    /\ is_continuation c = false.
Proof.
  intros H. unfold lower_char_at.
  destruct (cp =? capital_sigma)%N eqn:S.
  - destruct (prev && _); eexists; eexists; split;
      try (vm_compute; reflexivity).
  - destruct (to_lower_full cp) as [cps|] eqn:T.
    + pose proof (lower_forms_fixed _ _ T) as F.
      destruct (lower_forms _ _ T) as [_ Hne].
      destruct cps as [|c1 rest]; [now elim Hne|].
      cbn [forallb] in F. apply andb_true_iff in F as [F _].
      unfold fixed_char in F. apply andb_true_iff in F as [_ F].
      cbn [encode_all].
      destruct (encode_utf8 c1) as [|c u] eqn:Eu; [discriminate|].
      destruct (decode_first (String c u)) as [[c' n']|] eqn:D;
        [|discriminate].
      exists c, (u ++ encode_all rest)%string. split; [reflexivity|].
      exact (decode_first_head _ _ _ _ D).
    + destruct (decode_first_take s cp n "" H) as (_ & _ & Hn).
      destruct s as [|b r]; [discriminate|].
      destruct n as [|n]; [lia|]. cbn [take].
      exists b, (take n r). split; [reflexivity|].
      exact (decode_first_head _ _ _ _ H).
Qed.

(** Lower-casing keeps the continuation bytes that lead a string. *)
Lemma continuation_prefix_lower (r : string) (prev : bool) :
  continuation_prefix (lower_from 0 prev r) = continuation_prefix r.
Proof.
  revert prev. induction r as [|b r IH]; intros prev; [reflexivity|].
  destruct (decode_first (String b r)) as [[cp n]|] eqn:D.
  - rewrite (lower_from_char _ _ _ _ D).
    destruct (lower_char_at_head _ _ _ prev D) as (c & u & -> & Hc).
    cbn [append continuation_prefix].
    now rewrite Hc, (decode_first_head _ _ _ _ D).
  - rewrite (lower_from_raw prev b r r D eq_refl).
    cbn [continuation_prefix]. now rewrite IH.
Qed.

Lemma lower_from_twice (n : nat) :
  forall (s : string) (prev prev' : bool),
    (String.length s <= n)%nat ->
    lower_from 0 prev' (lower_from 0 prev s) = lower_from 0 prev s.
Proof.
  induction n as [|n IH]; intros s prev prev' Hlen.
  - destruct s; [reflexivity | cbn in Hlen; lia].
  - destruct s as [|b r]; [reflexivity|].
    destruct (decode_first (String b r)) as [[cp m]|] eqn:D.
    + rewrite (lower_from_char _ _ _ _ D).
      destruct (lower_char_at_piece _ _ _ prev prev'
                  (lower_from 0 (if case_ignorable cp then prev else cased cp)
                     (drop m (String b r))) D) as [p ->].
      f_equal. apply IH.
      destruct (decode_first_take _ _ _ "" D) as (_ & _ & Hm).
      destruct m as [|m]; [lia|]. cbn [drop].
      pose proof (drop_length_le m r). cbn [String.length] in Hlen. lia.
    + rewrite (lower_from_raw prev b r r D eq_refl).
      rewrite (lower_from_raw prev' b r (lower_from 0 false r) D
                 (continuation_prefix_lower r false)).
      f_equal. apply IH. cbn [String.length] in Hlen. lia.
Qed.

(** [s.lower().lower() == s.lower()] *)
Lemma lower_lower (s : string) : lower (lower s) = lower s.
Proof. unfold lower. now apply (lower_from_twice (String.length s)). Qed.

(** Lower-casing changes no lower-cased string. *)
Lemma has_upper_lower (s : string) : has_upper (lower s) = false.
Proof.
  unfold has_upper. rewrite lower_lower. now rewrite String.eqb_refl.
Qed.

(** Lower-casing changes a string that holds a letter from [A] to [Z]. *)
Lemma has_ascii_upper_has_upper (s : string) :
  has_ascii_upper s = true -> has_upper s = true.
Proof.
  intros H. unfold has_upper. apply negb_true_iff, String.eqb_neq.
  intros E. pose proof (lower_has_no_ascii_upper s) as L.
  rewrite E in L. congruence.
Qed.

(** *** The strings that lower-casing changes *)

Lemma eqb_append_head (u a b : string) :
  String.eqb (u ++ a) (u ++ b) = String.eqb a b.
Proof.
  induction u as [|x u IH]; cbn [append String.eqb]; [reflexivity|].
  now rewrite Ascii.eqb_refl.
Qed.

Lemma take_drop (n : nat) (s : string) : (take n s ++ drop n s)%string = s.
Proof.
  revert s. induction n as [|n IH]; intros [|a s]; cbn; try reflexivity.
  now rewrite IH.
Qed.

Lemma holds_char_from_drop (p : N -> bool) (k : nat) (s : string) :
  holds_char_from p k s = holds_char_from p 0 (drop k s).
Proof.
  revert k. induction s as [|b rest IH]; intros [|k]; try reflexivity.
  cbn [drop]. rewrite <- IH. reflexivity.
Qed.

Lemma holds_char_char (p : N -> bool) (s : string) (cp : N) (n : nat) :
  decode_first s = Some (cp, n) ->
  holds_char_from p 0 s = p cp || holds_char_from p 0 (drop n s).
Proof.
  intros H. destruct (decode_first_take s cp n "" H) as (_ & _ & Hn).
  destruct s as [|b r]; [discriminate|].
  cbn [holds_char_from]. rewrite H, holds_char_from_drop. f_equal. f_equal.
  destruct n as [|n]; [lia|]. cbn [drop]. f_equal. lia.
Qed.

Lemma holds_char_raw (p : N -> bool) (b : ascii) (r : string) :
  decode_first (String b r) = None ->
  holds_char_from p 0 (String b r) = holds_char_from p 0 r.
Proof. intros H. cbn [holds_char_from]. now rewrite H. Qed.

Lemma holds_char_weaken (p q : N -> bool) (s : string) :
  (forall cp, p cp = true -> q cp = true) ->
  holds_char p s = true -> holds_char q s = true.
Proof.
  intros Hpq. unfold holds_char. generalize 0%nat.
  induction s as [|b r IH]; intros k; [discriminate|].
  destruct k as [|k]; [|apply IH]. cbn [holds_char_from].
  destruct (decode_first (String b r)) as [[cp n]|]; [|apply IH].
  intros H. apply orb_true_iff in H as [H|H]; apply orb_true_iff;
    [left; now apply Hpq | right; now apply IH].
Qed.

(** The form that a character with no other lower-case form has at the
    head of a string. *)
Lemma fixed_char_decode (cp : N) (t : string) :
  fixed_char cp = true ->
  decode_first (encode_utf8 cp ++ t)
  = Some (cp, String.length (encode_utf8 cp))
  /\ has_lower_form cp = false.
Proof.
  unfold fixed_char, has_lower_form. intros H.
  apply andb_true_iff in H as [H Hd]. apply andb_true_iff in H as [Hs Ht].
  apply negb_true_iff in Hs. rewrite Hs.
  destruct (to_lower_full cp) eqn:T; [discriminate|].
  destruct (decode_first (encode_utf8 cp)) as [[c n]|] eqn:D; [|discriminate].
  apply andb_true_iff in Hd as [Hc Hn].
  apply N.eqb_eq in Hc. apply Nat.eqb_eq in Hn. subst c n.
  destruct (decode_first_take _ _ _ t D) as (Hd & _ & _).
  now rewrite take_length in Hd.
Qed.

(** A character that has another lower-case form is not what
    [str.lower()] writes for it. *)
Lemma lower_char_at_changes (s : string) (cp : N) (n : nat) (prev : bool)
    (t : string) :
  decode_first s = Some (cp, n) ->
  has_lower_form cp = true ->
  (lower_char_at prev cp (take n s) (drop n s) ++ t)%string <> s.
Proof.
  intros D F E.
  assert (Hfix : exists c u, fixed_char c = true
                             /\ s = (encode_utf8 c ++ u)%string).
  { revert E F. unfold lower_char_at, has_lower_form.
    destruct (cp =? capital_sigma)%N.
    - intros E _.
      destruct (prev && _); eexists; eexists; (split; [|symmetry; exact E]);
        apply sigma_fixed.
    - destruct (to_lower_full cp) as [cps|] eqn:T; [|discriminate].
      intros E _.
      pose proof (lower_forms_fixed _ _ T) as Fx.
      destruct (lower_forms _ _ T) as [_ Hne].
      destruct cps as [|c1 rest]; [now elim Hne|].
      cbn [forallb] in Fx. apply andb_true_iff in Fx as [Fx _].
      cbn [encode_all] in E. rewrite append_append in E.
      exists c1. eexists. split; [exact Fx | symmetry; exact E]. }
  destruct Hfix as (c & u & Hc & ->).
  destruct (fixed_char_decode c u Hc) as [Hd Hl].
  rewrite Hd in D. injection D as -> _. congruence.
Qed.

Lemma lower_from_changes (n : nat) :
  forall (s : string) (prev : bool),
    (String.length s <= n)%nat ->
    String.eqb (lower_from 0 prev s) s
    = negb (holds_char_from has_lower_form 0 s).
Proof.
  induction n as [|n IH]; intros s prev Hlen.
  - destruct s; [reflexivity | cbn in Hlen; lia].
  - destruct s as [|b r]; [reflexivity|].
    destruct (decode_first (String b r)) as [[cp m]|] eqn:D.
    + rewrite (holds_char_char _ _ _ _ D), (lower_from_char _ _ _ _ D).
      destruct (has_lower_form cp) eqn:F; cbn [orb negb].
      * apply String.eqb_neq. now apply lower_char_at_changes.
      * unfold lower_char_at. unfold has_lower_form in F.
        apply orb_false_iff in F as [S T]. rewrite S.
        destruct (to_lower_full cp); [discriminate|].
        assert (Hd : (String.length (drop m (String b r)) <= n)%nat).
        { destruct (decode_first_take _ _ _ "" D) as (_ & _ & Hm).
          destruct m as [|m]; [lia|]. cbn [drop].
          pose proof (drop_length_le m r).
          cbn [String.length] in Hlen. lia. }
        rewrite <- (IH (drop m (String b r))
                      (if case_ignorable cp then prev else cased cp) Hd).
        transitivity
          (String.eqb
             (take m (String b r)
              ++ lower_from 0 (if case_ignorable cp then prev else cased cp)
                   (drop m (String b r)))
             (take m (String b r) ++ drop m (String b r))).
        -- now rewrite take_drop.
        -- apply eqb_append_head.
    + rewrite (holds_char_raw _ _ _ D), (lower_from_raw prev b r r D eq_refl).
      cbn [String.length] in Hlen.
      rewrite <- (IH r false) by lia. cbn [String.eqb].
      now rewrite Ascii.eqb_refl.
Qed.

(** Lower-casing changes the strings that hold a character with another
    lower-case form, and no other string. *)
Lemma has_upper_holds_char (s : string) :
  has_upper s = holds_char has_lower_form s.
Proof.
  unfold has_upper, lower, holds_char.
  rewrite (lower_from_changes (String.length s)) by lia.
  apply negb_involutive.
Qed.

(** Lower-casing changes a string that holds an upper-case letter with a
    lower-case form. *)
Lemma upper_letter_with_lower_form_has_upper (s : string) :
  holds_char (fun cp => is_upper_char cp && has_lower_form cp) s = true ->
  has_upper s = true.
Proof.
  rewrite has_upper_holds_char. apply holds_char_weaken.
  intros cp H. now apply andb_true_iff in H as [_ H].
Qed.

End PyStrFacts.

(** ** The directory scan *)

Section ScanFacts.
Variable self : BatchImageProcessor.

Lemma collect_loop_acc directory listing image_files :
  collect_loop self directory listing image_files
  = image_files
    ++ map (fun file => (PyPath.join directory file, file))
         (filter (retained (supported_formats self)) listing).
Proof.
  revert image_files.
  induction listing as [|file rest IH]; intros image_files; simpl.
  - now rewrite app_nil_r.
  - unfold retained at 1.
    destruct (PyStr.str_in _ _); rewrite IH; [|reflexivity].
    now rewrite <- app_assoc.
Qed.

Lemma collect_as_filter directory listing :
  _collect_image_files self directory listing
  = map (fun file => (PyPath.join directory file, file))
      (filter (retained (supported_formats self)) listing).
Proof. unfold _collect_image_files. now rewrite collect_loop_acc. Qed.

End ScanFacts.


(** A lower-cased suffix is no string that lower-casing changes. *)
Lemma folded_suffix_differs file e :
  PyStr.has_upper e = true ->
  String.eqb (PyStr.lower (PyPath.suffix file)) e = false.
Proof.
  intros Hup. destruct (String.eqb _ e) eqn:E; [|reflexivity].
  apply String.eqb_eq in E. subst e.
  now rewrite PyStrFacts.has_upper_lower in Hup.
Qed.

Lemma retained_remove formats file e :
  PyStr.has_upper e = true ->
  retained (remove string_dec e formats) file = retained formats file.
Proof.
  intros Hup. unfold retained, PyStr.str_in.
  induction formats as [|x rest IH]; simpl; [reflexivity|].
  destruct (string_dec e x) as [->|Hne]; simpl.
  - now rewrite IH, (folded_suffix_differs file x Hup).
  - now rewrite IH.
Qed.

(** ** The loading stage and the processing loop *)

Section LoopFacts.
Context {World Dataset : Type}.
Variable ext : Externals World Dataset.
Variable self : BatchImageProcessor.

Lemma count_true_cons b l :
  count_true (b :: l) = (if b then 1 else 0) + count_true l.
Proof. unfold count_true. destruct b; simpl length; lia. Qed.

Lemma count_true_bounds l : 0 <= count_true l <= Z.of_nat (length l).
Proof.
  unfold count_true. pose proof (filter_length_le (fun b : bool => b) l). lia.
Qed.

Lemma process_loop_app opts st l1 l2 :
  process_loop ext self opts st (l1 ++ l2)
  = process_loop ext self opts (process_loop ext self opts st l1) l2.
Proof. revert st. induction l1 as [|x l1 IH]; intros st; simpl; auto. Qed.

(** The calls of the loop, item by item. *)
Lemma process_loop_trace opts st items :
  st_trace (process_loop ext self opts st items)
  = st_trace st
    ++ flat_map item_calls
         (combine (transform_outcomes ext self opts (st_world st) items) items).
Proof.
  revert st. induction items as [|[ds image_name] rest IH]; intros st.
  - simpl. now rewrite app_nil_r.
  - cbn [process_loop transform_outcomes]. rewrite IH. unfold process_item.
    destruct (apply_dump_md ext (st_world st) ds opts _ _ _ _) as [w1 [u|e]].
    + destruct (clean_memory ext w1) as [w2 [u2|e2]];
        cbn [st_trace st_world fst combine flat_map item_calls snd dump_event];
        rewrite <- !app_assoc; reflexivity.
    + cbn [st_trace st_world fst combine flat_map item_calls snd dump_event].
      rewrite <- !app_assoc. reflexivity.
Qed.

(** The counters, item by item. *)
Lemma process_loop_counts opts st items :
  let st' := process_loop ext self opts st items in
  let oks := count_true (transform_outcomes ext self opts (st_world st) items) in
  let cfs := count_true (clean_failures ext self opts (st_world st) items) in
  st_processed st' = st_processed st + oks /\
  st_failed st' = st_failed st + (Z.of_nat (length items) - oks) + cfs.
Proof.
  revert st. induction items as [|[ds image_name] rest IH]; intros st.
  - cbn. unfold count_true. simpl. lia.
  - cbn [process_loop transform_outcomes clean_failures].
    specialize (IH (process_item ext self opts st (ds, image_name))).
    cbv zeta in IH |- *. destruct IH as [IHp IHf]. rewrite IHp, IHf.
    unfold process_item.
    destruct (apply_dump_md ext (st_world st) ds opts _ _ _ _) as [w1 [u|e]].
    + destruct (clean_memory ext w1) as [w2 [u2|e2]];
        cbn [st_world st_processed st_failed fst snd is_returned negb];
        rewrite !count_true_cons; simpl length; lia.
    + cbn [st_world st_processed st_failed].
      rewrite !count_true_cons; simpl length; lia.
Qed.

Lemma transform_outcomes_length opts w items :
  length (transform_outcomes ext self opts w items) = length items.
Proof.
  revert w. induction items as [|[ds image_name] rest IH]; intros w;
    [reflexivity|].
  cbn [transform_outcomes].
  destruct (apply_dump_md ext w ds opts _ _ _ _) as [w1 [u|e]];
    simpl; now rewrite IH.
Qed.

Lemma clean_failures_length opts w items :
  length (clean_failures ext self opts w items) = length items.
Proof.
  revert w. induction items as [|[ds image_name] rest IH]; intros w;
    [reflexivity|].
  cbn [clean_failures].
  destruct (apply_dump_md ext w ds opts _ _ _ _) as [w1 [u|e]];
    simpl; now rewrite IH.
Qed.

(** When [clean_memory] never raises, no item is counted twice. *)
Lemma clean_failures_none opts w items :
  (forall w', is_returned (snd (clean_memory ext w')) = true) ->
  count_true (clean_failures ext self opts w items) = 0.
Proof.
  intros Hclean. revert w.
  induction items as [|[ds image_name] rest IH]; intros w; [reflexivity|].
  cbn [clean_failures].
  destruct (apply_dump_md ext w ds opts _ _ _ _) as [w1 [u|e]];
    rewrite count_true_cons, IH; [rewrite Hclean|]; reflexivity.
Qed.

Lemma dumps_of_item_calls (l : list (bool * (Dataset * string))) :
  filter is_dump (flat_map item_calls l) = map (fun oi => dump_event (snd oi)) l.
Proof.
  induction l as [|[ok item] l IH]; [reflexivity|].
  cbn [flat_map item_calls fst snd map]. destruct ok; simpl; now rewrite IH.
Qed.

Lemma cleans_of_item_calls (l : list (bool * (Dataset * string))) :
  Z.of_nat (length (filter is_clean (flat_map item_calls l)))
  = count_true (map fst l).
Proof.
  induction l as [|[ok item] l IH]; [reflexivity|].
  cbn [flat_map item_calls fst snd map]. rewrite count_true_cons, <- IH.
  destruct ok; simpl length; lia.
Qed.

(** Loading: the two lists grow together. *)
Lemma load_loop_lengths w image_files dss ds_paths tr :
  length dss = length ds_paths ->
  let '(_, (dss', ds_paths'), _) :=
    load_loop ext self w image_files dss ds_paths tr in
  length dss' = length ds_paths'.
Proof.
  revert w dss ds_paths tr.
  induction image_files as [|[image_path image_name] rest IH];
    intros w dss ds_paths tr Hlen; [exact Hlen|].
  cbn [load_loop].
  destruct (read_local_images ext w image_path _) as [w1 [[|d ds]|e]];
    apply IH; try exact Hlen.
  rewrite !length_app, repeat_length. lia.
Qed.

Lemma load_loop_app w l1 l2 dss ds_paths tr :
  load_loop ext self w (l1 ++ l2) dss ds_paths tr
  = let '(w1, (dss1, ds_paths1), tr1) :=
      load_loop ext self w l1 dss ds_paths tr in
    load_loop ext self w1 l2 dss1 ds_paths1 tr1.
Proof.
  revert w dss ds_paths tr.
  induction l1 as [|[image_path image_name] rest IH];
    intros w dss ds_paths tr; [reflexivity|].
  cbn [app load_loop].
  destruct (read_local_images ext w image_path _) as [w1 [[|d ds]|e]];
    apply IH.
Qed.

(** Loading makes no transform and no [clean_memory] call. *)
Lemma load_loop_trace w image_files dss ds_paths tr :
  let '(_, _, tr') := load_loop ext self w image_files dss ds_paths tr in
  filter is_dump tr' = filter is_dump tr /\
  filter is_clean tr' = filter is_clean tr.
Proof.
  revert w dss ds_paths tr.
  induction image_files as [|[image_path image_name] rest IH];
    intros w dss ds_paths tr; [cbn; auto|].
  cbn [load_loop].
  destruct (read_local_images ext w image_path _) as [w1 [[|d ds]|e]].
  all: match goal with
       | |- context [load_loop ext self ?w' ?r ?d' ?p' ?t'] =>
           specialize (IH w' d' p' t');
           destruct (load_loop ext self w' r d' p' t') as [[w2 dp] tr2]
       end.
  all: rewrite !filter_app in IH; simpl in IH; rewrite !app_nil_r in IH;
       exact IH.
Qed.

(** Loading adds nothing when no read gives a dataset. *)
Lemma load_loop_nothing w image_files dss ds_paths tr :
  (forall w' image_path,
      In image_path (map fst image_files) ->
      match snd (read_local_images ext w' image_path (supported_formats self)) with
      | Returned (_ :: _) => False
      | _ => True
      end) ->
  fst (snd (fst (load_loop ext self w image_files dss ds_paths tr))) = dss.
Proof.
  revert w dss ds_paths tr.
  induction image_files as [|[image_path image_name] rest IH];
    intros w dss ds_paths tr Hbad; [reflexivity|].
  cbn [load_loop].
  pose proof (Hbad w image_path (or_introl eq_refl)) as Hhere.
  destruct (read_local_images ext w image_path _) as [w1 [[|d ds]|e]];
    simpl in Hhere; try contradiction;
    apply IH; intros w' p Hp; apply Hbad; now right.
Qed.

End LoopFacts.

(** ** Properties of the scan, the output names and the configuration *)

Example upper_case_file_matches_png :
  _collect_image_files (Demo.demo_self default_formats) "/in"
    ["A.PNG"; "notes.txt"; "b.jpg"; ".png"; "README"]
  = [("/in/A.PNG", "A.PNG"); ("/in/b.jpg", "b.jpg")].
Proof. reflexivity. Qed.




(** C9, as stated, fails: the configured extension made of a dot and
    U+1D400 (mathematical bold capital A) holds an upper-case letter, and
    [str.lower()] leaves that letter, which has no lower-case form, as it
    is, so the entry with this suffix is retained. *)
Lemma upper_case_letter_without_lower_case_form_is_retained :
  let e := ("." ++ PyStr.encode_utf8 119808)%string in
  PyStr.has_upper_letter e = true
  /\ PyStr.lower e = e
  /\ _collect_image_files (Demo.demo_self [e]) "/in" [("x" ++ e)%string]
     = [(("/in/x" ++ e)%string, ("x" ++ e)%string)].
Proof. vm_compute. repeat split. Qed.

(** C9, amended: only the entry's suffix is case-folded.  For a configured
    extension [e] that lower-casing changes ([e.lower() != e]: [e] holds a
    letter that has another lower-case form, as the letters [A] to [Z] and
    the other upper-case letters with a lower-case form have), no entry's
    folded suffix is equal to [e]; the scan returns what it returns with
    [e] taken out of the configuration, and nothing when [e] is the only
    extension. *)
Theorem upper_case_format_retains_nothing
    (self self' only : BatchImageProcessor) (directory : string)
    (listing : list string) (e : string) :
  PyStr.has_upper e = true ->
  supported_formats self' = remove string_dec e (supported_formats self) ->
  supported_formats only = [e] ->
  (forall file, String.eqb (PyStr.lower (PyPath.suffix file)) e = false)
  /\ _collect_image_files self directory listing
     = _collect_image_files self' directory listing
  /\ _collect_image_files only directory listing = [].
Proof.
  intros Hup Hrem Honly. split; [|split].
  - intros file. now apply folded_suffix_differs.
  - rewrite !collect_as_filter, Hrem. f_equal. apply filter_ext.
    intros file. symmetry. now apply retained_remove.
  - rewrite collect_as_filter, Honly.
    replace (filter (retained [e]) listing) with (@nil string); [reflexivity|].
    symmetry. induction listing as [|file rest IH]; [reflexivity|].
    cbn [filter]. unfold retained at 1, PyStr.str_in. cbn [existsb].
    now rewrite (folded_suffix_differs file e Hup).
Qed.

Lemma upper_case_format_retains_nothing_witness :
  PyStr.has_upper ".PNG" = true
  /\ _collect_image_files (Demo.demo_self [".PNG"; ".jpg"]) "/in"
       ["a.PNG"; "b.png"; "c.jpg"]
     = _collect_image_files (Demo.demo_self [".jpg"]) "/in"
         ["a.PNG"; "b.png"; "c.jpg"]
  /\ _collect_image_files (Demo.demo_self [".PNG"]) "/in"
       ["a.PNG"; "b.png"; "c.jpg"] = [].
Proof.
  split; [reflexivity|].
  exact (proj2 (upper_case_format_retains_nothing
                  (Demo.demo_self [".PNG"; ".jpg"]) (Demo.demo_self [".jpg"])
                  (Demo.demo_self [".PNG"]) "/in" ["a.PNG"; "b.png"; "c.jpg"]
                  ".PNG" eq_refl eq_refl eq_refl)).
Defined.

Example accented_upper_case_format :
  let upper := ("." ++ PyStr.encode_utf8 201 ++ "XT")%string in
  let lower := ("." ++ PyStr.encode_utf8 233 ++ "xt")%string in
  PyStr.lower upper = lower
  /\ PyStr.has_upper upper = true
  /\ _collect_image_files (Demo.demo_self [upper]) "/in"
       [("a" ++ upper)%string; ("a" ++ lower)%string] = []
  /\ _collect_image_files (Demo.demo_self [lower]) "/in"
       [("a" ++ upper)%string; ("a" ++ lower)%string]
     = [(("/in/a" ++ upper)%string, ("a" ++ upper)%string);
        (("/in/a" ++ lower)%string, ("a" ++ lower)%string)].
Proof. vm_compute. repeat split. Qed.

Example photo1_md :
  md_name_of "photo1.JPG" = "photo1.md" /\ md_name_of "photo1.png" = "photo1.md"
  /\ spec_stem "photo1.JPG" = "photo1".
Proof. repeat split. Qed.

(** C7, as stated, fails: the entry ["..png"] is a candidate of the default
    configuration (its suffix is [".png"]) and is processed, its stem is
    ["."], and the name of its output is ["..png.md"], not ["..md"]; the
    entry ["..jpg"], with the same stem, gets another output name.  The scan
    takes the extension with [PurePath.suffix], the output name takes it
    off with [os.path.splitext], which does not split after leading dots. *)
Lemma md_name_keeps_extension_after_leading_dots :
  process_directory (Demo.demo_ext ["..png"] [] [] false)
    (Demo.demo_self default_formats) tt "/in" Demo.demo_opts
  = (tt, [EvReadLocalImages "/in/..png"; EvDumpMd "/in/..png" "..png.md";
          EvCleanMemory], Returned (1, 1, 0))
  /\ md_name_of "..png" <> (spec_stem "..png" ++ ".md")%string
  /\ spec_stem "..png" = spec_stem "..jpg"
  /\ md_name_of "..png" <> md_name_of "..jpg".
Proof. vm_compute. repeat split; discriminate. Qed.

(** C7, amended: for an item whose file name is a stem holding a character
    other than the dot, then a dot, then a non-empty extension without
    dots (no part holding a path separator), the scan's extension is the
    dot with that extension, and the output name is the stem with [".md"]
    appended, whatever the extension and its case. *)
Theorem md_name_is_stem_with_md (s e : string) :
  PyStr.has_other_char "."%char s = true ->
  PyStr.mem_char "/"%char s = false ->
  PyStr.mem_char "/"%char e = false ->
  PyStr.mem_char "."%char e = false ->
  e <> ""%string ->
  PyPath.suffix (s ++ "." ++ e)%string = ("." ++ e)%string
  /\ spec_stem (s ++ "." ++ e)%string = s
  /\ md_name_of (s ++ "." ++ e)%string = (s ++ ".md")%string.
Proof.
  intros Hs Hsep_s Hsep_e Hdot_e He.
  change (s ++ "." ++ e)%string with (s ++ String PyPath.extsep e)%string.
  change ("." ++ e)%string with (String PyPath.extsep e).
  pose proof (PyStrFacts.has_other_char_nonempty _ _ Hs) as Hne.
  pose proof (PyStrFacts.suffix_stem_ext s e Hne He Hdot_e) as Hsuf.
  split; [exact Hsuf|split].
  - unfold spec_stem. rewrite Hsuf, PyStrFacts.len_app.
    replace (PyStr.len s + PyStr.len (String PyPath.extsep e)
             - PyStr.len (String PyPath.extsep e)) with (PyStr.len s) by lia.
    apply PyStrFacts.slice_to_app.
  - unfold md_name_of.
    now rewrite (PyStrFacts.splitext_stem_ext s e Hs Hsep_s Hsep_e Hdot_e).
Qed.

Lemma md_name_is_stem_with_md_witness :
  PyStr.has_other_char "."%char "photo1" = true
  /\ md_name_of "photo1.JPG" = "photo1.md".
Proof.
  split; [reflexivity|].
  refine (proj2 (proj2 (md_name_is_stem_with_md "photo1" "JPG"
                          eq_refl eq_refl eq_refl eq_refl _))).
  discriminate.
Defined.

(** C10: [supported_formats=[]] behaves as the omitted argument: the two
    constructions are equal (same world, same environment variables, same
    processor), the processor they build has the default extensions, and no
    argument makes [__init__] configure an empty list. *)
Theorem empty_formats_fall_back_to_default
    {World Dataset : Type} (ext : Externals World Dataset) (w : World)
    (env : environ) (output_dir0 vram_size ocr_thresh ocr_batch_num : string) :
  __init__ ext w env output_dir0 vram_size ocr_thresh ocr_batch_num (Some [])
  = __init__ ext w env output_dir0 vram_size ocr_thresh ocr_batch_num None
  /\ match snd (__init__ ext w env output_dir0 vram_size ocr_thresh
                  ocr_batch_num (Some [])) with
     | Returned p => supported_formats p = default_formats
     | Raised e =>
         snd (os_makedirs ext w (PyPath.join output_dir0 "images")) = Raised e
         \/ snd (_init_environment ext
                   (fst (os_makedirs ext w (PyPath.join output_dir0 "images")))
                   env vram_size ocr_thresh ocr_batch_num) = Raised e
     end
  /\ forall formats,
       configured_formats
         (__init__ ext w env output_dir0 vram_size ocr_thresh ocr_batch_num
            formats) <> Some [].
Proof.
  split; [reflexivity|split].
  - unfold __init__.
    destruct (os_makedirs ext w _) as [w1 [u|e]]; cbn [fst snd]; [|now left].
    destruct (_init_environment ext w1 env _ _ _) as [env1 [u1|e]];
      cbn [snd supported_formats]; [reflexivity | now right].
  - intros formats. unfold configured_formats, __init__.
    destruct (os_makedirs ext w _) as [w1 [u|e]]; cbn [snd]; [|discriminate].
    destruct (_init_environment ext w1 env _ _ _) as [env1 [u1|e]];
      cbn [snd supported_formats]; [|discriminate].
    destruct formats as [[|x l]|]; cbn; discriminate.
Qed.

Example explicit_formats_are_kept :
  configured_formats
    (__init__ (Demo.demo_ext [] [] [] false) tt Demo.no_environ
       "output" "8" "0.2" "6" (Some [".bmp"]))
  = Some [".bmp"].
Proof. reflexivity. Qed.

(** ** Properties of a run *)

Section RunFacts.
Context {World Dataset : Type}.
Variable ext : Externals World Dataset.
Variable self : BatchImageProcessor.

(** The run on a directory that exists and can be listed. *)
Lemma process_directory_valid w input_directory opts listing :
  let abs_input_dir := os_path_abspath ext w input_directory in
  os_path_exists ext w abs_input_dir = true ->
  os_path_isdir ext w abs_input_dir = true ->
  os_listdir ext w abs_input_dir = Returned listing ->
  process_directory ext self w input_directory opts
  = let '(w1, (dss, ds_paths), tr) :=
      _load_datasets ext self w
        (_collect_image_files self abs_input_dir listing) in
    match dss with
    | [] => (w1, tr, Raised no_valid_images)
    | _ :: _ =>
        let (st, counts) := _process_images ext self w1 dss ds_paths opts tr in
        (st_world st, st_trace st, Returned counts)
    end.
Proof.
  intros abs_input_dir Hex Hdir Hls. unfold process_directory.
  fold abs_input_dir. now rewrite Hex, Hdir, Hls.
Qed.

Lemma load_datasets_lengths w image_files :
  let '(_, (dss, ds_paths), _) := _load_datasets ext self w image_files in
  length dss = length ds_paths.
Proof. unfold _load_datasets. now apply load_loop_lengths. Qed.

(** The triple of [_process_images] on two lists of one length. *)
Lemma process_images_counts w dss ds_paths opts tr :
  length dss = length ds_paths ->
  let items := combine dss ds_paths in
  let oks := count_true (transform_outcomes ext self opts w items) in
  let cfs := count_true (clean_failures ext self opts w items) in
  snd (_process_images ext self w dss ds_paths opts tr)
  = (Z.of_nat (length dss), oks, Z.of_nat (length dss) - oks + cfs)
  /\ 0 <= oks <= Z.of_nat (length dss)
  /\ 0 <= cfs <= Z.of_nat (length dss).
Proof.
  intros Hlen items oks cfs. unfold _process_images. cbv zeta. cbn [snd].
  fold items.
  pose proof (process_loop_counts ext self opts
                {| st_world := w; st_processed := 0; st_failed := 0;
                   st_trace := tr |} (combine dss ds_paths)) as Hc.
  cbv zeta in Hc. cbn [st_world st_processed st_failed] in Hc.
  destruct Hc as [Hp Hf]. fold items in Hp, Hf. fold oks in Hp, Hf.
  fold cfs in Hf.
  assert (Hitems : length items = length dss)
    by (unfold items; rewrite length_combine; lia).
  rewrite Hitems in Hf.
  pose proof (count_true_bounds (transform_outcomes ext self opts w items)) as Bo.
  pose proof (count_true_bounds (clean_failures ext self opts w items)) as Bc.
  rewrite transform_outcomes_length, Hitems in Bo.
  rewrite clean_failures_length, Hitems in Bc.
  fold oks in Bo. fold cfs in Bc.
  split; [|split; assumption].
  rewrite Hp, Hf. repeat f_equal; lia.
Qed.

(** X10: while [clean_memory] does not raise, the counters of a run that
    returns add up: [total] is positive, [processed] and [failed] are not
    negative, and [processed + failed = total]. *)
Lemma counters_add_up_while_clean_memory_returns w input_directory opts
    total processed failed :
  (forall w', is_returned (snd (clean_memory ext w')) = true) ->
  snd (process_directory ext self w input_directory opts)
  = Returned (total, processed, failed) ->
  0 < total /\ 0 <= processed /\ 0 <= failed /\ processed + failed = total.
Proof.
  intros Hclean. unfold process_directory.
  destruct (negb _ || negb _); [discriminate|].
  destruct (os_listdir ext w _) as [listing|e]; [|discriminate].
  pose proof (load_datasets_lengths w
                (_collect_image_files self
                   (os_path_abspath ext w input_directory) listing)) as Hlen.
  destruct (_load_datasets ext self w _) as [[w1 [dss ds_paths]] tr].
  destruct dss as [|d dss]; [discriminate|].
  pose proof (process_images_counts w1 (d :: dss) ds_paths opts tr Hlen) as Hc.
  cbv zeta in Hc. destruct Hc as [Hc [Bo _]].
  rewrite (clean_failures_none ext self opts w1 _ Hclean) in Hc.
  assert (Hpos : 0 < Z.of_nat (length (d :: dss))) by (simpl length; lia).
  set (oks := count_true _) in Hc, Bo.
  set (n := Z.of_nat (length (d :: dss))) in Hc, Bo, Hpos.
  clearbody oks n.
  destruct (_process_images ext self w1 (d :: dss) ds_paths opts tr)
    as [st counts].
  cbn [snd] in Hc |- *. subst counts. intros H.
  injection H as Ht Hp Hf. lia.
Qed.

End RunFacts.

(** C1 on the code: one image whose transform returns and whose
    [clean_memory()] then raises is counted as processed and, in the
    [except] branch, as failed as well; the run returns [(1, 1, 1)], and
    [succeeded + failed] is not [total]. *)
Theorem item_counted_twice_when_clean_memory_raises :
  process_directory (Demo.demo_ext ["a.png"] [] [] true)
    (Demo.demo_self default_formats) tt "/in" Demo.demo_opts
  = (tt, [EvReadLocalImages "/in/a.png"; EvDumpMd "/in/a.png" "a.md";
          EvCleanMemory], Returned (1, 1, 1)).
Proof. reflexivity. Qed.

Section IsolationFacts.
Context {World Dataset : Type}.
Variable ext : Externals World Dataset.
Variable self : BatchImageProcessor.

(** The world the loop ends in depends on the world it starts in only. *)
Lemma process_loop_world opts st st' items :
  st_world st = st_world st' ->
  st_world (process_loop ext self opts st items)
  = st_world (process_loop ext self opts st' items).
Proof.
  revert st st'. induction items as [|[ds image_name] rest IH];
    intros st st' Hw; [exact Hw|].
  cbn [process_loop]. apply IH. unfold process_item. rewrite Hw.
  destruct (apply_dump_md ext (st_world st') ds opts _ _ _ _) as [w1 [u|e]];
    [|reflexivity].
  now destruct (clean_memory ext w1) as [w2 [u2|e2]].
Qed.

Lemma combine_app_same_length {A B : Type} (l1 l2 : list A) (m1 m2 : list B) :
  length l1 = length m1 ->
  combine (l1 ++ l2) (m1 ++ m2) = combine l1 m1 ++ combine l2 m2.
Proof.
  revert m1. induction l1 as [|x l1 IH]; intros [|y m1] H;
    try discriminate; [reflexivity|].
  cbn. f_equal. apply IH. now injection H.
Qed.

(** Loading with lists to append to is loading, then appending. *)
Lemma load_loop_shift w image_files dss ds_paths tr :
  load_loop ext self w image_files dss ds_paths tr
  = let r := load_loop ext self w image_files [] [] [] in
    (fst (fst r),
     (dss ++ fst (snd (fst r)), ds_paths ++ snd (snd (fst r))),
     tr ++ snd r).
Proof.
  revert w dss ds_paths tr.
  induction image_files as [|[image_path image_name] rest IH];
    intros w dss ds_paths tr; cbv zeta.
  - cbn. now rewrite !app_nil_r.
  - cbn [load_loop].
    destruct (read_local_images ext w image_path _) as [w1 [[|d ds]|e]].
    all: rewrite IH; symmetry; rewrite IH; symmetry; cbv zeta; cbn [fst snd app].
    all: now rewrite <- ?app_assoc.
Qed.

End IsolationFacts.

(** C2, as stated, fails in its last part: in a directory whose only
    candidate cannot be loaded, the failure of that one file ends the run
    with the error of a load without dataset. *)
Lemma lone_candidate_that_fails_to_load_ends_the_run :
  let ext := Demo.demo_ext ["a.png"; "notes.txt"] ["/in/a.png"] [] false in
  snd (read_local_images ext tt "/in/a.png" default_formats)
  = Raised Demo.boom
  /\ process_directory ext (Demo.demo_self default_formats) tt "/in"
       Demo.demo_opts
     = (tt, [EvReadLocalImages "/in/a.png"], Raised no_valid_images).
Proof. split; reflexivity. Qed.

(** C2, amended: a failure of one item stays at the item.  When the
    transform of an item raises (whatever raised inside the call),
    [_process_images] counts one more failed item and no processed one for
    it, and goes on with the items after it as a run on those items alone
    would.  When reading a candidate file raises, [_load_datasets] leaves
    the file out and goes on with the files after it.  Whatever the
    transforms do, a run on a directory that exists and is listed returns
    its triple as soon as one dataset is loaded; the only errors a run
    lets out are the error of an invalid directory, the error of
    [os.listdir], and the error of a load that gave no dataset. *)
Theorem item_failures_stay_at_the_item
    {World Dataset : Type} (ext : Externals World Dataset)
    (self : BatchImageProcessor) (opts : Options) :
  (forall (w : World) (dss_before : list Dataset) (ds : Dataset)
          (dss_after : list Dataset) (names_before : list string)
          (image_name : string) (names_after : list string)
          (tr : list (event Dataset)) (w1 : World) (e : py_exception),
      length dss_before = length names_before ->
      apply_dump_md ext
        (st_world (fst (_process_images ext self w dss_before names_before
                          opts tr)))
        ds opts (image_writer self) (md_writer self) (md_name_of image_name)
        (image_dir_name self) = (w1, Raised e) ->
      let before := _process_images ext self w dss_before names_before opts tr in
      let after :=
        _process_images ext self w1 dss_after names_after opts
          (st_trace (fst before) ++ [EvDumpMd ds (md_name_of image_name)]) in
      let whole :=
        _process_images ext self w (dss_before ++ ds :: dss_after)
          (names_before ++ image_name :: names_after) opts tr in
      st_world (fst whole) = st_world (fst after)
      /\ st_trace (fst whole) = st_trace (fst after)
      /\ snd whole
         = (Z.of_nat (length (dss_before ++ ds :: dss_after)),
            snd (fst (snd before)) + snd (fst (snd after)),
            snd (snd before) + 1 + snd (snd after)))
  /\ (forall (w : World) (files_before : list (string * string))
             (image_path image_name : string)
             (files_after : list (string * string)) (w1 : World)
             (e : py_exception),
         read_local_images ext
           (fst (fst (_load_datasets ext self w files_before)))
           image_path (supported_formats self) = (w1, Raised e) ->
         let before := _load_datasets ext self w files_before in
         let after := _load_datasets ext self w1 files_after in
         _load_datasets ext self w
           (files_before ++ (image_path, image_name) :: files_after)
         = (fst (fst after),
            (fst (snd (fst before)) ++ fst (snd (fst after)),
             snd (snd (fst before)) ++ snd (snd (fst after))),
            snd before ++ EvReadLocalImages image_path :: snd after))
  /\ (forall (w : World) (input_directory : string) (listing : list string),
         os_path_exists ext w (os_path_abspath ext w input_directory) = true ->
         os_path_isdir ext w (os_path_abspath ext w input_directory) = true ->
         os_listdir ext w (os_path_abspath ext w input_directory)
         = Returned listing ->
         fst (snd (fst (_load_datasets ext self w
                          (_collect_image_files self
                             (os_path_abspath ext w input_directory)
                             listing)))) <> [] ->
         is_returned (snd (process_directory ext self w input_directory opts))
         = true)
  /\ (forall (w : World) (input_directory : string) (x : py_exception),
         snd (process_directory ext self w input_directory opts) = Raised x ->
         x = invalid_directory (os_path_abspath ext w input_directory)
         \/ os_listdir ext w (os_path_abspath ext w input_directory) = Raised x
         \/ (x = no_valid_images
             /\ exists listing,
                  os_listdir ext w (os_path_abspath ext w input_directory)
                  = Returned listing
                  /\ fst (snd (fst (_load_datasets ext self w
                                      (_collect_image_files self
                                         (os_path_abspath ext w input_directory)
                                         listing)))) = [])).
Proof.
  split; [|split; [|split]].
  - intros w dss_before ds dss_after names_before image_name names_after tr w1 e
      Hlen Hdump.
    cbv zeta. unfold _process_images in *. cbv zeta in *. cbn [fst snd] in *.
    rewrite (combine_app_same_length dss_before (ds :: dss_after)
               names_before (image_name :: names_after) Hlen).
    cbn [combine]. rewrite process_loop_app. cbn [process_loop].
    set (st_b := process_loop ext self opts
                   {| st_world := w; st_processed := 0; st_failed := 0;
                      st_trace := tr |} (combine dss_before names_before)) in *.
    set (st_x := {| st_world := w1; st_processed := st_processed st_b;
                    st_failed := st_failed st_b + 1;
                    st_trace := st_trace st_b
                                ++ [EvDumpMd ds (md_name_of image_name)] |}).
    assert (Hx : process_item ext self opts st_b (ds, image_name) = st_x)
      by (unfold process_item; now rewrite Hdump).
    rewrite Hx.
    set (st_a := {| st_world := w1; st_processed := 0; st_failed := 0;
                    st_trace := st_trace st_b
                                ++ [EvDumpMd ds (md_name_of image_name)] |}).
    pose proof (process_loop_counts ext self opts st_x
                  (combine dss_after names_after)) as [Hpx Hfx].
    pose proof (process_loop_counts ext self opts st_a
                  (combine dss_after names_after)) as [Hpa Hfa].
    cbn [st_world st_processed st_failed st_x st_a] in Hpx, Hfx, Hpa, Hfa.
    split; [now apply process_loop_world|].
    split; [rewrite !process_loop_trace; reflexivity|].
    rewrite Hpx, Hfx, Hpa, Hfa.
    apply (f_equal2 pair); [apply (f_equal2 pair); [reflexivity|]|]; lia.
  - intros w files_before image_path image_name files_after w1 e Hread.
    cbv zeta. unfold _load_datasets in *.
    rewrite load_loop_app.
    destruct (load_loop ext self w files_before [] [] [])
      as [[wb [dss_b paths_b]] tr_b].
    cbn [fst snd] in Hread |- *. cbn [load_loop]. rewrite Hread.
    rewrite load_loop_shift. cbv zeta. cbn [fst snd].
    now rewrite <- app_assoc.
  - intros w input_directory listing Hex Hdir Hls Hne.
    rewrite (process_directory_valid ext self w input_directory opts listing
               Hex Hdir Hls).
    destruct (_load_datasets ext self w _) as [[w1 [dss ds_paths]] tr].
    cbn [fst snd] in Hne. destruct dss as [|d dss]; [congruence|].
    now destruct (_process_images ext self w1 (d :: dss) ds_paths opts tr).
  - intros w input_directory x. unfold process_directory.
    destruct (negb _ || negb _); cbn [snd].
    { intros H. injection H as <-. now left. }
    destruct (os_listdir ext w _) as [listing|y] eqn:Hls; cbn [snd].
    2:{ intros H. injection H as <-. right. now left. }
    destruct (_load_datasets ext self w _) as [[w2 [dss2 ds_paths2]] tr2] eqn:Hload.
    destruct dss2 as [|d dss2]; cbn [snd].
    + intros H. injection H as <-. right. right. split; [reflexivity|].
      exists listing. split; [reflexivity|]. now rewrite Hload.
    + destruct (_process_images ext self w2 (d :: dss2) ds_paths2 opts tr2).
      discriminate.
Qed.

Lemma item_failures_stay_at_the_item_witness :
  let ext := Demo.demo_ext ["a.png"; "b.png"; "c.png"]
               ["/in/b.png"] ["/in/b.png"] false in
  let self := Demo.demo_self default_formats in
  snd (_process_images ext self tt ["/in/a.png"; "/in/b.png"; "/in/c.png"]
         ["a.png"; "b.png"; "c.png"] Demo.demo_opts [])
  = (3, 2, 1)
  /\ _load_datasets ext self tt
       [("/in/a.png", "a.png"); ("/in/b.png", "b.png"); ("/in/c.png", "c.png")]
     = (tt, (["/in/a.png"; "/in/c.png"], ["a.png"; "c.png"]),
        [EvReadLocalImages "/in/a.png"; EvReadLocalImages "/in/b.png";
         EvReadLocalImages "/in/c.png"])
  /\ is_returned (snd (process_directory ext self tt "/in" Demo.demo_opts))
     = true.
Proof.
  intros ext self.
  destruct (item_failures_stay_at_the_item ext self Demo.demo_opts)
    as (Hloop & Hload & Hrun & _).
  split; [|split].
  - exact (proj2 (proj2 (Hloop tt ["/in/a.png"] "/in/b.png" ["/in/c.png"]
                           ["a.png"] "b.png" ["c.png"] [] tt Demo.boom
                           eq_refl eq_refl))).
  - exact (Hload tt [("/in/a.png", "a.png")] "/in/b.png" "b.png"
             [("/in/c.png", "c.png")] tt Demo.boom eq_refl).
  - refine (Hrun tt "/in" ["a.png"; "b.png"; "c.png"] eq_refl eq_refl eq_refl _).
    discriminate.
Defined.

(** C3: on a directory that exists and is listed, when no entry has an
    accepted extension, or when no candidate gives a dataset (each read
    raises or comes back empty), [process_directory] raises the error
    ["No valid images could be loaded"]; it does not return [(0, 0, 0)]. *)
Theorem no_usable_image_raises
    {World Dataset : Type} (ext : Externals World Dataset)
    (self : BatchImageProcessor) (w : World) (input_directory : string)
    (opts : Options) (listing : list string) :
  let abs_input_dir := os_path_abspath ext w input_directory in
  os_path_exists ext w abs_input_dir = true ->
  os_path_isdir ext w abs_input_dir = true ->
  os_listdir ext w abs_input_dir = Returned listing ->
  (filter (retained (supported_formats self)) listing = []
   \/ forall w' image_path,
        In image_path
          (map fst (_collect_image_files self abs_input_dir listing)) ->
        match snd (read_local_images ext w' image_path
                     (supported_formats self)) with
        | Returned (_ :: _) => False
        | _ => True
        end) ->
  snd (process_directory ext self w input_directory opts)
  = Raised no_valid_images
  /\ snd (process_directory ext self w input_directory opts)
     <> Returned (0, 0, 0).
Proof.
  intros abs_input_dir Hex Hdir Hls Hnone.
  assert (Hraise : snd (process_directory ext self w input_directory opts)
                   = Raised no_valid_images).
  { rewrite (process_directory_valid ext self w input_directory opts listing
               Hex Hdir Hls).
    fold abs_input_dir.
    assert (Hdss : fst (snd (fst (_load_datasets ext self w
                     (_collect_image_files self abs_input_dir listing)))) = []).
    { unfold _load_datasets. apply load_loop_nothing.
      destruct Hnone as [Hempty|Hbad]; [|exact Hbad].
      rewrite collect_as_filter, Hempty. intros w' p []. }
    destruct (_load_datasets ext self w _) as [[w1 [dss ds_paths]] tr].
    cbn [fst snd] in Hdss. now subst dss. }
  split; [exact Hraise|]. rewrite Hraise. discriminate.
Qed.

Lemma no_usable_image_raises_witness :
  os_listdir (Demo.demo_ext ["notes.txt"; "README"] [] [] false) tt "/in"
  = Returned ["notes.txt"; "README"]
  /\ snd (process_directory (Demo.demo_ext ["notes.txt"; "README"] [] [] false)
            (Demo.demo_self default_formats) tt "/in" Demo.demo_opts)
     = Raised no_valid_images.
Proof.
  split; [reflexivity|].
  exact (proj1 (no_usable_image_raises
                  (Demo.demo_ext ["notes.txt"; "README"] [] [] false)
                  (Demo.demo_self default_formats) tt "/in" Demo.demo_opts
                  ["notes.txt"; "README"] eq_refl eq_refl eq_refl
                  (or_introl eq_refl))).
Defined.

Example unreadable_candidates_raise :
  process_directory (Demo.demo_ext ["a.png"; "b.jpg"] ["/in/a.png"; "/in/b.jpg"]
                       [] false)
    (Demo.demo_self default_formats) tt "/in" Demo.demo_opts
  = (tt, [EvReadLocalImages "/in/a.png"; EvReadLocalImages "/in/b.jpg"],
     Raised no_valid_images).
Proof. reflexivity. Qed.




Example clean_after_every_item_when_all_succeed :
  clean_after_every_item
    (snd (fst (process_directory (Demo.demo_ext ["a.png"; "b.png"] [] [] false)
                 (Demo.demo_self default_formats) tt "/in" Demo.demo_opts)))
  = true.
Proof. reflexivity. Qed.

(** C5, as stated, fails: [clean_memory()] stands inside the [try] block,
    after the transform.  In a run of two images where the transform of
    the first raises, no [clean_memory] call comes between the two
    transforms. *)
Lemma no_clean_memory_after_failed_item :
  snd (fst (process_directory (Demo.demo_ext ["a.png"; "b.png"] [] ["/in/a.png"]
                                 false)
              (Demo.demo_self default_formats) tt "/in" Demo.demo_opts))
  = [EvReadLocalImages "/in/a.png"; EvReadLocalImages "/in/b.png";
     EvDumpMd "/in/a.png" "a.md"; EvDumpMd "/in/b.png" "b.md"; EvCleanMemory]
  /\ clean_after_every_item
       (snd (fst (process_directory
                    (Demo.demo_ext ["a.png"; "b.png"] [] ["/in/a.png"] false)
                    (Demo.demo_self default_formats) tt "/in" Demo.demo_opts)))
     = false.
Proof. split; reflexivity. Qed.

(** C5, amended: in every run the calls of the loop are, item by item and
    in order, the transform of the item followed by exactly one
    [clean_memory] call when the transform returned, and by none when it
    raised; the number of [clean_memory] calls is the [processed] count. *)
Theorem clean_memory_follows_each_successful_item
    {World Dataset : Type} (ext : Externals World Dataset)
    (self : BatchImageProcessor) (w : World) (dss : list Dataset)
    (ds_paths : list string) (opts : Options) (tr : list (event Dataset)) :
  let items := combine dss ds_paths in
  let oks := transform_outcomes ext self opts w items in
  let run := _process_images ext self w dss ds_paths opts tr in
  length oks = length items
  /\ st_trace (fst run) = tr ++ flat_map item_calls (combine oks items)
  /\ Z.of_nat (length (filter is_clean (flat_map item_calls (combine oks items))))
     = snd (fst (snd run)).
Proof.
  intros items oks run. split; [apply transform_outcomes_length|split].
  - unfold run, _process_images. cbn [fst].
    now rewrite process_loop_trace.
  - rewrite cleans_of_item_calls.
    assert (Hfst : map fst (combine oks items) = oks).
    { pose proof (transform_outcomes_length ext self opts w items) as Hl.
      fold oks in Hl. clearbody oks. revert oks Hl.
      induction items as [|x items IH]; intros [|o oks] Hl;
        try discriminate; [reflexivity|].
      simpl. f_equal. apply IH. now injection Hl. }
    rewrite Hfst. unfold run, _process_images. cbn [fst snd].
    pose proof (process_loop_counts ext self opts
                  {| st_world := w; st_processed := 0; st_failed := 0;
                     st_trace := tr |} items) as [Hp _].
    cbn [st_world st_processed] in Hp. fold items. rewrite Hp.
    unfold oks. lia.
Qed.

(** C8: loading gives a list of datasets and a list of file names of one
    length, and the loop makes exactly one transform call per dataset, on
    the datasets in their order, each with the name of its file. *)
Theorem each_loaded_item_is_transformed_once
    {World Dataset : Type} (ext : Externals World Dataset)
    (self : BatchImageProcessor) (w : World)
    (image_files : list (string * string)) (opts : Options) :
  let loaded := _load_datasets ext self w image_files in
  let dss := fst (snd (fst loaded)) in
  let ds_paths := snd (snd (fst loaded)) in
  let run := _process_images ext self (fst (fst loaded)) dss ds_paths opts
               (snd loaded) in
  length dss = length ds_paths
  /\ filter is_dump (st_trace (fst run)) = map dump_event (combine dss ds_paths)
  /\ map fst (combine dss ds_paths) = dss
  /\ length (filter is_dump (st_trace (fst run))) = length dss.
Proof.
  intros loaded dss ds_paths run.
  assert (Hlen : length dss = length ds_paths).
  { pose proof (load_datasets_lengths ext self w image_files) as H.
    unfold dss, ds_paths, loaded.
    now destruct (_load_datasets ext self w image_files) as [[w1 [d p]] t]. }
  assert (Hdump : filter is_dump (st_trace (fst run))
                  = map dump_event (combine dss ds_paths)).
  { unfold run, _process_images. cbn [fst]. rewrite process_loop_trace.
    cbn [st_trace st_world]. rewrite filter_app, dumps_of_item_calls.
    pose proof (load_loop_trace ext self w image_files [] [] []) as Ht.
    unfold loaded at 1, _load_datasets.
    destruct (load_loop ext self w image_files [] [] []) as [[w1 dp] t] eqn:E.
    destruct Ht as [Ht _]. cbn [snd]. rewrite Ht. cbn [filter app].
    set (items := combine dss ds_paths).
    pose proof (transform_outcomes_length ext self opts (fst (fst loaded)) items)
      as Hl.
    set (oks := transform_outcomes ext self opts (fst (fst loaded)) items) in *.
    clearbody oks. clearbody items. revert oks Hl.
    induction items as [|x items IH]; intros [|o oks] Hl;
      try discriminate; [reflexivity|].
    simpl. f_equal. apply IH. now injection Hl. }
  split; [exact Hlen|]. split; [exact Hdump|]. split.
  - clear Hdump run. clearbody dss ds_paths. revert ds_paths Hlen.
    induction dss as [|d dss IH]; intros [|p ds_paths] Hlen;
      try discriminate; [reflexivity|].
    simpl. f_equal. apply IH. now injection Hlen.
  - rewrite Hdump, length_map, length_combine. lia.
Qed.

(** ** More facts about the string and path helpers *)

Module PyPathFacts.
Import PyStr PyPath PyStrFacts.

Lemma rfind_from_range (c : ascii) (s : string) (pos : Z) :
  0 <= pos -> rfind_from c s pos = -1 \/ pos <= rfind_from c s pos.
Proof.
  revert pos. induction s as [|a s IH]; intros pos Hpos; [now left|].
  cbn [rfind_from]. destruct (IH (pos + 1) ltac:(lia)) as [H|H].
  - rewrite H. cbn. destruct (Ascii.eqb a c); [right; lia | now left].
  - destruct (0 <=? rfind_from c s (pos + 1)) eqn:E; [right; lia|].
    apply Z.leb_gt in E. lia.
Qed.

Lemma rfind_from_none (c : ascii) (s : string) (pos : Z) :
  0 <= pos -> rfind_from c s pos = -1 -> mem_char c s = false.
Proof.
  revert pos. induction s as [|a s IH]; intros pos Hpos H; [reflexivity|].
  cbn [rfind_from] in H. cbn [mem_char].
  destruct (rfind_from_range c s (pos + 1) ltac:(lia)) as [Hr|Hr].
  - rewrite Hr in H. cbn in H. destruct (Ascii.eqb a c); [lia|].
    cbn. apply (IH (pos + 1)); [lia | exact Hr].
  - replace (0 <=? rfind_from c s (pos + 1)) with true in H
      by (symmetry; apply Z.leb_le; lia).
    lia.
Qed.

(** [rfind] answers [-1], or the place of an occurrence of [c] after which
    [c] does not occur. *)
Lemma rfind_from_split (c : ascii) (s : string) (pos : Z) :
  0 <= pos ->
  rfind_from c s pos = -1
  \/ exists s1 s2,
       s = (s1 ++ String c s2)%string
       /\ rfind_from c s pos = pos + len s1
       /\ mem_char c s2 = false.
Proof.
  revert pos. induction s as [|a s IH]; intros pos Hpos; [now left|].
  cbn [rfind_from].
  destruct (IH (pos + 1) ltac:(lia)) as [Hnone|(s1 & s2 & Hs & Hr & Hm)].
  - rewrite Hnone. cbn. destruct (Ascii.eqb a c) eqn:E; [|now left].
    right. apply Ascii.eqb_eq in E. subst a. exists ""%string, s.
    repeat split; [unfold len; simpl; lia|].
    apply (rfind_from_none c s (pos + 1)); [lia | exact Hnone].
  - right. exists (String a s1), s2. rewrite Hr.
    pose proof (len_nonneg s1).
    replace (0 <=? pos + 1 + len s1) with true
      by (symmetry; apply Z.leb_le; lia).
    repeat split; [now rewrite Hs | rewrite len_String; lia | exact Hm].
Qed.

Lemma slice_from_past (s : string) (c : ascii) (t : string) :
  slice_from (len s + 1) (s ++ String c t)%string = t.
Proof.
  unfold slice_from, len.
  replace (Z.to_nat (Z.of_nat (String.length s) + 1))
    with (String.length (s ++ String c "")%string).
  - rewrite (app_String_assoc s c t). apply drop_app_length.
  - induction s as [|a s IH]; simpl; [reflexivity|]. rewrite IH. lia.
Qed.

Lemma endswith_char_split (c : ascii) (s : string) :
  endswith_char c s = true -> exists s', s = (s' ++ String c "")%string.
Proof.
  induction s as [|a s IH]; [discriminate|].
  destruct s as [|b s].
  - simpl. intros H. apply Ascii.eqb_eq in H. subst a. now exists ""%string.
  - intros H. change (endswith_char c (String b s) = true) in H.
    destruct (IH H) as [s' Hs']. exists (String a s'). simpl. now rewrite Hs'.
Qed.

Lemma app_empty_r (s : string) : (s ++ "")%string = s.
Proof. induction s as [|a s IH]; simpl; [reflexivity | now rewrite IH]. Qed.

Lemma app_assoc_string (a b c : string) :
  ((a ++ b) ++ c)%string = (a ++ b ++ c)%string.
Proof. induction a as [|x a IH]; simpl; [reflexivity | now rewrite IH]. Qed.

(** [os.path.basename(os.path.join(a, b))] is [b] for a [b] without
    separator. *)
Lemma basename_join (a b : string) :
  mem_char sep b = false -> basename (join a b) = b.
Proof.
  intros Hb. unfold join.
  assert (Hstart : startswith_char sep b = false).
  { destruct b as [|x b]; [reflexivity|]. simpl in Hb |- *.
    now apply orb_false_iff in Hb as [-> _]. }
  rewrite Hstart. unfold basename, rfind.
  destruct (String.eqb a "") eqn:Ea.
  - apply String.eqb_eq in Ea. subst a. cbn [orb append].
    now rewrite (rfind_from_absent sep b 0 Hb).
  - cbn [orb]. destruct (endswith_char sep a) eqn:Eend.
    + destruct (endswith_char_split _ _ Eend) as [a' ->].
      rewrite app_assoc_string. cbn [append].
      rewrite rfind_from_last by (lia || assumption).
      replace (0 + len a' + 1) with (len a' + 1) by lia.
      apply slice_from_past.
    + cbn [append]. rewrite rfind_from_last by (lia || assumption).
      replace (0 + len a + 1) with (len a + 1) by lia.
      apply slice_from_past.
Qed.

Lemma lower_keeps_shape (e : string) :
  suffix_shaped e = true -> suffix_shaped (lower e) = true.
Proof.
  destruct e as [|c rest]; [reflexivity|]. cbn [suffix_shaped].
  intros H. apply andb_true_iff in H as [H Hdots].
  apply andb_true_iff in H as [Hc Hrest].
  apply Ascii.eqb_eq in Hc. subst c. unfold extsep in *.
  rewrite lower_dot. cbn [suffix_shaped]. unfold extsep.
  rewrite Ascii.eqb_refl, lower_keeps_dots, Hdots.
  apply negb_true_iff, String.eqb_neq in Hrest.
  pose proof (lower_from_nonempty false rest Hrest) as Hne.
  apply String.eqb_neq in Hne. unfold lower. now rewrite Hne.
Qed.

(** A suffix is empty, or a dot and a non-empty part without dots. *)
Lemma suffix_is_shaped (name : string) : suffix_shaped (suffix name) = true.
Proof.
  unfold suffix, rfind.
  destruct (rfind_from_split extsep name 0 ltac:(lia))
    as [Hnone|(s1 & s2 & Hs & Hr & Hm)].
  - rewrite Hnone. reflexivity.
  - rewrite Hr. destruct ((0 <? 0 + len s1) && (0 + len s1 <? len name - 1))
      eqn:E; [|reflexivity].
    apply andb_true_iff in E as [_ E]. apply Z.ltb_lt in E.
    subst name. rewrite len_app, len_String in E.
    replace (0 + len s1) with (len s1) by lia. rewrite slice_from_app.
    cbn [suffix_shaped]. rewrite Ascii.eqb_refl, Hm.
    destruct s2 as [|x s2]; [unfold len in E; simpl in E; lia | reflexivity].
Qed.

(** The names with an empty suffix: no dot, one leading dot only, or a
    dot at the end. *)
Lemma suffix_empty (name : string) :
  mem_char extsep name = false
  \/ (exists rest, name = String extsep rest /\ mem_char extsep rest = false)
  \/ endswith_char extsep name = true ->
  suffix name = ""%string.
Proof.
  unfold suffix, rfind. intros [H|[(rest & -> & H)|H]].
  - now rewrite (rfind_from_absent _ _ 0 H).
  - change (String extsep rest) with ("" ++ String extsep rest)%string at 1.
    rewrite rfind_from_last by (lia || assumption). reflexivity.
  - destruct (endswith_char_split _ _ H) as [s' ->].
    rewrite rfind_from_last by (lia || reflexivity).
    rewrite len_app, len_String.
    destruct (0 + len s' <? len s' + (1 + len "") - 1) eqn:E.
    + apply Z.ltb_lt in E. unfold len in E. cbn [String.length] in E. lia.
    + now rewrite andb_false_r.
Qed.

(** [os.path.splitext] keeps the whole of a name without separator whose
    dots, if any, all stand at its start. *)
Lemma splitext_leading_dots (dots rest : string) :
  has_other_char extsep dots = false ->
  mem_char extsep rest = false ->
  mem_char sep rest = false ->
  splitext (dots ++ rest)%string = ((dots ++ rest)%string, ""%string).
Proof.
  intros Hdots Hrest Hsep.
  assert (Hsepd : mem_char sep dots = false).
  { clear -Hdots. induction dots as [|a d IH]; [reflexivity|].
    cbn [has_other_char mem_char] in *.
    apply orb_false_iff in Hdots as [Ha Hd].
    apply negb_false_iff in Ha. apply Ascii.eqb_eq in Ha. subst a.
    now rewrite (IH Hd). }
  unfold splitext, rfind.
  rewrite (rfind_from_absent sep)
    by (rewrite mem_char_app; now rewrite Hsepd, Hsep).
  destruct (endswith_char extsep dots) eqn:Eend.
  - destruct (endswith_char_split _ _ Eend) as [d' Hd'].
    assert (Hd'dots : has_other_char extsep d' = false).
    { subst dots. clear -Hdots. induction d' as [|a d IH]; [reflexivity|].
      cbn [append has_other_char] in *.
      apply orb_false_iff in Hdots as [Ha Hd]. now rewrite Ha, (IH Hd). }
    subst dots. rewrite app_assoc_string. cbn [append].
    rewrite rfind_from_last by (lia || assumption).
    pose proof (len_nonneg d').
    replace (-1 <? 0 + len d') with true by (symmetry; apply Z.ltb_lt; lia).
    replace (Z.to_nat (0 + len d' - (-1 + 1))) with (String.length d')
      by (unfold len; lia).
    change (-1 + 1) with (len "").
    change (d' ++ String extsep rest)%string
      with ("" ++ d' ++ String extsep rest)%string at 1.
    now rewrite scan_non_dot_app, Hd'dots.
  - assert (dots = ""%string) as ->.
    { clear -Hdots Eend. induction dots as [|a d IH]; [reflexivity|].
      cbn [has_other_char] in Hdots.
      apply orb_false_iff in Hdots as [Ha Hd].
      apply negb_false_iff in Ha.
      destruct d as [|b d]; [simpl in Eend; congruence|].
      change (endswith_char extsep (String b d) = false) in Eend.
      specialize (IH Hd Eend). discriminate. }
    cbn [append]. now rewrite (rfind_from_absent extsep rest 0 Hrest).
Qed.

End PyPathFacts.

(** ** Further properties of the scan and of the output names *)

Lemma retained_remove_unmatched formats file e :
  String.eqb (PyStr.lower (PyPath.suffix file)) e = false ->
  retained (remove string_dec e formats) file = retained formats file.
Proof.
  intros Hne. unfold retained, PyStr.str_in.
  induction formats as [|x rest IH]; simpl; [reflexivity|].
  destruct (string_dec e x) as [->|Hx]; simpl; rewrite IH; [|reflexivity].
  now rewrite Hne.
Qed.

Lemma folded_suffix_is_shaped file :
  suffix_shaped (PyStr.lower (PyPath.suffix file)) = true.
Proof.
  apply PyPathFacts.lower_keeps_shape, PyPathFacts.suffix_is_shaped.
Qed.

(** X1: for any configuration, a pair is returned by the scan exactly when
    its name is an entry of the listing whose lower-cased suffix is in the
    configured list as written, and its path is the directory joined with
    the name; scanning a listing in two parts gives the two results one
    after the other. *)
Theorem scan_membership
    (self : BatchImageProcessor) (directory : string)
    (listing more : list string) (image_path file : string) :
  (In (image_path, file) (_collect_image_files self directory listing)
   <-> In file listing
       /\ PyStr.str_in (PyStr.lower (PyPath.suffix file))
            (supported_formats self) = true
       /\ image_path = PyPath.join directory file)
  /\ _collect_image_files self directory (listing ++ more)
     = _collect_image_files self directory listing
       ++ _collect_image_files self directory more.
Proof.
  split.
  - rewrite collect_as_filter, in_map_iff. split.
    + intros (f & Hpair & Hin). injection Hpair as <- <-.
      apply filter_In in Hin as [Hin Hret]. now repeat split.
    + intros (Hin & Hret & ->). exists file. split; [reflexivity|].
      apply filter_In. now split.
  - rewrite !collect_as_filter, filter_app, map_app. reflexivity.
Qed.

(** X2: a configured extension that has not the shape of a suffix (it is
    not empty and does not start with a dot, or is the dot alone, or holds a
    second dot, as ["png"], ["."] and [".tar.gz"]) is equal to no entry's
    lower-cased suffix: the scan returns what it returns without it. *)
Theorem misshaped_format_retains_nothing
    (self self' : BatchImageProcessor) (directory : string)
    (listing : list string) (e : string) :
  suffix_shaped e = false ->
  supported_formats self' = remove string_dec e (supported_formats self) ->
  (forall file, String.eqb (PyStr.lower (PyPath.suffix file)) e = false)
  /\ _collect_image_files self directory listing
     = _collect_image_files self' directory listing.
Proof.
  intros Hshape Hrem.
  assert (Hne : forall file,
             String.eqb (PyStr.lower (PyPath.suffix file)) e = false).
  { intros file. destruct (String.eqb _ e) eqn:E; [|reflexivity].
    apply String.eqb_eq in E. subst e.
    now rewrite folded_suffix_is_shaped in Hshape. }
  split; [exact Hne|].
  rewrite !collect_as_filter, Hrem. f_equal. apply filter_ext.
  intros file. symmetry. apply retained_remove_unmatched, Hne.
Qed.

Lemma misshaped_format_retains_nothing_witness :
  suffix_shaped "png" = false
  /\ _collect_image_files (Demo.demo_self ["png"; ".jpg"]) "/in"
       ["a.png"; "png"; "c.jpg"]
     = _collect_image_files (Demo.demo_self [".jpg"]) "/in"
         ["a.png"; "png"; "c.jpg"].
Proof.
  split; [reflexivity|].
  exact (proj2 (misshaped_format_retains_nothing
                  (Demo.demo_self ["png"; ".jpg"]) (Demo.demo_self [".jpg"])
                  "/in" ["a.png"; "png"; "c.jpg"] "png" eq_refl eq_refl)).
Defined.

(** X3: unless the empty string is a configured extension, the scan
    returns nothing for a listing whose names have no dot, or one leading
    dot only (as [".png"]), or a dot at their end. *)
Theorem names_without_suffix_are_skipped
    (self : BatchImageProcessor) (directory : string)
    (listing : list string) :
  PyStr.str_in "" (supported_formats self) = false ->
  (forall name, In name listing ->
     PyStr.mem_char "."%char name = false
     \/ (exists rest, name = String "."%char rest
                      /\ PyStr.mem_char "."%char rest = false)
     \/ PyStr.endswith_char "."%char name = true) ->
  _collect_image_files self directory listing = [].
Proof.
  intros Hempty Hnames. rewrite collect_as_filter.
  replace (filter (retained (supported_formats self)) listing)
    with (@nil string); [reflexivity|].
  symmetry. induction listing as [|name rest IH]; [reflexivity|].
  cbn [filter]. unfold retained at 1.
  rewrite (PyPathFacts.suffix_empty name) by (apply Hnames; now left).
  change (PyStr.lower "") with ""%string. rewrite Hempty. apply IH.
  intros n Hn. apply Hnames. now right.
Qed.

Lemma names_without_suffix_are_skipped_witness :
  PyStr.str_in "" default_formats = false
  /\ _collect_image_files (Demo.demo_self default_formats) "/in"
       [".png"; "README"; "archive."] = [].
Proof.
  split; [reflexivity|].
  apply (names_without_suffix_are_skipped (Demo.demo_self default_formats)
           "/in" [".png"; "README"; "archive."] eq_refl).
  intros name [<-|[<-|[<-|[]]]].
  - right. left. exists "png"%string. split; reflexivity.
  - left. reflexivity.
  - right. right. reflexivity.
Defined.

(** X4: the output name of an item whose file name has no dot, or has
    dots at its start only (as ["README"], [".bashrc"], ["..png"]), is the
    whole file name with [".md"] appended: nothing is taken off. *)
Theorem md_name_keeps_name_without_extension (dots rest : string) :
  PyStr.has_other_char "."%char dots = false ->
  PyStr.mem_char "."%char rest = false ->
  PyStr.mem_char "/"%char rest = false ->
  md_name_of (dots ++ rest)%string = ((dots ++ rest) ++ ".md")%string.
Proof.
  intros Hdots Hrest Hsep. unfold md_name_of.
  now rewrite (PyPathFacts.splitext_leading_dots dots rest Hdots Hrest Hsep).
Qed.

Lemma md_name_keeps_name_without_extension_witness :
  PyStr.has_other_char "."%char "." = false
  /\ md_name_of ".bashrc" = ".bashrc.md".
Proof.
  split; [reflexivity|].
  exact (md_name_keeps_name_without_extension "." "bashrc"
           eq_refl eq_refl eq_refl).
Defined.

(** ** Further properties of loading and of the loop *)

Section MoreLoopFacts.
Context {World Dataset : Type}.
Variable ext : Externals World Dataset.
Variable self : BatchImageProcessor.

Lemma load_loop_reads w image_files dss ds_paths tr :
  snd (load_loop ext self w image_files dss ds_paths tr)
  = tr ++ map EvReadLocalImages (map fst image_files).
Proof.
  revert w dss ds_paths tr.
  induction image_files as [|[image_path image_name] rest IH];
    intros w dss ds_paths tr; [cbn; now rewrite app_nil_r|].
  cbn [load_loop map fst].
  destruct (read_local_images ext w image_path _) as [w1 [[|d ds]|e]];
    rewrite IH, <- app_assoc; reflexivity.
Qed.

Lemma load_loop_names w image_files dss ds_paths tr name :
  In name (snd (snd (fst (load_loop ext self w image_files dss ds_paths tr)))) ->
  In name ds_paths \/ In name (map snd image_files).
Proof.
  revert w dss ds_paths tr.
  induction image_files as [|[image_path image_name] rest IH];
    intros w dss ds_paths tr; [now left|].
  cbn [load_loop map snd].
  destruct (read_local_images ext w image_path _) as [w1 [[|d ds]|e]];
    intros H; apply IH in H.
  - destruct H; [now left | right; now right].
  - destruct H as [H|H]; [|right; now right].
    apply in_app_or in H as [H|H]; [now left|].
    apply repeat_spec in H. subst name. right. now left.
  - destruct H; [now left | right; now right].
Qed.

(** Loading when a read either raises or gives one dataset, as told by
    [loads] on the path. *)
Lemma load_loop_one_each (loads : string -> bool) w image_files dss ds_paths tr :
  (forall w' p,
      match read_local_images ext w' p (supported_formats self) with
      | (_, Returned ds) => loads p = true /\ length ds = 1%nat
      | (_, Raised _) => loads p = false
      end) ->
  let kept := filter (fun pf : string * string => loads (fst pf)) image_files in
  let r := load_loop ext self w image_files dss ds_paths tr in
  length (fst (snd (fst r))) = (length dss + length kept)%nat
  /\ snd (snd (fst r)) = ds_paths ++ map snd kept.
Proof.
  intros Hread. revert w dss ds_paths tr.
  induction image_files as [|[image_path image_name] rest IH];
    intros w dss ds_paths tr; cbv zeta.
  - cbn. split; [lia | now rewrite app_nil_r].
  - cbn [load_loop filter fst].
    pose proof (Hread w image_path) as Hp.
    destruct (read_local_images ext w image_path _) as [w1 [ds|e]].
    + destruct Hp as [Hl Hone]. rewrite Hl.
      destruct ds as [|d [|d' ds]]; try discriminate.
      destruct (IH w1 (dss ++ [d]) (ds_paths ++ repeat image_name (length [d]))
                  (tr ++ [EvReadLocalImages image_path])) as [IH1 IH2].
      split.
      * rewrite IH1, length_app. cbn [length]. lia.
      * rewrite IH2. cbn [length repeat map snd]. now rewrite <- app_assoc.
    + rewrite Hp. apply IH.
Qed.

Lemma transform_outcomes_all_returned opts w items :
  (forall w' ds name,
      is_returned (snd (apply_dump_md ext w' ds opts (image_writer self)
                          (md_writer self) name (image_dir_name self)))
      = true) ->
  count_true (transform_outcomes ext self opts w items)
  = Z.of_nat (length items).
Proof.
  intros Hok. revert w.
  induction items as [|[ds image_name] rest IH]; intros w; [reflexivity|].
  cbn [transform_outcomes].
  pose proof (Hok w ds (md_name_of image_name)) as H.
  destruct (apply_dump_md ext w ds opts _ _ _ _) as [w1 [u|e]];
    [|discriminate].
  rewrite count_true_cons, IH. cbn [length]. lia.
Qed.

Lemma transform_outcomes_all_raised opts w items :
  (forall w' ds name,
      is_returned (snd (apply_dump_md ext w' ds opts (image_writer self)
                          (md_writer self) name (image_dir_name self)))
      = false) ->
  count_true (transform_outcomes ext self opts w items) = 0
  /\ count_true (clean_failures ext self opts w items) = 0.
Proof.
  intros Hko. revert w.
  induction items as [|[ds image_name] rest IH]; intros w; [now split|].
  cbn [transform_outcomes clean_failures].
  pose proof (Hko w ds (md_name_of image_name)) as H.
  destruct (apply_dump_md ext w ds opts _ _ _ _) as [w1 [u|e]];
    [discriminate|].
  rewrite !count_true_cons. destruct (IH w1) as [-> ->]. now split.
Qed.

(** [clean_memory] raises only after a transform that returned. *)
Lemma clean_failures_le_outcomes opts w items :
  count_true (clean_failures ext self opts w items)
  <= count_true (transform_outcomes ext self opts w items).
Proof.
  revert w. induction items as [|[ds image_name] rest IH]; intros w;
    [reflexivity|].
  cbn [transform_outcomes clean_failures].
  destruct (apply_dump_md ext w ds opts _ _ _ _) as [w1 [u|e]];
    rewrite !count_true_cons.
  - specialize (IH (fst (clean_memory ext w1))).
    destruct (negb _); lia.
  - specialize (IH w1). lia.
Qed.

Lemma map_fst_combine_outcomes {A B : Type} (l : list A) (l' : list B) :
  length l = length l' -> map fst (combine l l') = l.
Proof.
  revert l'. induction l as [|x l IH]; intros [|y l'] H;
    try discriminate; [reflexivity|].
  cbn. f_equal. apply IH. now injection H.
Qed.

Lemma reads_of_item_calls (l : list (bool * (Dataset * string))) :
  filter is_read (flat_map item_calls l) = [].
Proof.
  induction l as [|[ok item] l IH]; [reflexivity|].
  cbn [flat_map item_calls fst snd]. destruct ok; cbn; exact IH.
Qed.

(** The calls and the counts of [_process_images], for lists of any
    lengths. *)
Lemma process_images_calls w dss ds_paths opts tr :
  let items := combine dss ds_paths in
  let oks := transform_outcomes ext self opts w items in
  let run := _process_images ext self w dss ds_paths opts tr in
  st_trace (fst run) = tr ++ flat_map item_calls (combine oks items)
  /\ length (filter is_dump (flat_map item_calls (combine oks items)))
     = length items
  /\ Z.of_nat (length (filter is_clean (flat_map item_calls (combine oks items))))
     = count_true oks
  /\ snd run
     = (Z.of_nat (length dss), count_true oks,
        Z.of_nat (length items) - count_true oks
        + count_true (clean_failures ext self opts w items)).
Proof.
  intros items oks run.
  assert (Hl : length oks = length items)
    by apply transform_outcomes_length.
  repeat split.
  - unfold run, _process_images. cbn [fst]. now rewrite process_loop_trace.
  - rewrite dumps_of_item_calls, length_map, length_combine. lia.
  - now rewrite cleans_of_item_calls, (map_fst_combine_outcomes _ _ Hl).
  - unfold run, _process_images. cbv zeta. cbn [snd]. fold items.
    pose proof (process_loop_counts ext self opts
                  {| st_world := w; st_processed := 0; st_failed := 0;
                     st_trace := tr |} items) as [Hp Hf].
    cbn [st_world st_processed st_failed] in Hp, Hf.
    rewrite Hp, Hf. fold oks. repeat f_equal; lia.
Qed.

(** What a run that returns went through. *)
Lemma process_directory_returned w input_directory opts counts :
  snd (process_directory ext self w input_directory opts) = Returned counts ->
  exists listing w1 dss ds_paths,
    os_listdir ext w (os_path_abspath ext w input_directory) = Returned listing
    /\ dss <> [] /\ length dss = length ds_paths
    /\ let tr := map EvReadLocalImages
                   (map fst (_collect_image_files self
                               (os_path_abspath ext w input_directory) listing)) in
       let run := _process_images ext self w1 dss ds_paths opts tr in
       process_directory ext self w input_directory opts
       = (st_world (fst run), st_trace (fst run), Returned (snd run))
       /\ counts = snd run.
Proof.
  unfold process_directory.
  destruct (negb _ || negb _); [discriminate|].
  destruct (os_listdir ext w _) as [listing|e]; [|discriminate].
  pose proof (load_datasets_lengths ext self w
                (_collect_image_files self
                   (os_path_abspath ext w input_directory) listing)) as Hlen.
  pose proof (load_loop_reads w
                (_collect_image_files self
                   (os_path_abspath ext w input_directory) listing) [] [] [])
    as Htr.
  unfold _load_datasets in Hlen |- *.
  destruct (load_loop ext self w _ [] [] []) as [[w1 [dss ds_paths]] tr].
  cbn [snd app] in Htr. subst tr.
  destruct dss as [|d dss]; [discriminate|].
  destruct (_process_images ext self w1 (d :: dss) ds_paths opts _)
    as [st c] eqn:E.
  cbn [snd]. intros H. injection H as <-.
  exists listing, w1, (d :: dss), ds_paths.
  repeat split; [discriminate | exact Hlen | |]; cbv zeta; now rewrite E.
Qed.

End MoreLoopFacts.

(** X5: loading reads every candidate exactly once, in the order of the
    scan, whatever the reads give or raise, and every file name it returns
    is the name of a candidate. *)
Theorem load_reads_each_candidate_once
    {World Dataset : Type} (ext : Externals World Dataset)
    (self : BatchImageProcessor) (w : World)
    (image_files : list (string * string)) :
  snd (_load_datasets ext self w image_files)
  = map EvReadLocalImages (map fst image_files)
  /\ forall name,
       In name (snd (snd (fst (_load_datasets ext self w image_files)))) ->
       In name (map snd image_files).
Proof.
  unfold _load_datasets. split.
  - now rewrite load_loop_reads.
  - intros name H. apply load_loop_names in H as [[]|H]. exact H.
Qed.

Lemma count_kept_candidates (loads : string -> bool) (keep : string -> bool)
    (directory : string) (listing : list string) :
  length (filter (fun pf : string * string => loads (fst pf))
            (map (fun file => (PyPath.join directory file, file))
               (filter keep listing)))
  = length (filter (fun file => keep file && loads (PyPath.join directory file))
              listing).
Proof.
  induction listing as [|file rest IH]; [reflexivity|].
  cbn [filter]. destruct (keep file); cbn [andb map filter fst]; [|exact IH].
  destruct (loads _); cbn [length]; now rewrite IH.
Qed.

(** X6: on a directory that exists and is listed, when a read either
    raises or gives one dataset (as [loads] tells for the path) and neither
    the transform nor [clean_memory] raises, the run returns [(n, n, 0)]
    for the number [n] of candidates that load, and raises the error of a
    load without dataset when [n] is zero: a file that does not load is
    left out of the total. *)
Theorem run_counts_the_candidates_that_load
    {World Dataset : Type} (ext : Externals World Dataset)
    (self : BatchImageProcessor) (w : World) (input_directory : string)
    (opts : Options) (listing : list string) (loads : string -> bool) :
  let abs_input_dir := os_path_abspath ext w input_directory in
  os_path_exists ext w abs_input_dir = true ->
  os_path_isdir ext w abs_input_dir = true ->
  os_listdir ext w abs_input_dir = Returned listing ->
  (forall w' p,
      match read_local_images ext w' p (supported_formats self) with
      | (_, Returned ds) => loads p = true /\ length ds = 1%nat
      | (_, Raised _) => loads p = false
      end) ->
  (forall w' ds name,
      is_returned (snd (apply_dump_md ext w' ds opts (image_writer self)
                          (md_writer self) name (image_dir_name self)))
      = true) ->
  (forall w', is_returned (snd (clean_memory ext w')) = true) ->
  let n :=
    Z.of_nat (length (filter (fun file =>
                                retained (supported_formats self) file
                                && loads (PyPath.join abs_input_dir file))
                        listing)) in
  snd (process_directory ext self w input_directory opts)
  = if n =? 0 then Raised no_valid_images else Returned (n, n, 0).
Proof.
  intros abs_input_dir Hex Hdir Hls Hread Hdump Hclean n.
  rewrite (process_directory_valid ext self w input_directory opts listing
             Hex Hdir Hls).
  fold abs_input_dir. unfold _load_datasets.
  pose proof (load_loop_one_each ext self loads w
                (_collect_image_files self abs_input_dir listing) [] [] []
                Hread) as Hload.
  cbv zeta in Hload. destruct Hload as [Hlen Hnames].
  rewrite collect_as_filter in Hlen at 2. rewrite count_kept_candidates in Hlen.
  pose proof (load_loop_lengths ext self w
                (_collect_image_files self abs_input_dir listing) [] [] []
                eq_refl) as Heq.
  destruct (load_loop ext self w _ [] [] []) as [[w1 [dss ds_paths]] tr].
  cbn [fst snd length Nat.add] in Hlen, Heq.
  assert (Hn : n = Z.of_nat (length dss)) by (unfold n; now rewrite Hlen).
  destruct dss as [|d dss].
  - cbn [snd]. rewrite Hn. reflexivity.
  - pose proof (process_images_counts ext self w1 (d :: dss) ds_paths opts tr Heq)
      as Hc.
    cbv zeta in Hc. destruct Hc as [Hc _].
    rewrite (clean_failures_none ext self opts w1 _ Hclean) in Hc.
    rewrite (transform_outcomes_all_returned ext self opts w1 _ Hdump) in Hc.
    rewrite length_combine, <- Heq, Nat.min_id, <- Hn in Hc.
    destruct (_process_images ext self w1 (d :: dss) ds_paths opts tr)
      as [st c].
    cbn [snd] in Hc |- *. subst c.
    replace (n =? 0) with false
      by (symmetry; apply Z.eqb_neq; rewrite Hn; cbn [length]; lia).
    repeat f_equal. lia.
Qed.

Lemma run_counts_the_candidates_that_load_witness :
  let ext := Demo.demo_ext ["a.png"; "notes.txt"; "B.JPG"; "c.jpeg"]
               ["/in/c.jpeg"] [] false in
  os_listdir ext tt "/in" = Returned ["a.png"; "notes.txt"; "B.JPG"; "c.jpeg"]
  /\ snd (process_directory ext (Demo.demo_self default_formats) tt "/in"
            Demo.demo_opts)
     = Returned (2, 2, 0).
Proof.
  intros ext. split; [reflexivity|].
  refine (run_counts_the_candidates_that_load ext
            (Demo.demo_self default_formats) tt "/in" Demo.demo_opts
            ["a.png"; "notes.txt"; "B.JPG"; "c.jpeg"]
            (fun p => negb (PyStr.str_in p ["/in/c.jpeg"]))
            eq_refl eq_refl eq_refl _ _ _).
  - intros w' p. cbn. destruct (String.eqb p "/in/c.jpeg"); cbn; auto.
  - intros w' ds name. reflexivity.
  - intros w'. reflexivity.
Defined.

(** X7: [_process_images] on lists of uneven lengths goes through as many
    items as the shorter list has, while the total it returns is the number
    of datasets: when [clean_memory] does not raise, [processed + failed]
    is the smaller length, and the transform is called that many times. *)
Theorem process_images_stops_at_the_shorter_list
    {World Dataset : Type} (ext : Externals World Dataset)
    (self : BatchImageProcessor) (w : World) (dss : list Dataset)
    (ds_paths : list string) (opts : Options) (tr : list (event Dataset)) :
  (forall w', is_returned (snd (clean_memory ext w')) = true) ->
  let run := _process_images ext self w dss ds_paths opts tr in
  fst (fst (snd run)) = Z.of_nat (length dss)
  /\ snd (fst (snd run)) + snd (snd run)
     = Z.of_nat (Nat.min (length dss) (length ds_paths))
  /\ length (filter is_dump (st_trace (fst run)))
     = (length (filter is_dump tr)
        + Nat.min (length dss) (length ds_paths))%nat.
Proof.
  intros Hclean run.
  pose proof (process_images_calls ext self w dss ds_paths opts tr) as Hc.
  cbv zeta in Hc. fold run in Hc. destruct Hc as (Htr & Hd & _ & Hcount).
  rewrite (clean_failures_none ext self opts w _ Hclean) in Hcount.
  rewrite length_combine in Hcount, Hd.
  rewrite Hcount, Htr, filter_app, length_app, Hd. cbn [fst snd].
  repeat split; lia.
Qed.

Lemma process_images_stops_at_the_shorter_list_witness :
  let run := _process_images (Demo.demo_ext [] [] [] false)
               (Demo.demo_self default_formats) tt ["/in/a.png"; "/in/b.png"]
               ["a.png"] Demo.demo_opts [] in
  (forall w', is_returned (snd (clean_memory (Demo.demo_ext [] [] [] false) w'))
              = true)
  /\ fst (fst (snd run)) = 2
  /\ snd (fst (snd run)) + snd (snd run) = 1.
Proof.
  intros run. split; [intros w'; reflexivity|].
  pose proof (process_images_stops_at_the_shorter_list
                (Demo.demo_ext [] [] [] false)
                (Demo.demo_self default_formats) tt ["/in/a.png"; "/in/b.png"]
                ["a.png"] Demo.demo_opts [] (fun _ => eq_refl)) as H.
  cbv zeta in H. destruct H as (H1 & H2 & _). split; [exact H1 | exact H2].
Defined.

(** X8: when the transform raises on every item, a run that returns gives
    [(total, 0, total)] and has called [clean_memory] not once. *)
Theorem run_with_failing_transform
    {World Dataset : Type} (ext : Externals World Dataset)
    (self : BatchImageProcessor) (w : World) (input_directory : string)
    (opts : Options) (total processed failed : Z) :
  (forall w' ds name,
      is_returned (snd (apply_dump_md ext w' ds opts (image_writer self)
                          (md_writer self) name (image_dir_name self)))
      = false) ->
  snd (process_directory ext self w input_directory opts)
  = Returned (total, processed, failed) ->
  processed = 0 /\ failed = total /\ 0 < total
  /\ filter is_clean
       (snd (fst (process_directory ext self w input_directory opts))) = [].
Proof.
  intros Hko Hret.
  destruct (process_directory_returned ext self w input_directory opts _ Hret)
    as (listing & w1 & dss & ds_paths & _ & Hne & Hlen & Hrun).
  cbv zeta in Hrun. destruct Hrun as [Hrun Hcounts]. rewrite Hrun. cbn [fst snd].
  pose proof (process_images_calls ext self w1 dss ds_paths opts
                (map EvReadLocalImages
                   (map fst (_collect_image_files self
                               (os_path_abspath ext w input_directory) listing))))
    as Hc.
  cbv zeta in Hc. destruct Hc as (Htr & _ & Hcl & Hc).
  destruct (transform_outcomes_all_raised ext self opts w1
              (combine dss ds_paths) Hko) as [Hoks Hcfs].
  rewrite Hoks in Hcl. rewrite Hoks, Hcfs, length_combine, <- Hlen, Nat.min_id in Hc.
  rewrite Hc in Hcounts. injection Hcounts as -> -> ->.
  assert (0 < Z.of_nat (length dss)) by (destruct dss; [congruence | cbn [length]; lia]).
  repeat split; try lia.
  rewrite Htr, filter_app.
  replace (filter is_clean (map EvReadLocalImages _)) with (@nil (event Dataset)).
  - cbn [app]. destruct (filter is_clean _); [reflexivity | cbn [length] in Hcl; lia].
  - symmetry. generalize (map fst (_collect_image_files self
                                     (os_path_abspath ext w input_directory) listing)).
    intros l. induction l as [|x l IH]; [reflexivity | exact IH].
Qed.

Lemma run_with_failing_transform_witness :
  let ext := failing_transform_ext ["a.png"; "b.png"] in
  let self := Demo.demo_self default_formats in
  snd (process_directory ext self tt "/in" Demo.demo_opts) = Returned (2, 0, 2)
  /\ (0 = 0 /\ 2 = 2 /\ 0 < 2
      /\ filter is_clean
           (snd (fst (process_directory ext self tt "/in" Demo.demo_opts))) = []).
Proof.
  intros ext self. split; [reflexivity|].
  apply (run_with_failing_transform ext self tt "/in" Demo.demo_opts 2 0 2);
    [intros w' ds name; reflexivity | reflexivity].
Defined.

Section MoreRunFacts.
Context {World Dataset : Type}.
Variable ext : Externals World Dataset.
Variable self : BatchImageProcessor.

Lemma no_call_among_reads (paths : list string) :
  filter is_dump (map (@EvReadLocalImages Dataset) paths) = []
  /\ filter is_clean (map (@EvReadLocalImages Dataset) paths) = [].
Proof. induction paths as [|x l [IH1 IH2]]; split; auto. Qed.

(** The counts and the calls of a run that returns. *)
Lemma returned_counts_facts w input_directory opts total processed failed :
  snd (process_directory ext self w input_directory opts)
  = Returned (total, processed, failed) ->
  let tr := snd (fst (process_directory ext self w input_directory opts)) in
  0 < total /\ 0 <= processed <= total /\ 0 <= failed <= total
  /\ total <= processed + failed
  /\ Z.of_nat (length (filter is_dump tr)) = total
  /\ Z.of_nat (length (filter is_clean tr)) = processed.
Proof.
  intros Hret.
  destruct (process_directory_returned ext self w input_directory opts _ Hret)
    as (listing & w1 & dss & ds_paths & _ & Hne & Hlen & Hrun).
  cbv zeta in Hrun |- *. destruct Hrun as [Hrun Hcounts]. rewrite Hrun.
  cbn [fst snd].
  set (reads := map fst (_collect_image_files self
                           (os_path_abspath ext w input_directory) listing)) in *.
  pose proof (process_images_calls ext self w1 dss ds_paths opts
                (map EvReadLocalImages reads)) as Hc.
  cbv zeta in Hc. destruct Hc as (Htr & Hd & Hcl & Hc).
  rewrite Hc in Hcounts. injection Hcounts as Ht Hp Hf.
  rewrite Htr, !filter_app, !length_app.
  destruct (no_call_among_reads reads) as [-> ->]. cbn [length Nat.add].
  rewrite Hd, Hcl.
  pose proof (count_true_bounds
                (transform_outcomes ext self opts w1 (combine dss ds_paths))) as Bo.
  pose proof (count_true_bounds
                (clean_failures ext self opts w1 (combine dss ds_paths))) as Bc.
  pose proof (clean_failures_le_outcomes ext self opts w1 (combine dss ds_paths))
    as Hle.
  rewrite transform_outcomes_length in Bo.
  rewrite length_combine, <- Hlen, Nat.min_id in *.
  assert (0 < Z.of_nat (length dss))
    by (destruct dss; [congruence | cbn [length]; lia]).
  repeat split; lia.
Qed.

(** A run that raises has made no transform and no [clean_memory] call. *)
Lemma raised_before_any_item w input_directory opts e :
  snd (process_directory ext self w input_directory opts) = Raised e ->
  let tr := snd (fst (process_directory ext self w input_directory opts)) in
  filter is_dump tr = [] /\ filter is_clean tr = [].
Proof.
  unfold process_directory.
  destruct (negb _ || negb _); [now split|].
  destruct (os_listdir ext w _) as [listing|x]; [|now split].
  pose proof (load_loop_reads ext self w
                (_collect_image_files self
                   (os_path_abspath ext w input_directory) listing) [] [] [])
    as Htr.
  unfold _load_datasets.
  destruct (load_loop ext self w _ [] [] []) as [[w1 [dss ds_paths]] tr].
  cbn [snd app] in Htr. subst tr.
  destruct dss as [|d dss].
  - intros _. cbn [fst snd]. apply no_call_among_reads.
  - destruct (_process_images ext self w1 (d :: dss) ds_paths opts _).
    discriminate.
Qed.

End MoreRunFacts.

(** X9: whatever the transform and [clean_memory] do, the triple of a run
    that returns has a positive [total], [processed] and [failed] between
    zero and [total], and [processed + failed] at least [total]; the
    transform was called [total] times and [clean_memory] [processed]
    times. *)
Theorem returned_counts_are_bounded
    {World Dataset : Type} (ext : Externals World Dataset)
    (self : BatchImageProcessor) (w : World) (input_directory : string)
    (opts : Options) (total processed failed : Z) :
  snd (process_directory ext self w input_directory opts)
  = Returned (total, processed, failed) ->
  let tr := snd (fst (process_directory ext self w input_directory opts)) in
  0 < total /\ 0 <= processed <= total /\ 0 <= failed <= total
  /\ total <= processed + failed
  /\ Z.of_nat (length (filter is_dump tr)) = total
  /\ Z.of_nat (length (filter is_clean tr)) = processed.
Proof. apply returned_counts_facts. Qed.

Lemma returned_counts_are_bounded_witness :
  let run := process_directory
               (Demo.demo_ext ["a.png"; "b.png"; "c.png"] [] ["/in/b.png"] true)
               (Demo.demo_self default_formats) tt "/in" Demo.demo_opts in
  snd run = Returned (3, 2, 3)
  /\ 3 <= 2 + 3
  /\ Z.of_nat (length (filter is_clean (snd (fst run)))) = 2.
Proof.
  intros run. split; [reflexivity|].
  pose proof (returned_counts_are_bounded
                (Demo.demo_ext ["a.png"; "b.png"; "c.png"] [] ["/in/b.png"] true)
                (Demo.demo_self default_formats) tt "/in" Demo.demo_opts
                3 2 3 eq_refl) as H.
  cbv zeta in H. destruct H as (_ & _ & _ & H1 & _ & H2).
  split; [exact H1 | exact H2].
Defined.

Lemma counters_add_up_while_clean_memory_returns_witness :
  let ext := Demo.demo_ext ["a.png"; "b.png"; "c.png"] [] ["/in/b.png"] false in
  snd (process_directory ext (Demo.demo_self default_formats) tt "/in"
         Demo.demo_opts) = Returned (3, 2, 1)
  /\ (0 < 3 /\ 0 <= 2 /\ 0 <= 1 /\ 2 + 1 = 3).
Proof.
  intros ext. split; [reflexivity|].
  apply (counters_add_up_while_clean_memory_returns ext
           (Demo.demo_self default_formats) tt "/in" Demo.demo_opts 3 2 1);
    [intros w'; reflexivity | reflexivity].
Defined.

(** X11: on a directory that exists and is listed, the calls of a run
    start with one read per candidate, by the path of the candidate under
    the absolute input directory and in listing order; no read comes after
    them, so every file is loaded before the first transform, and an entry
    that is no candidate is never read. *)
Theorem reads_come_first
    {World Dataset : Type} (ext : Externals World Dataset)
    (self : BatchImageProcessor) (w : World) (input_directory : string)
    (opts : Options) (listing : list string) :
  let abs_input_dir := os_path_abspath ext w input_directory in
  os_path_exists ext w abs_input_dir = true ->
  os_path_isdir ext w abs_input_dir = true ->
  os_listdir ext w abs_input_dir = Returned listing ->
  exists calls,
    snd (fst (process_directory ext self w input_directory opts))
    = map (fun file => EvReadLocalImages (PyPath.join abs_input_dir file))
        (filter (retained (supported_formats self)) listing)
      ++ calls
    /\ filter is_read calls = [].
Proof.
  intros abs_input_dir Hex Hdir Hls.
  rewrite (process_directory_valid ext self w input_directory opts listing
             Hex Hdir Hls).
  fold abs_input_dir.
  pose proof (load_loop_reads ext self w
                (_collect_image_files self abs_input_dir listing) [] [] [])
    as Htr.
  unfold _load_datasets.
  destruct (load_loop ext self w _ [] [] []) as [[w1 [dss ds_paths]] tr].
  cbn [snd app] in Htr. subst tr.
  rewrite collect_as_filter, !map_map. cbn [fst].
  destruct dss as [|d dss].
  - exists []. cbn [fst snd]. now rewrite app_nil_r.
  - pose proof (process_images_calls ext self w1 (d :: dss) ds_paths opts
                  (map (fun file =>
                          EvReadLocalImages (PyPath.join abs_input_dir file))
                     (filter (retained (supported_formats self)) listing)))
      as Hc.
    cbv zeta in Hc. destruct Hc as (Hc & _).
    destruct (_process_images ext self w1 (d :: dss) ds_paths opts _)
      as [st c].
    cbn [fst snd] in Hc |- *. rewrite Hc. eexists. split; [reflexivity|].
    apply reads_of_item_calls.
Qed.

Lemma reads_come_first_witness :
  let ext := Demo.demo_ext ["a.png"; "notes.txt"; "B.JPG"] [] [] false in
  os_listdir ext tt "/in" = Returned ["a.png"; "notes.txt"; "B.JPG"]
  /\ exists calls,
       snd (fst (process_directory ext (Demo.demo_self default_formats) tt "/in"
                   Demo.demo_opts))
       = [EvReadLocalImages "/in/a.png"; EvReadLocalImages "/in/B.JPG"] ++ calls
       /\ filter is_read calls = [].
Proof.
  intros ext. split; [reflexivity|].
  exact (reads_come_first ext (Demo.demo_self default_formats) tt "/in"
           Demo.demo_opts ["a.png"; "notes.txt"; "B.JPG"]
           eq_refl eq_refl eq_refl).
Defined.

(** ** Properties of the construction and of the caller *)

Section InitFacts.
Context {World Dataset : Type}.
Variable ext : Externals World Dataset.

(** Assigning one of the four variables of [_init_environment]. *)
Lemma environ_set_variable (k v : string) (env : environ) :
  In k ["LOCAL_MODELS_DIR"; "VIRTUAL_VRAM_SIZE"; "OCR_DET_DB_THRESH";
        "OCR_REC_BATCH_NUM"]%string ->
  environ_set k v env
  = if PyStr.mem_char nul v then Raised embedded_null
    else Returned (setenv k v env).
Proof.
  intros [<-|[<-|[<-|[<-|[]]]]]; unfold environ_set; cbn [orb];
    now destruct (PyStr.mem_char nul v).
Qed.

Lemma setenv_same k v env : setenv k v env k = Some v.
Proof. unfold setenv. now rewrite String.eqb_refl. Qed.

Lemma setenv_other k v env k' : k' <> k -> setenv k v env k' = env k'.
Proof. unfold setenv. intros H%String.eqb_neq. now rewrite H. Qed.

(** What [set_models_dir] leaves. *)
Lemma set_models_dir_facts (w : World) (env : environ) :
  let r := set_models_dir ext w env in
  (forall k, k <> "LOCAL_MODELS_DIR"%string -> fst r k = env k)
  /\ match snd r with
     | Returned _ =>
         fst r "LOCAL_MODELS_DIR"%string
         = match get_local_models_dir ext w with
           | Returned (Some models_dir) =>
               if String.eqb models_dir "" then env "LOCAL_MODELS_DIR"%string
               else match path_resolve ext w models_dir with
                    | Returned normalized_path => Some normalized_path
                    | Raised _ => env "LOCAL_MODELS_DIR"%string
                    end
           | _ => env "LOCAL_MODELS_DIR"%string
           end
         /\ is_returned (get_local_models_dir ext w) = true
     | Raised e =>
         fst r = env
         /\ (get_local_models_dir ext w = Raised e
             \/ (exists models_dir,
                    get_local_models_dir ext w = Returned (Some models_dir)
                    /\ (path_resolve ext w models_dir = Raised e
                        \/ e = embedded_null)))
     end.
Proof.
  unfold set_models_dir. cbv zeta.
  destruct (get_local_models_dir ext w) as [[m|]|e]; cbn [fst snd];
    [|now repeat split|split; [reflexivity|split; [reflexivity|now left]]].
  destruct (String.eqb m ""); cbn [fst snd]; [now repeat split|].
  destruct (path_resolve ext w m) as [path|e] eqn:R; cbn [fst snd].
  - rewrite environ_set_variable by (now left).
    destruct (PyStr.mem_char nul path); cbn [fst snd].
    + split; [reflexivity|split; [reflexivity|]].
      right. exists m. split; [reflexivity|now right].
    + split; [intros k Hk; now apply setenv_other|].
      split; [apply setenv_same | reflexivity].
  - split; [reflexivity|split; [reflexivity|]].
    right. exists m. split; [reflexivity|now left].
Qed.

(** What [_init_environment] leaves, when it returns and when it raises. *)
Lemma init_environment_facts (w : World) (env : environ)
    (vram_size ocr_thresh ocr_batch_num : string) :
  let r := _init_environment ext w env vram_size ocr_thresh ocr_batch_num in
  (forall k,
      k <> "LOCAL_MODELS_DIR"%string -> k <> "VIRTUAL_VRAM_SIZE"%string ->
      k <> "OCR_DET_DB_THRESH"%string -> k <> "OCR_REC_BATCH_NUM"%string ->
      fst r k = env k)
  /\ match snd r with
     | Returned _ =>
         fst r "VIRTUAL_VRAM_SIZE"%string = Some vram_size
         /\ fst r "OCR_DET_DB_THRESH"%string = Some ocr_thresh
         /\ fst r "OCR_REC_BATCH_NUM"%string = Some ocr_batch_num
         /\ fst r "LOCAL_MODELS_DIR"%string
            = match get_local_models_dir ext w with
              | Returned (Some models_dir) =>
                  if String.eqb models_dir ""
                  then env "LOCAL_MODELS_DIR"%string
                  else match path_resolve ext w models_dir with
                       | Returned normalized_path => Some normalized_path
                       | Raised _ => env "LOCAL_MODELS_DIR"%string
                       end
              | _ => env "LOCAL_MODELS_DIR"%string
              end
         /\ PyStr.mem_char nul vram_size = false
         /\ PyStr.mem_char nul ocr_thresh = false
         /\ PyStr.mem_char nul ocr_batch_num = false
     | Raised e =>
         fst r "OCR_REC_BATCH_NUM"%string = env "OCR_REC_BATCH_NUM"%string
         /\ (get_local_models_dir ext w = Raised e
             \/ (exists models_dir,
                    get_local_models_dir ext w = Returned (Some models_dir)
                    /\ path_resolve ext w models_dir = Raised e)
             \/ e = embedded_null)
     end.
Proof.
  unfold _init_environment. cbv zeta.
  pose proof (set_models_dir_facts w env) as Hm. cbv zeta in Hm.
  destruct (set_models_dir ext w env) as [env1 [u|e]]; cbn [fst snd] in Hm |- *.
  2:{ destruct Hm as [Hk [-> He]]. split; [reflexivity|split; [reflexivity|]].
      destruct He as [He|(m & Hg & [Hr|Hn])]; [now left | | now right; right].
      right. left. now exists m. }
  destruct Hm as [Hk [Hlmd _]].
  rewrite !environ_set_variable by (cbn; tauto).
  destruct (PyStr.mem_char nul vram_size); cbn [fst snd].
  { split; [intros k H1 _ _ _; now apply Hk|].
    split; [now apply Hk | now right; right]. }
  rewrite !environ_set_variable by (cbn; tauto).
  destruct (PyStr.mem_char nul ocr_thresh); cbn [fst snd].
  { split; [intros k H1 H2 _ _; rewrite setenv_other by exact H2; now apply Hk|].
    split; [rewrite setenv_other by discriminate; now apply Hk
           | now right; right]. }
  rewrite !environ_set_variable by (cbn; tauto).
  destruct (PyStr.mem_char nul ocr_batch_num); cbn [fst snd].
  { split; [intros k H1 H2 H3 _; rewrite !setenv_other by assumption;
            now apply Hk|].
    split; [rewrite !setenv_other by discriminate; now apply Hk
           | now right; right]. }
  split; [intros k H1 H2 H3 H4; rewrite !setenv_other by assumption;
          now apply Hk|].
  repeat split. rewrite !setenv_other by discriminate. exact Hlmd.
Qed.

End InitFacts.

(** X12: [__init__] raises when [os.makedirs] raises, with that error and
    before any environment variable is touched, or when, the directory
    made, [_init_environment] raises, with that error and the environment
    as that call left it; otherwise it returns a processor whose image
    directory is the output directory joined with ["images"], whose
    [image_dir_name] is ["images"] for every output directory, and whose
    two writers stand on the image directory and on the output directory. *)
Theorem init_builds_the_processor
    {World Dataset : Type} (ext : Externals World Dataset) (w : World)
    (env : environ) (output_dir0 vram_size ocr_thresh ocr_batch_num : string)
    (formats : option (list string)) :
  match __init__ ext w env output_dir0 vram_size ocr_thresh ocr_batch_num
          formats with
  | (w1, env1, Returned p) =>
      os_makedirs ext w (PyPath.join output_dir0 "images") = (w1, Returned tt)
      /\ _init_environment ext w1 env vram_size ocr_thresh ocr_batch_num
         = (env1, Returned tt)
      /\ output_dir p = output_dir0
      /\ image_dir p = PyPath.join output_dir0 "images"
      /\ image_dir_name p = "images"%string
      /\ parent_dir (image_writer p) = image_dir p
      /\ parent_dir (md_writer p) = output_dir0
  | (w1, env1, Raised e) =>
      (os_makedirs ext w (PyPath.join output_dir0 "images") = (w1, Raised e)
       /\ env1 = env)
      \/ (os_makedirs ext w (PyPath.join output_dir0 "images")
          = (w1, Returned tt)
          /\ _init_environment ext w1 env vram_size ocr_thresh ocr_batch_num
             = (env1, Raised e))
  end.
Proof.
  unfold __init__. cbv zeta.
  destruct (os_makedirs ext w (PyPath.join output_dir0 "images"))
    as [w1 [[]|e]] eqn:M; [|now left].
  destruct (_init_environment ext w1 env vram_size ocr_thresh ocr_batch_num)
    as [env1 [[]|e]] eqn:I; [|right; split; [reflexivity | exact I]].
  cbn [output_dir image_dir image_dir_name image_writer md_writer parent_dir].
  repeat split; [exact I|]. now apply PyPathFacts.basename_join.
Qed.

Example image_dir_of_output_dirs :
  map (fun od => PyPath.join od "images") ["output"; "out/"; ""; "/"; "a/b"]
  = ["output/images"; "out/images"; "images"; "/images"; "a/b/images"].
Proof. reflexivity. Qed.

Example init_with_a_null_byte :
  __init__ (failing_transform_ext []) tt Demo.no_environ "output"
    "8" (String nul "") "6" None
  = (tt,
     setenv "VIRTUAL_VRAM_SIZE" "8"
       (setenv "LOCAL_MODELS_DIR" "/abs/models" Demo.no_environ),
     Raised embedded_null).
Proof. reflexivity. Qed.


(** X14: the settings are process-wide.  After a second call of
    [_init_environment] that returns, in whatever world and whatever the
    first call did, the three tuning variables hold the arguments of the
    second call; [LOCAL_MODELS_DIR] holds the models directory of the
    second call when it found one and otherwise what the first call left,
    so a directory set by an earlier construction can stay; no variable
    other than the four differs from the environment before the two
    calls. *)
Theorem later_settings_replace_earlier_ones
    {World Dataset : Type} (ext : Externals World Dataset) (w w' : World)
    (env : environ) (vram_size ocr_thresh ocr_batch_num : string)
    (vram_size' ocr_thresh' ocr_batch_num' : string) :
  let first := _init_environment ext w env vram_size ocr_thresh ocr_batch_num in
  let second := _init_environment ext w' (fst first)
                  vram_size' ocr_thresh' ocr_batch_num' in
  is_returned (snd second) = true ->
  fst second "VIRTUAL_VRAM_SIZE"%string = Some vram_size'
  /\ fst second "OCR_DET_DB_THRESH"%string = Some ocr_thresh'
  /\ fst second "OCR_REC_BATCH_NUM"%string = Some ocr_batch_num'
  /\ fst second "LOCAL_MODELS_DIR"%string
     = match get_local_models_dir ext w' with
       | Returned (Some models_dir) =>
           if String.eqb models_dir ""
           then fst first "LOCAL_MODELS_DIR"%string
           else match path_resolve ext w' models_dir with
                | Returned normalized_path => Some normalized_path
                | Raised _ => fst first "LOCAL_MODELS_DIR"%string
                end
       | _ => fst first "LOCAL_MODELS_DIR"%string
       end
  /\ forall k,
       k <> "LOCAL_MODELS_DIR"%string -> k <> "VIRTUAL_VRAM_SIZE"%string ->
       k <> "OCR_DET_DB_THRESH"%string -> k <> "OCR_REC_BATCH_NUM"%string ->
       fst second k = env k.
Proof.
  intros first second Hret.
  pose proof (init_environment_facts ext w env vram_size ocr_thresh
                ocr_batch_num) as [H1 _].
  pose proof (init_environment_facts ext w' (fst first) vram_size' ocr_thresh'
                ocr_batch_num') as [H2 H2r].
  cbv zeta in H1, H2, H2r. fold first in H1, H2, H2r. fold second in H2, H2r.
  destruct (snd second) as [u|e]; [|discriminate].
  destruct H2r as (Hv & Ht & Hb & Hl & _).
  repeat split; try assumption.
  intros k K1 K2 K3 K4. rewrite H2 by assumption. now apply H1.
Qed.

Lemma later_settings_replace_earlier_ones_witness :
  let first := _init_environment models_ext true Demo.no_environ "8" "0.2" "6" in
  let second := _init_environment models_ext false (fst first) "4" "0.3" "2" in
  is_returned (snd second) = true
  /\ map (fst second)
       ["LOCAL_MODELS_DIR"; "VIRTUAL_VRAM_SIZE"; "OCR_DET_DB_THRESH";
        "OCR_REC_BATCH_NUM"; "PATH"]%string
     = [Some "/abs/models"; Some "4"; Some "0.3"; Some "2"; None]%string.
Proof.
  intros first second. split; [reflexivity|].
  pose proof (later_settings_replace_earlier_ones models_ext true false
                Demo.no_environ "8" "0.2" "6" "4" "0.3" "2" eq_refl)
    as (Hv & Ht & Hb & Hl & Hk).
  cbn [map]. fold first in Hv, Ht, Hb, Hl, Hk. fold second in Hv, Ht, Hb, Hl, Hk.
  rewrite Hv, Ht, Hb, Hl, (Hk "PATH"%string) by discriminate.
  reflexivity.
Defined.

(** X15: [main] lets no error out and tells what happened: when it logs
    an error (of the construction or of the run) no transform and no
    [clean_memory] call was made, so a failing item never shows as an
    error of [main]; when it logs the three counts, [total] is positive,
    [processed] and [failed] lie between zero and [total] and
    [processed + failed] is at least [total]. *)
Theorem main_reports_errors_before_items_only
    {World Dataset : Type} (ext : Externals World Dataset) (w : World)
    (env : environ) :
  match main ext w env with
  | (_, _, tr, ReportError _) =>
      filter is_dump tr = [] /\ filter is_clean tr = []
  | (_, _, tr, ReportCounts total processed failed) =>
      0 < total /\ 0 <= processed <= total /\ 0 <= failed <= total
      /\ total <= processed + failed
      /\ Z.of_nat (length (filter is_dump tr)) = total
  end.
Proof.
  unfold main.
  destruct (__init__ ext w env "output" "8" "0.2" "6" None)
    as [[w1 env1] [processor|e]]; [|now split].
  pose proof (returned_counts_facts ext processor w1 main_input_directory
                main_opts) as Hret.
  pose proof (raised_before_any_item ext processor w1 main_input_directory
                main_opts) as Hraise.
  destruct (process_directory ext processor w1 main_input_directory main_opts)
    as [[w2 tr] [[[total processed] failed]|e]].
  - specialize (Hret total processed failed eq_refl). cbv zeta in Hret.
    cbn [fst snd] in Hret. tauto.
  - exact (Hraise e eq_refl).
Qed.

Example main_on_a_missing_directory :
  main (Demo.demo_ext [] [] [] false) tt Demo.no_environ
  = (tt,
     fst (_init_environment (Demo.demo_ext [] [] [] false) tt Demo.no_environ
            "8" "0.2" "6"),
     [],
     ReportError (invalid_directory "my_test/source/image/video1")).
Proof. reflexivity. Qed.
